(** * Portable weather station: the button-driven interaction core

    A shallow embedding of [portableweather.ino]: the button debouncer
    ([setupButtons], [updateButtons], [pressedEdge], [releasedEdge],
    [isPressed]), the screen navigation in [loop], the on-screen keyboard
    gestures and the Wi-Fi connect state machine.

    Conventions.
    - A pin level is a [bool]: [HIGH] is [true], [LOW] is [false]; the
      buttons are wired with pull-ups, so a pressed button reads [LOW].
    - [unsigned long] values (timestamps, [toggles]) are [Z] in
      [0, 2^32); subtraction wraps as in C ([sub32]).
    - [int] values (indices, cursor) are [Z]; [%] is C's truncating
      remainder ([Z.rem]).
    - The hardware clock is an absolute [Z] number of milliseconds;
      [millis()] returns it modulo 2^32.  The clock advances only in
      [delay]; computation, drawing, the network scan and the HTTP
      requests take no time.
    - Sensor readings and fetched weather data only reach the display and
      are not modelled; [bmpPresent] and [wifiStatusText], which [loop]
      never writes, are left out of the globals.
    - The busy waits of [loop] take a bound on their iterations ([fuel]);
      [None] stands for a wait that outlasts it. *)

From Stdlib Require Import ZArith List Bool String Ascii Lia.
Import ListNotations.
Local Open Scope string_scope.
Local Open Scope Z_scope.

(** ** Machine arithmetic and constants *)

Definition HIGH : bool := true.
Definition LOW : bool := false.

Definition WORD : Z := 2 ^ 32.

(** [millis()] at absolute clock [c]. *)
Definition millis (c : Z) : Z := c mod WORD.

(** [a - b] on [unsigned long]. *)
Definition sub32 (a b : Z) : Z := (a - b) mod WORD.

(** [x + 1] on [unsigned int]. *)
Definition incr32 (x : Z) : Z := (x + 1) mod WORD.

Definition DEBOUNCE_MS : Z := 30.
Definition LONGPRESS_MS : Z := 1200.
Definition UI_REFRESH_MS : Z := 700.
Definition LOCAL_WEATHER_INTERVAL : Z := 1500.
Definition WIFI_CONNECT_TIMEOUT : Z := 20000.

Definition BTN_UP_PIN : Z := 15.
Definition BTN_DOWN_PIN : Z := 32.
Definition BTN_SEL_PIN : Z := 21.
Definition BTN_BACK_PIN : Z := 12.

(** ** Buttons *)

Record Btn : Type := mkBtn {
  pin : Z;
  stable : bool;       (* debounced stable state (HIGH or LOW) *)
  lastRaw : bool;      (* last raw reading *)
  lastChange : Z;
  pressedAt : Z;       (* millis when became pressed (LOW) *)
  prevStable : bool;   (* previous stable state for edge detection *)
  toggles : Z
}.

(** The lambda [initB] of [setupButtons]: [raw] is [digitalRead(pin)] and
    [t] is [millis()]. *)
Definition initB (p : Z) (t : Z) (raw : bool) : Btn :=
  {| pin := p; stable := raw; lastRaw := raw; lastChange := t;
     pressedAt := 0; prevStable := raw; toggles := 0 |}.

(** The lambda [updateOne] of [updateButtons]: [t] is the [millis()] value
    read once at the top of [updateButtons], [raw] is [digitalRead(b.pin)]. *)
Definition updateOne (t : Z) (raw : bool) (b : Btn) : Btn :=
  if negb (Bool.eqb raw (lastRaw b)) then
    {| pin := pin b; stable := stable b; lastRaw := raw; lastChange := t;
       pressedAt := pressedAt b; prevStable := prevStable b;
       toggles := toggles b |}
  else if (DEBOUNCE_MS <? sub32 t (lastChange b))
          && negb (Bool.eqb (stable b) raw) then
    {| pin := pin b; stable := raw; lastRaw := lastRaw b;
       lastChange := lastChange b;
       pressedAt := if Bool.eqb raw LOW then t else 0;
       prevStable := prevStable b;
       toggles := incr32 (toggles b) |}
  else b.

Definition set_prevStable (v : bool) (b : Btn) : Btn :=
  {| pin := pin b; stable := stable b; lastRaw := lastRaw b;
     lastChange := lastChange b; pressedAt := pressedAt b;
     prevStable := v; toggles := toggles b |}.

(** [pressedEdge(Btn &b)]: the result and the button after the call. *)
Definition pressedEdge (b : Btn) : bool * Btn :=
  (prevStable b && Bool.eqb (stable b) LOW, set_prevStable (stable b) b).

(** [releasedEdge(Btn &b)]. *)
Definition releasedEdge (b : Btn) : bool * Btn :=
  (negb (prevStable b) && Bool.eqb (stable b) HIGH,
   set_prevStable (stable b) b).

Definition isPressed (b : Btn) : bool := Bool.eqb (stable b) LOW.

(** *** One button driven by a sequence of samples

    A sample is the absolute clock at which [updateButtons] ran and the raw
    level it read.  In [loop] every [updateButtons] is followed by one
    [pressedEdge] query per button; [tickBtn] is that pair for one button. *)

Definition Sample : Type := (Z * bool)%type.

Definition tickBtn (b : Btn) (x : Sample) : bool * Btn :=
  pressedEdge (updateOne (millis (fst x)) (snd x) b).

Fixpoint runSamples (b : Btn) (xs : list Sample) : Btn :=
  match xs with
  | [] => b
  | x :: xs' => runSamples (snd (tickBtn b x)) xs'
  end.

(** The answers of [pressedEdge], one per sample. *)
Fixpoint pressedEdges (b : Btn) (xs : list Sample) : list bool :=
  match xs with
  | [] => []
  | x :: xs' => fst (tickBtn b x) :: pressedEdges (snd (tickBtn b x)) xs'
  end.

Definition allLow (xs : list Sample) : Prop :=
  Forall (fun x => snd x = LOW) xs.

(** Every sample of the run lies within [d] milliseconds of its first. *)
Definition spanWithin (d : Z) (xs : list Sample) : Prop :=
  match xs with
  | [] => True
  | x :: _ => Forall (fun y => fst x <= fst y <= fst x + d) xs
  end.

(** The raw level seen last: the last sample's, or the initial one. *)
Definition lastLevel (r0 : bool) (xs : list Sample) : bool :=
  last (map snd xs) r0.

Definition fires (es : list bool) : nat := count_occ bool_dec es true.

(** The answers of [pressedEdge] while the samples of [run] are processed,
    when the button has seen [pre] before and sees [post] afterwards. *)
Definition edgesDuring (b : Btn) (pre run post : list Sample) : list bool :=
  firstn (List.length run)
    (skipn (List.length pre) (pressedEdges b (pre ++ run ++ post))).

(** The operations that touch a [Btn] anywhere in the sketch. *)
Inductive BtnOp : Type :=
| OpUpdate (t : Z) (raw : bool)
| OpPressedEdge
| OpReleasedEdge.

Definition applyOp (b : Btn) (o : BtnOp) : Btn :=
  match o with
  | OpUpdate t raw => updateOne t raw b
  | OpPressedEdge => snd (pressedEdge b)
  | OpReleasedEdge => snd (releasedEdge b)
  end.

Definition runOps (b : Btn) (os : list BtnOp) : Btn := fold_left applyOp os b.

Definition nonzeroStamp (o : BtnOp) : Prop :=
  match o with
  | OpUpdate t _ => t <> 0
  | _ => True
  end.

(** ** Screens, connection states and the effects the sketch has on its
    collaborators *)

Inductive Screen : Type :=
| SCREEN_LOADING
| SCREEN_MENU
| SCREEN_LOCAL_WEATHER
| SCREEN_API_WEATHER
| SCREEN_GEOLOCATION
| SCREEN_WIFI_SCAN
| SCREEN_WIFI_PASSWORD
| SCREEN_WIFI_CONNECTING
| SCREEN_WIFI_RESULT
| SCREEN_INFO
| SCREEN_WIFI_KEYBOARD
(** Modelled from the spec: [loop] uses the enumerator
    [SCREEN_WIFI_MANUAL_SETUP], which [enum Screen] does not declare; it is
    the spec's ManualCredentialSetup screen, a screen of its own. *)
| SCREEN_WIFI_MANUAL_SETUP.

Inductive WiFiConnectState : Type :=
| WFC_IDLE
| WFC_CONNECTING
| WFC_CONNECTED
| WFC_FAILED.

(** What a [show...] function puts on the display. *)
Inductive View : Type :=
| VMenu
| VLocalFrame
| VLocalValues
| VApiFetching
| VApiWeather
| VGeoFrame
| VGeoNoWifi
| VGeoFetching
| VGeolocation
| VScanning
| VWiFiScan
| VKeyboard
| VConnecting (ssid : string)
| VResult (ok : bool) (msg : string)
| VInfo
| VManualSetup
| VPasswordEntry.

(** Calls into the display, the radio, the HTTP client and [Preferences],
    in the order the sketch makes them. *)
Inductive Event : Type :=
| EvDraw (v : View)
| EvWifiStatus
| EvWifiDisconnect
| EvWifiMode
| EvWifiBegin (ssid pwd : string)
| EvWifiScan
| EvHttpGet (url : string)
| EvPutString (key value : string).

(** The world outside the sketch, as a function of the absolute clock. *)
Record Env : Type := mkEnv {
  digitalRead : Z -> Z -> bool;   (* pin, clock *)
  wifiLinked : Z -> bool;         (* WiFi.status() == WL_CONNECTED *)
  localIP : Z -> string;          (* WiFi.localIP().toString() *)
  scanNetworks : Z -> Z;          (* WiFi.scanNetworks(false, true) *)
  scanSSID : Z -> Z -> string     (* clock, i: WiFi.SSID(i) *)
}.

Definition MENU_ITEMS : list string :=
  [ "Local Weather (BMP)"; "API Weather (Mindanao)"; "Geolocation";
    "Connect to Wi-Fi"; "Info / About" ]%string.

Definition MENU_COUNT : Z := Z.of_nat (List.length MENU_ITEMS).

Definition KEYBOARD_ROWS : Z := 6.
Definition KEYBOARD_COLS : Z := 10.

Definition keyboardCells : list string :=
  [ "abcdefghiJ"; "klmnopqrst"; "uvwxyzABCD"; "EFGHIJKLMN"; "OPQRSTUVWX";
    "YZ01234567" ]%string.

Definition extraSymbols : string := "!@#.-_/:*?&".

Definition PREF_SSID_KEY : string := "wifi_ssid".
Definition PREF_PWD_KEY : string := "wifi_pwd".

Record UI : Type := mkUI {
  currentScreen : Screen;
  previousScreen : Screen;
  menuIndex : Z;
  scannedSSIDs : list string;
  scannedCount : Z;
  wifiListIndex : Z;
  manualSSID : string;
  manualPassword : string;
  editingSSID : bool;
  wifiConnected : bool;
  localWeatherInitialized : bool;
  localWeatherLastUpdate : Z;
  wifiConnectState : WiFiConnectState;
  wifiConnectStart : Z;
  lastUiRefresh : Z;
  kbRow : Z;
  kbCol : Z;
  prefs : list (string * string);
  log : list Event
}.

Definition set_currentScreen (v : Screen) (u : UI) : UI :=
  {| currentScreen := v; previousScreen := previousScreen u; menuIndex :=
     menuIndex u; scannedSSIDs := scannedSSIDs u; scannedCount :=
     scannedCount u; wifiListIndex := wifiListIndex u; manualSSID :=
     manualSSID u; manualPassword := manualPassword u; editingSSID :=
     editingSSID u; wifiConnected := wifiConnected u;
     localWeatherInitialized := localWeatherInitialized u;
     localWeatherLastUpdate := localWeatherLastUpdate u; wifiConnectState
     := wifiConnectState u; wifiConnectStart := wifiConnectStart u;
     lastUiRefresh := lastUiRefresh u; kbRow := kbRow u; kbCol := kbCol u;
     prefs := prefs u; log := log u |}.

Definition set_previousScreen (v : Screen) (u : UI) : UI :=
  {| currentScreen := currentScreen u; previousScreen := v; menuIndex :=
     menuIndex u; scannedSSIDs := scannedSSIDs u; scannedCount :=
     scannedCount u; wifiListIndex := wifiListIndex u; manualSSID :=
     manualSSID u; manualPassword := manualPassword u; editingSSID :=
     editingSSID u; wifiConnected := wifiConnected u;
     localWeatherInitialized := localWeatherInitialized u;
     localWeatherLastUpdate := localWeatherLastUpdate u; wifiConnectState
     := wifiConnectState u; wifiConnectStart := wifiConnectStart u;
     lastUiRefresh := lastUiRefresh u; kbRow := kbRow u; kbCol := kbCol u;
     prefs := prefs u; log := log u |}.

Definition set_menuIndex (v : Z) (u : UI) : UI :=
  {| currentScreen := currentScreen u; previousScreen := previousScreen u;
     menuIndex := v; scannedSSIDs := scannedSSIDs u; scannedCount :=
     scannedCount u; wifiListIndex := wifiListIndex u; manualSSID :=
     manualSSID u; manualPassword := manualPassword u; editingSSID :=
     editingSSID u; wifiConnected := wifiConnected u;
     localWeatherInitialized := localWeatherInitialized u;
     localWeatherLastUpdate := localWeatherLastUpdate u; wifiConnectState
     := wifiConnectState u; wifiConnectStart := wifiConnectStart u;
     lastUiRefresh := lastUiRefresh u; kbRow := kbRow u; kbCol := kbCol u;
     prefs := prefs u; log := log u |}.

Definition set_scannedSSIDs (v : list string) (u : UI) : UI :=
  {| currentScreen := currentScreen u; previousScreen := previousScreen u;
     menuIndex := menuIndex u; scannedSSIDs := v; scannedCount :=
     scannedCount u; wifiListIndex := wifiListIndex u; manualSSID :=
     manualSSID u; manualPassword := manualPassword u; editingSSID :=
     editingSSID u; wifiConnected := wifiConnected u;
     localWeatherInitialized := localWeatherInitialized u;
     localWeatherLastUpdate := localWeatherLastUpdate u; wifiConnectState
     := wifiConnectState u; wifiConnectStart := wifiConnectStart u;
     lastUiRefresh := lastUiRefresh u; kbRow := kbRow u; kbCol := kbCol u;
     prefs := prefs u; log := log u |}.

Definition set_scannedCount (v : Z) (u : UI) : UI :=
  {| currentScreen := currentScreen u; previousScreen := previousScreen u;
     menuIndex := menuIndex u; scannedSSIDs := scannedSSIDs u;
     scannedCount := v; wifiListIndex := wifiListIndex u; manualSSID :=
     manualSSID u; manualPassword := manualPassword u; editingSSID :=
     editingSSID u; wifiConnected := wifiConnected u;
     localWeatherInitialized := localWeatherInitialized u;
     localWeatherLastUpdate := localWeatherLastUpdate u; wifiConnectState
     := wifiConnectState u; wifiConnectStart := wifiConnectStart u;
     lastUiRefresh := lastUiRefresh u; kbRow := kbRow u; kbCol := kbCol u;
     prefs := prefs u; log := log u |}.

Definition set_wifiListIndex (v : Z) (u : UI) : UI :=
  {| currentScreen := currentScreen u; previousScreen := previousScreen u;
     menuIndex := menuIndex u; scannedSSIDs := scannedSSIDs u;
     scannedCount := scannedCount u; wifiListIndex := v; manualSSID :=
     manualSSID u; manualPassword := manualPassword u; editingSSID :=
     editingSSID u; wifiConnected := wifiConnected u;
     localWeatherInitialized := localWeatherInitialized u;
     localWeatherLastUpdate := localWeatherLastUpdate u; wifiConnectState
     := wifiConnectState u; wifiConnectStart := wifiConnectStart u;
     lastUiRefresh := lastUiRefresh u; kbRow := kbRow u; kbCol := kbCol u;
     prefs := prefs u; log := log u |}.

Definition set_manualSSID (v : string) (u : UI) : UI :=
  {| currentScreen := currentScreen u; previousScreen := previousScreen u;
     menuIndex := menuIndex u; scannedSSIDs := scannedSSIDs u;
     scannedCount := scannedCount u; wifiListIndex := wifiListIndex u;
     manualSSID := v; manualPassword := manualPassword u; editingSSID :=
     editingSSID u; wifiConnected := wifiConnected u;
     localWeatherInitialized := localWeatherInitialized u;
     localWeatherLastUpdate := localWeatherLastUpdate u; wifiConnectState
     := wifiConnectState u; wifiConnectStart := wifiConnectStart u;
     lastUiRefresh := lastUiRefresh u; kbRow := kbRow u; kbCol := kbCol u;
     prefs := prefs u; log := log u |}.

Definition set_manualPassword (v : string) (u : UI) : UI :=
  {| currentScreen := currentScreen u; previousScreen := previousScreen u;
     menuIndex := menuIndex u; scannedSSIDs := scannedSSIDs u;
     scannedCount := scannedCount u; wifiListIndex := wifiListIndex u;
     manualSSID := manualSSID u; manualPassword := v; editingSSID :=
     editingSSID u; wifiConnected := wifiConnected u;
     localWeatherInitialized := localWeatherInitialized u;
     localWeatherLastUpdate := localWeatherLastUpdate u; wifiConnectState
     := wifiConnectState u; wifiConnectStart := wifiConnectStart u;
     lastUiRefresh := lastUiRefresh u; kbRow := kbRow u; kbCol := kbCol u;
     prefs := prefs u; log := log u |}.

Definition set_editingSSID (v : bool) (u : UI) : UI :=
  {| currentScreen := currentScreen u; previousScreen := previousScreen u;
     menuIndex := menuIndex u; scannedSSIDs := scannedSSIDs u;
     scannedCount := scannedCount u; wifiListIndex := wifiListIndex u;
     manualSSID := manualSSID u; manualPassword := manualPassword u;
     editingSSID := v; wifiConnected := wifiConnected u;
     localWeatherInitialized := localWeatherInitialized u;
     localWeatherLastUpdate := localWeatherLastUpdate u; wifiConnectState
     := wifiConnectState u; wifiConnectStart := wifiConnectStart u;
     lastUiRefresh := lastUiRefresh u; kbRow := kbRow u; kbCol := kbCol u;
     prefs := prefs u; log := log u |}.

Definition set_wifiConnected (v : bool) (u : UI) : UI :=
  {| currentScreen := currentScreen u; previousScreen := previousScreen u;
     menuIndex := menuIndex u; scannedSSIDs := scannedSSIDs u;
     scannedCount := scannedCount u; wifiListIndex := wifiListIndex u;
     manualSSID := manualSSID u; manualPassword := manualPassword u;
     editingSSID := editingSSID u; wifiConnected := v;
     localWeatherInitialized := localWeatherInitialized u;
     localWeatherLastUpdate := localWeatherLastUpdate u; wifiConnectState
     := wifiConnectState u; wifiConnectStart := wifiConnectStart u;
     lastUiRefresh := lastUiRefresh u; kbRow := kbRow u; kbCol := kbCol u;
     prefs := prefs u; log := log u |}.

Definition set_localWeatherInitialized (v : bool) (u : UI) : UI :=
  {| currentScreen := currentScreen u; previousScreen := previousScreen u;
     menuIndex := menuIndex u; scannedSSIDs := scannedSSIDs u;
     scannedCount := scannedCount u; wifiListIndex := wifiListIndex u;
     manualSSID := manualSSID u; manualPassword := manualPassword u;
     editingSSID := editingSSID u; wifiConnected := wifiConnected u;
     localWeatherInitialized := v; localWeatherLastUpdate :=
     localWeatherLastUpdate u; wifiConnectState := wifiConnectState u;
     wifiConnectStart := wifiConnectStart u; lastUiRefresh :=
     lastUiRefresh u; kbRow := kbRow u; kbCol := kbCol u; prefs := prefs
     u; log := log u |}.

Definition set_localWeatherLastUpdate (v : Z) (u : UI) : UI :=
  {| currentScreen := currentScreen u; previousScreen := previousScreen u;
     menuIndex := menuIndex u; scannedSSIDs := scannedSSIDs u;
     scannedCount := scannedCount u; wifiListIndex := wifiListIndex u;
     manualSSID := manualSSID u; manualPassword := manualPassword u;
     editingSSID := editingSSID u; wifiConnected := wifiConnected u;
     localWeatherInitialized := localWeatherInitialized u;
     localWeatherLastUpdate := v; wifiConnectState := wifiConnectState u;
     wifiConnectStart := wifiConnectStart u; lastUiRefresh :=
     lastUiRefresh u; kbRow := kbRow u; kbCol := kbCol u; prefs := prefs
     u; log := log u |}.

Definition set_wifiConnectState (v : WiFiConnectState) (u : UI) : UI :=
  {| currentScreen := currentScreen u; previousScreen := previousScreen u;
     menuIndex := menuIndex u; scannedSSIDs := scannedSSIDs u;
     scannedCount := scannedCount u; wifiListIndex := wifiListIndex u;
     manualSSID := manualSSID u; manualPassword := manualPassword u;
     editingSSID := editingSSID u; wifiConnected := wifiConnected u;
     localWeatherInitialized := localWeatherInitialized u;
     localWeatherLastUpdate := localWeatherLastUpdate u; wifiConnectState
     := v; wifiConnectStart := wifiConnectStart u; lastUiRefresh :=
     lastUiRefresh u; kbRow := kbRow u; kbCol := kbCol u; prefs := prefs
     u; log := log u |}.

Definition set_wifiConnectStart (v : Z) (u : UI) : UI :=
  {| currentScreen := currentScreen u; previousScreen := previousScreen u;
     menuIndex := menuIndex u; scannedSSIDs := scannedSSIDs u;
     scannedCount := scannedCount u; wifiListIndex := wifiListIndex u;
     manualSSID := manualSSID u; manualPassword := manualPassword u;
     editingSSID := editingSSID u; wifiConnected := wifiConnected u;
     localWeatherInitialized := localWeatherInitialized u;
     localWeatherLastUpdate := localWeatherLastUpdate u; wifiConnectState
     := wifiConnectState u; wifiConnectStart := v; lastUiRefresh :=
     lastUiRefresh u; kbRow := kbRow u; kbCol := kbCol u; prefs := prefs
     u; log := log u |}.

Definition set_lastUiRefresh (v : Z) (u : UI) : UI :=
  {| currentScreen := currentScreen u; previousScreen := previousScreen u;
     menuIndex := menuIndex u; scannedSSIDs := scannedSSIDs u;
     scannedCount := scannedCount u; wifiListIndex := wifiListIndex u;
     manualSSID := manualSSID u; manualPassword := manualPassword u;
     editingSSID := editingSSID u; wifiConnected := wifiConnected u;
     localWeatherInitialized := localWeatherInitialized u;
     localWeatherLastUpdate := localWeatherLastUpdate u; wifiConnectState
     := wifiConnectState u; wifiConnectStart := wifiConnectStart u;
     lastUiRefresh := v; kbRow := kbRow u; kbCol := kbCol u; prefs :=
     prefs u; log := log u |}.

Definition set_kbRow (v : Z) (u : UI) : UI :=
  {| currentScreen := currentScreen u; previousScreen := previousScreen u;
     menuIndex := menuIndex u; scannedSSIDs := scannedSSIDs u;
     scannedCount := scannedCount u; wifiListIndex := wifiListIndex u;
     manualSSID := manualSSID u; manualPassword := manualPassword u;
     editingSSID := editingSSID u; wifiConnected := wifiConnected u;
     localWeatherInitialized := localWeatherInitialized u;
     localWeatherLastUpdate := localWeatherLastUpdate u; wifiConnectState
     := wifiConnectState u; wifiConnectStart := wifiConnectStart u;
     lastUiRefresh := lastUiRefresh u; kbRow := v; kbCol := kbCol u; prefs
     := prefs u; log := log u |}.

Definition set_kbCol (v : Z) (u : UI) : UI :=
  {| currentScreen := currentScreen u; previousScreen := previousScreen u;
     menuIndex := menuIndex u; scannedSSIDs := scannedSSIDs u;
     scannedCount := scannedCount u; wifiListIndex := wifiListIndex u;
     manualSSID := manualSSID u; manualPassword := manualPassword u;
     editingSSID := editingSSID u; wifiConnected := wifiConnected u;
     localWeatherInitialized := localWeatherInitialized u;
     localWeatherLastUpdate := localWeatherLastUpdate u; wifiConnectState
     := wifiConnectState u; wifiConnectStart := wifiConnectStart u;
     lastUiRefresh := lastUiRefresh u; kbRow := kbRow u; kbCol := v; prefs
     := prefs u; log := log u |}.

Definition set_prefs (v : list (string * string)) (u : UI) : UI :=
  {| currentScreen := currentScreen u; previousScreen := previousScreen u;
     menuIndex := menuIndex u; scannedSSIDs := scannedSSIDs u;
     scannedCount := scannedCount u; wifiListIndex := wifiListIndex u;
     manualSSID := manualSSID u; manualPassword := manualPassword u;
     editingSSID := editingSSID u; wifiConnected := wifiConnected u;
     localWeatherInitialized := localWeatherInitialized u;
     localWeatherLastUpdate := localWeatherLastUpdate u; wifiConnectState
     := wifiConnectState u; wifiConnectStart := wifiConnectStart u;
     lastUiRefresh := lastUiRefresh u; kbRow := kbRow u; kbCol := kbCol u;
     prefs := v; log := log u |}.

Definition set_log (v : list Event) (u : UI) : UI :=
  {| currentScreen := currentScreen u; previousScreen := previousScreen u;
     menuIndex := menuIndex u; scannedSSIDs := scannedSSIDs u;
     scannedCount := scannedCount u; wifiListIndex := wifiListIndex u;
     manualSSID := manualSSID u; manualPassword := manualPassword u;
     editingSSID := editingSSID u; wifiConnected := wifiConnected u;
     localWeatherInitialized := localWeatherInitialized u;
     localWeatherLastUpdate := localWeatherLastUpdate u; wifiConnectState
     := wifiConnectState u; wifiConnectStart := wifiConnectStart u;
     lastUiRefresh := lastUiRefresh u; kbRow := kbRow u; kbCol := kbCol u;
     prefs := prefs u; log := v |}.

(** ** Program state *)

Record Buttons : Type := mkButtons {
  btnUp : Btn;
  btnDown : Btn;
  btnSel : Btn;
  btnBack : Btn
}.

(** The globals of the sketch ([ui]), its four buttons and the clock. *)
Record State : Type := mkState {
  clock : Z;
  btns : Buttons;
  ui : UI
}.

Definition set_clock (c : Z) (s : State) : State :=
  {| clock := c; btns := btns s; ui := ui s |}.
Definition set_btns (b : Buttons) (s : State) : State :=
  {| clock := clock s; btns := b; ui := ui s |}.
Definition set_ui (u : UI) (s : State) : State :=
  {| clock := clock s; btns := btns s; ui := u |}.

Definition set_btnUp (b : Btn) (bs : Buttons) : Buttons :=
  {| btnUp := b; btnDown := btnDown bs; btnSel := btnSel bs;
     btnBack := btnBack bs |}.
Definition set_btnDown (b : Btn) (bs : Buttons) : Buttons :=
  {| btnUp := btnUp bs; btnDown := b; btnSel := btnSel bs;
     btnBack := btnBack bs |}.
Definition set_btnSel (b : Btn) (bs : Buttons) : Buttons :=
  {| btnUp := btnUp bs; btnDown := btnDown bs; btnSel := b;
     btnBack := btnBack bs |}.
Definition set_btnBack (b : Btn) (bs : Buttons) : Buttons :=
  {| btnUp := btnUp bs; btnDown := btnDown bs; btnSel := btnSel bs;
     btnBack := b |}.

(** The initial values of the globals. *)
Definition initialUI : UI :=
  {| currentScreen := SCREEN_LOADING; previousScreen := SCREEN_LOADING;
     menuIndex := 0; scannedSSIDs := repeat EmptyString 32;
     scannedCount := 0; wifiListIndex := 0; manualSSID := EmptyString;
     manualPassword := EmptyString; editingSSID := true;
     wifiConnected := false; localWeatherInitialized := false;
     localWeatherLastUpdate := 0; wifiConnectState := WFC_IDLE;
     wifiConnectStart := 0; lastUiRefresh := 0; kbRow := 0; kbCol := 0;
     prefs := []; log := [] |}.

Notation "x |> f" := (f x) (at level 68, left associativity, only parsing).

Definition emit (e : Event) (u : UI) : UI := set_log (log u ++ [e]) u.
Definition draw (v : View) (u : UI) : UI := emit (EvDraw v) u.

Definition onUI (f : UI -> UI) (s : State) : State := set_ui (f (ui s)) s.

(** [delay(ms)]. *)
Definition delay (ms : Z) (s : State) : State := set_clock (clock s + ms) s.

(** [preferences.putString(key, value)]. *)
Definition putString (key value : string) (u : UI) : UI :=
  u |> set_prefs ((key, value)
         :: filter (fun kv => negb (String.eqb (fst kv) key)) (prefs u))
    |> emit (EvPutString key value).

Definition getString (key : string) (u : UI) : option string :=
  option_map snd (find (fun kv => String.eqb (fst kv) key) (prefs u)).

(** ** Buttons in the state *)

(** [setupButtons]. *)
Definition setupButtons (env : Env) (c : Z) : Buttons :=
  let initAt p := initB p (millis c) (digitalRead env p c) in
  {| btnUp := initAt BTN_UP_PIN; btnDown := initAt BTN_DOWN_PIN;
     btnSel := initAt BTN_SEL_PIN; btnBack := initAt BTN_BACK_PIN |}.

(** [updateButtons] at clock [c]. *)
Definition updateButtonsAt (env : Env) (c : Z) (bs : Buttons) : Buttons :=
  let t := millis c in
  let upd b := updateOne t (digitalRead env (pin b) c) b in
  {| btnUp := upd (btnUp bs); btnDown := upd (btnDown bs);
     btnSel := upd (btnSel bs); btnBack := upd (btnBack bs) |}.

Definition updateButtons (env : Env) (s : State) : State :=
  set_btns (updateButtonsAt env (clock s) (btns s)) s.

(** [while (isPressed(b)) { delay(10); updateButtons(); }] for the button
    [which] selects.  The loop runs as long as the button stays pressed;
    [fuel] bounds the number of iterations and [None] means it ran out. *)
Fixpoint waitRelease (fuel : nat) (env : Env) (which : Buttons -> Btn)
    (s : State) : option State :=
  if isPressed (which (btns s)) then
    match fuel with
    | O => None
    | S fuel' => waitRelease fuel' env which (s |> delay 10 |> updateButtons env)
    end
  else Some s.

(** ** Screens *)

(** [showMenu]. *)
Definition showMenu (u : UI) : UI :=
  u |> set_localWeatherInitialized false |> draw VMenu.

(** [showLocalWeather]; [now] is [millis()].  The sensor values only reach
    the display. *)
Definition showLocalWeather (now : Z) (u : UI) : UI :=
  let u1 :=
    if localWeatherInitialized u then u
    else u |> draw VLocalFrame |> set_localWeatherInitialized true
           |> set_localWeatherLastUpdate 0 in
  if sub32 now (localWeatherLastUpdate u1) <? LOCAL_WEATHER_INTERVAL then u1
  else u1 |> set_localWeatherLastUpdate now |> draw VLocalValues.

Definition OPEN_METEO_BASE : string := "https://api.open-meteo.com/v1/forecast".

(** The URL [showAPISummaryWeather] builds: [OPEN_METEO_LAT = 8.5] and
    [OPEN_METEO_LON = 125.97], each printed with [%.4f]. *)
Definition openMeteoUrl : string :=
  String.append OPEN_METEO_BASE
    "?latitude=8.5000&longitude=125.9700&current_weather=true".

(** [showAPISummaryWeather]: the frame with "Fetching current weather...",
    one HTTP request, then the outcome (the values or an error) is
    drawn. *)
Definition showAPISummaryWeather (u : UI) : UI :=
  u |> draw VApiFetching
    |> emit (EvHttpGet openMeteoUrl)
    |> draw VApiWeather.

(** [showGeolocation]: the frame, then the link status; without a link
    "Wi-Fi not connected" is drawn, with one "Fetching location...", one
    HTTP request and then the outcome. *)
Definition showGeolocation (env : Env) (c : Z) (u : UI) : UI :=
  let u1 := u |> draw VGeoFrame |> emit EvWifiStatus in
  if wifiLinked env c then
    u1 |> draw VGeoFetching
       |> emit (EvHttpGet "https://geolocation-db.com/json/")
       |> draw VGeolocation
  else draw VGeoNoWifi u1.

(** [showWiFiScan]. *)
Definition showWiFiScan (u : UI) : UI := draw VWiFiScan u.

(** The stores [scannedSSIDs[i] = f i] for [i < n]. *)
Definition storeSSIDs (f : Z -> string) (n : nat) (l : list string)
    : list string :=
  map (fun i => f (Z.of_nat i)) (seq 0 n) ++ skipn n l.

(** [startWifiScanAndShow]. *)
Definition startWifiScanAndShow (env : Env) (s : State) : State :=
  let s1 := s |> onUI (draw VScanning) |> delay 80 in
  let found := scanNetworks env (clock s1) in
  let n := if 31 <? found then 31 else found in
  let u1 := emit EvWifiScan (ui s1) in
  let u2 :=
    if n <=? 0 then
      u1 |> set_scannedCount 1
         |> set_scannedSSIDs
              (storeSSIDs (fun _ => "No networks found") 1 (scannedSSIDs u1))
    else
      u1 |> set_scannedCount n
         |> set_scannedSSIDs
              (storeSSIDs (scanSSID env (clock s1)) (Z.to_nat n)
                 (scannedSSIDs u1)) in
  set_ui (u2 |> set_wifiListIndex 0 |> showWiFiScan) s1.

(** [showKeyboard]. *)
Definition showKeyboard (u : UI) : UI := draw VKeyboard u.

(** [showInfo]. *)
Definition showInfo (u : UI) : UI := draw VInfo u.

(** Modelled from the spec: [showWiFiManualSetup] is declared and called
    but not defined in the sketch; rendering of a screen is a drawing side
    effect only. *)
Definition showWiFiManualSetup (u : UI) : UI := draw VManualSetup u.

(** Modelled from the spec: [showWiFiPasswordEntry] is declared and called
    but not defined in the sketch; rendering of a screen is a drawing side
    effect only. *)
Definition showWiFiPasswordEntry (u : UI) : UI := draw VPasswordEntry u.

(** [startWiFiConnect(ssid, pwd)]. *)
Definition startWiFiConnect (ssid pwd : string) (s : State) : State :=
  s |> onUI (fun u =>
         u |> set_currentScreen SCREEN_WIFI_CONNECTING
           |> set_wifiConnectState WFC_CONNECTING
           |> set_wifiConnectStart (millis (clock s))
           |> draw (VConnecting ssid)
           |> putString PREF_SSID_KEY ssid
           |> putString PREF_PWD_KEY pwd
           |> emit EvWifiDisconnect)
    |> delay 120
    |> onUI (fun u => u |> emit EvWifiMode |> emit (EvWifiBegin ssid pwd)).

(** [showWiFiConnectResult(ok, msg)]. *)
Definition showWiFiConnectResult (ok : bool) (msg : string) (u : UI) : UI :=
  u |> set_currentScreen SCREEN_WIFI_RESULT |> draw (VResult ok msg).

(** ** The four short-press handlers of [loop] *)

(** Body of [if (pressedEdge(btnUp))]. *)
Definition handleUp (u : UI) : UI :=
  match currentScreen u with
  | SCREEN_MENU =>
      u |> set_menuIndex (Z.rem (menuIndex u - 1 + MENU_COUNT) MENU_COUNT)
        |> showMenu
  | SCREEN_WIFI_SCAN =>
      if 0 <? scannedCount u then
        u |> set_wifiListIndex (Z.max 0 (wifiListIndex u - 1)) |> showWiFiScan
      else u
  | SCREEN_WIFI_KEYBOARD =>
      u |> set_kbRow (Z.max 0 (kbRow u - 1)) |> showKeyboard
  | _ => u
  end.

(** Body of [if (pressedEdge(btnDown))]. *)
Definition handleDown (u : UI) : UI :=
  match currentScreen u with
  | SCREEN_MENU =>
      u |> set_menuIndex (Z.rem (menuIndex u + 1) MENU_COUNT) |> showMenu
  | SCREEN_WIFI_SCAN =>
      if 0 <? scannedCount u then
        u |> set_wifiListIndex
               (Z.min (scannedCount u - 1) (wifiListIndex u + 1))
          |> showWiFiScan
      else u
  | SCREEN_WIFI_KEYBOARD =>
      u |> set_kbRow (Z.min (KEYBOARD_ROWS - 1) (kbRow u + 1)) |> showKeyboard
  | _ => u
  end.

(** The [switch (menuIndex)] of the SELECT handler. *)
Definition menuDispatch (env : Env) (s : State) : State :=
  let i := menuIndex (ui s) in
  if i =? 0 then
    s |> onUI (fun u =>
           u |> set_currentScreen SCREEN_LOCAL_WEATHER
             |> set_localWeatherInitialized false
             |> showLocalWeather (millis (clock s)))
  else if i =? 1 then
    s |> onUI (fun u =>
           u |> set_currentScreen SCREEN_API_WEATHER |> showAPISummaryWeather)
  else if i =? 2 then
    s |> onUI (fun u =>
           u |> set_currentScreen SCREEN_GEOLOCATION
             |> showGeolocation env (clock s))
  else if i =? 3 then
    s |> onUI (set_currentScreen SCREEN_WIFI_SCAN) |> startWifiScanAndShow env
  else if i =? 4 then
    s |> onUI (fun u =>
           u |> set_currentScreen SCREEN_WIFI_MANUAL_SETUP
             |> showWiFiManualSetup)
  else if i =? 5 then
    s |> onUI (fun u => u |> set_currentScreen SCREEN_INFO |> showInfo)
  else s.

Definition toMenu (u : UI) : UI :=
  u |> set_currentScreen SCREEN_MENU |> showMenu.

(** Body of [if (pressedEdge(btnSel))]. *)
Definition handleSelect (env : Env) (s : State) : State :=
  match currentScreen (ui s) with
  | SCREEN_MENU =>
      s |> onUI (fun u => set_previousScreen (currentScreen u) u)
        |> menuDispatch env
  | SCREEN_LOCAL_WEATHER => onUI toMenu s
  | SCREEN_API_WEATHER => onUI toMenu s
  | SCREEN_GEOLOCATION => onUI toMenu s
  | SCREEN_WIFI_SCAN =>
      s |> onUI (fun u =>
        if 0 <? scannedCount u then
          u |> set_manualSSID
                 (nth (Z.to_nat (wifiListIndex u)) (scannedSSIDs u)
                    EmptyString)
            |> set_manualPassword EmptyString
            |> set_editingSSID false
            |> set_currentScreen SCREEN_WIFI_KEYBOARD
            |> set_kbRow 0 |> set_kbCol 0
            |> showKeyboard
        else u)
  | SCREEN_WIFI_PASSWORD => onUI showWiFiPasswordEntry s
  | SCREEN_WIFI_MANUAL_SETUP =>
      s |> onUI (fun u =>
        u |> set_editingSSID (negb (editingSSID u)) |> showWiFiManualSetup)
  | SCREEN_WIFI_KEYBOARD =>
      s |> onUI (fun u =>
        u |> set_kbCol (Z.min (KEYBOARD_COLS - 1) (kbCol u + 1))
          |> showKeyboard)
  | SCREEN_WIFI_CONNECTING => s
  | SCREEN_WIFI_RESULT => onUI toMenu s
  | SCREEN_INFO => onUI toMenu s
  | SCREEN_LOADING => s
  end.

(** Body of [if (pressedEdge(btnBack))]. *)
Definition handleBack (u : UI) : UI :=
  match currentScreen u with
  | SCREEN_MENU => u
  | SCREEN_WIFI_KEYBOARD =>
      u |> set_kbCol (Z.max 0 (kbCol u - 1)) |> showKeyboard
  | SCREEN_LOCAL_WEATHER => toMenu u
  | SCREEN_API_WEATHER => toMenu u
  | SCREEN_GEOLOCATION => toMenu u
  | SCREEN_WIFI_SCAN => toMenu u
  | SCREEN_WIFI_MANUAL_SETUP => toMenu u
  | SCREEN_WIFI_CONNECTING =>
      u |> emit EvWifiDisconnect
        |> set_wifiConnectState WFC_FAILED
        |> showWiFiConnectResult false "Cancelled by user"
  | _ => toMenu u
  end.

(** ** Long-press gestures *)

(** [isPressed(b) && b.pressedAt != 0 && (millis() - b.pressedAt) >
    LONGPRESS_MS], with [now] the [millis()] value. *)
Definition longHeld (now : Z) (b : Btn) : bool :=
  isPressed b && negb (pressedAt b =? 0)
  && (LONGPRESS_MS <? sub32 now (pressedAt b)).

(** [s[i]] on a C string; an index past the end reads the terminator. *)
Definition charAt (s : string) (i : Z) : ascii :=
  match String.get (Z.to_nat i) s with
  | Some c => c
  | None => Ascii.zero
  end.

(** The character under the cursor, with the last row's columns from 8 on
    taken from [extraSymbols]. *)
Definition highlightedChar (u : UI) : ascii :=
  let ch := charAt (nth (Z.to_nat (kbRow u)) keyboardCells EmptyString)
              (kbCol u) in
  if (kbRow u =? KEYBOARD_ROWS - 1) && (8 <=? kbCol u) then
    let symIndex := kbCol u - 8 in
    if symIndex <? Z.of_nat (String.length extraSymbols)
    then charAt extraSymbols symIndex else ch
  else ch.

Definition appendChar (s : string) (ch : ascii) : string :=
  s ++ String ch EmptyString.

(** [s.remove(s.length() - 1)]. *)
Definition dropLast (s : string) : string :=
  substring 0 (String.length s - 1) s.

(** The buffer the keyboard edits. *)
Definition activeBuffer (u : UI) : string :=
  if editingSSID u then manualSSID u else manualPassword u.

(** Insertion of the highlighted character into the active field. *)
Definition insertHighlighted (u : UI) : UI :=
  let ch := highlightedChar u in
  if editingSSID u then
    if (String.length (manualSSID u) <? 32)%nat
    then set_manualSSID (appendChar (manualSSID u) ch) u else u
  else
    if (String.length (manualPassword u) <? 64)%nat
    then set_manualPassword (appendChar (manualPassword u) ch) u else u.

(** Deletion of the last character of the active field. *)
Definition deleteLast (u : UI) : UI :=
  if editingSSID u then
    if (0 <? String.length (manualSSID u))%nat
    then set_manualSSID (dropLast (manualSSID u)) u else u
  else
    if (0 <? String.length (manualPassword u))%nat
    then set_manualPassword (dropLast (manualPassword u)) u else u.

Definition andThen (m : option State) (k : State -> option State)
    : option State :=
  match m with
  | Some s => k s
  | None => None
  end.

Notation "m >>= k" := (andThen m k) (at level 50, left associativity).

(** SELECT long on the keyboard: insert, then wait for the release. *)
Definition keyboardSelectLong (fuel : nat) (env : Env) (s : State)
    : option State :=
  if longHeld (millis (clock s)) (btnSel (btns s)) then
    waitRelease fuel env btnSel (onUI insertHighlighted s)
      >>= fun s' => Some (onUI showKeyboard s')
  else Some s.

(** BACK long on the keyboard: delete, then wait for the release. *)
Definition keyboardBackLong (fuel : nat) (env : Env) (s : State)
    : option State :=
  if longHeld (millis (clock s)) (btnBack (btns s)) then
    waitRelease fuel env btnBack (onUI deleteLast s)
      >>= fun s' => Some (onUI showKeyboard s')
  else Some s.

(** SELECT + BACK long together: save and connect. *)
Definition keyboardConfirm (s : State) : State :=
  let sel := btnSel (btns s) in
  let back := btnBack (btns s) in
  if isPressed sel && isPressed back
     && negb (pressedAt sel =? 0) && negb (pressedAt back =? 0) then
    let heldSel := sub32 (millis (clock s)) (pressedAt sel) in
    let heldBack := sub32 (millis (clock s)) (pressedAt back) in
    if (LONGPRESS_MS <? heldSel) && (LONGPRESS_MS <? heldBack) then
      s |> onUI (fun u =>
             u |> putString PREF_SSID_KEY (manualSSID u)
               |> putString PREF_PWD_KEY (manualPassword u))
        |> (fun s1 =>
              startWiFiConnect (manualSSID (ui s1)) (manualPassword (ui s1))
                s1)
        |> delay 40
    else s
  else s.

(** The block [if (currentScreen == SCREEN_WIFI_KEYBOARD) { ... }], with
    its readings of [millis()] in the tests all at the clock the block has
    reached: the clock moves only in [delay].  [keyboardLongPressAt] is
    the block with time passing between the readings. *)
Definition keyboardLongPress (fuel : nat) (env : Env) (s : State)
    : option State :=
  match currentScreen (ui s) with
  | SCREEN_WIFI_KEYBOARD =>
      keyboardSelectLong fuel env s
        >>= keyboardBackLong fuel env
        >>= fun s' => Some (keyboardConfirm s')
  | _ => Some s
  end.

(** The block [if (currentScreen == SCREEN_WIFI_MANUAL_SETUP) { ... }]. *)
Definition manualSetupLongPress (fuel : nat) (env : Env) (s : State)
    : option State :=
  match currentScreen (ui s) with
  | SCREEN_WIFI_MANUAL_SETUP =>
      if longHeld (millis (clock s)) (btnSel (btns s)) then
        waitRelease fuel env btnSel
          (onUI (fun u =>
             u |> set_currentScreen SCREEN_WIFI_KEYBOARD
               |> set_kbRow 0 |> set_kbCol 0 |> showKeyboard) s)
      else Some s
  | _ => Some s
  end.

(** ** Connection polling and the periodic refresh *)

(** The poll of the Wi-Fi status and of the timeout, at clock [c]. *)
Definition pollConnection (env : Env) (c : Z) (u : UI) : UI :=
  let u1 := emit EvWifiStatus u in
  if wifiLinked env c then
    u1 |> set_wifiConnectState WFC_CONNECTED
       |> set_wifiConnected true
       |> showWiFiConnectResult true ("Connected: " ++ localIP env c)
  else if WIFI_CONNECT_TIMEOUT <? sub32 (millis c) (wifiConnectStart u1) then
    u1 |> emit EvWifiDisconnect
       |> set_wifiConnectState WFC_FAILED
       |> set_wifiConnected false
       |> showWiFiConnectResult false "Timeout"
  else u1.

(** The "periodic refresh tasks" of [loop], at clock [c]. *)
Definition periodicRefresh (env : Env) (c : Z) (u : UI) : UI :=
  let now := millis c in
  if UI_REFRESH_MS <? sub32 now (lastUiRefresh u) then
    let u1 := set_lastUiRefresh now u in
    match currentScreen u1, wifiConnectState u1 with
    | SCREEN_LOCAL_WEATHER, _ => showLocalWeather now u1
    | SCREEN_WIFI_CONNECTING, WFC_CONNECTING => pollConnection env c u1
    | _, _ => u1
    end
  else u.

(** ** One pass of [loop] *)

(** [if (pressedEdge(b)) handler]: the edge query updates the button. *)
Definition onEdge (get : Buttons -> Btn) (set : Btn -> Buttons -> Buttons)
    (handler : State -> State) (s : State) : State :=
  let r := pressedEdge (get (btns s)) in
  let s' := set_btns (set (snd r) (btns s)) s in
  if fst r then handler s' else s'.

(** The part of [loop] that consumes the short-press edges. *)
Definition shortPresses (env : Env) (s : State) : State :=
  s |> updateButtons env
    |> onEdge btnUp set_btnUp (onUI handleUp)
    |> onEdge btnDown set_btnDown (onUI handleDown)
    |> onEdge btnSel set_btnSel (handleSelect env)
    |> onEdge btnBack set_btnBack (onUI handleBack).

(** Stages of [shortPresses]: the state after [updateButtons] and the UP
    and DOWN edges ... *)
Definition afterUpDown (env : Env) (s : State) : State :=
  s |> updateButtons env
    |> onEdge btnUp set_btnUp (onUI handleUp)
    |> onEdge btnDown set_btnDown (onUI handleDown).

(** ... and after the SELECT edge. *)
Definition afterSelect (env : Env) (s : State) : State :=
  onEdge btnSel set_btnSel (handleSelect env) (afterUpDown env s).

Definition loop (fuel : nat) (env : Env) (s : State) : option State :=
  keyboardLongPress fuel env (shortPresses env s)
    >>= manualSetupLongPress fuel env
    >>= fun s' =>
          Some (s' |> onUI (periodicRefresh env (clock s')) |> delay 8).

(** [n] passes of [loop]. *)
Fixpoint loops (n : nat) (fuel : nat) (env : Env) (s : State)
    : option State :=
  match n with
  | O => Some s
  | S n' => loop fuel env s >>= loops n' fuel env
  end.

(** The number of link-status polls recorded in a log. *)
Definition polls (l : list Event) : nat :=
  List.length
    (filter (fun e => match e with EvWifiStatus => true | _ => false end) l).

(** ** Predicates of the statements below, and the concrete inputs of
    their examples *)

(** A contact bounce: 15 ms of low readings between two high ones. *)
Definition bouncePre : list Sample := [(10, HIGH)].
Definition bounceRun : list Sample := [(20, LOW); (28, LOW); (35, LOW)].
Definition bouncePost : list Sample := [(43, HIGH)].

(** A press of 50 ms: the edge is reported once, when the debounced level
    commits. *)
Definition pressRun : list Sample :=
  [(20, LOW); (30, LOW); (40, LOW); (51, LOW); (60, LOW); (70, LOW)].

(** The claim that [pressedAt] is non-zero exactly when the stable level is
    pressed, for every button state the sketch can produce from
    [setupButtons] on. *)
Definition pressedAtTracksStable : Prop :=
  forall (p t0 : Z) (r0 : bool) (ops : list BtnOp),
    let b := runOps (initB p t0 r0) ops in
    pressedAt b <> 0 <-> isPressed b = true.

(** The keyboard cursor is on the grid. *)
Definition inBounds (u : UI) : Prop :=
  0 <= kbRow u < KEYBOARD_ROWS /\ 0 <= kbCol u < KEYBOARD_COLS.

(** An environment in which nothing happens: no button is touched and the
    radio never links. *)
Definition quietEnv : Env :=
  {| digitalRead := fun _ _ => HIGH;
     wifiLinked := fun _ => false;
     localIP := fun _ => "0.0.0.0";
     scanNetworks := fun _ => 2;
     scanSSID := fun _ i => if i =? 0 then "home" else "cafe" |}.

(** The state after start-up at clock [c] with the given globals. *)
Definition stateAt (env : Env) (c : Z) (u : UI) : State :=
  {| clock := c; btns := setupButtons env c; ui := u |}.

(** The keyboard with the cursor in the bottom-right corner. *)
Definition keyboardCorner : UI :=
  initialUI |> set_currentScreen SCREEN_WIFI_KEYBOARD
            |> set_kbRow 5 |> set_kbCol 9.

(** The menu with item [i] highlighted. *)
Definition menuAt (i : Z) : UI :=
  initialUI |> set_currentScreen SCREEN_MENU |> set_menuIndex i.

(** The scan list as SELECT on "Connect to Wi-Fi" leaves it in [quietEnv]:
    two networks, the first one highlighted. *)
Definition scanListState : State :=
  handleSelect quietEnv (stateAt quietEnv 10 (menuAt 3)).

(** The screens the spec calls leaf screens. *)
Definition leafScreens : list Screen :=
  [ SCREEN_LOCAL_WEATHER; SCREEN_API_WEATHER; SCREEN_GEOLOCATION;
    SCREEN_INFO; SCREEN_WIFI_SCAN; SCREEN_WIFI_RESULT ].

(** The leaf screens on which SELECT does nothing but return to the menu. *)
Definition plainLeafScreens : list Screen :=
  [ SCREEN_LOCAL_WEATHER; SCREEN_API_WEATHER; SCREEN_GEOLOCATION;
    SCREEN_INFO; SCREEN_WIFI_RESULT ].

(** The claim that SELECT and BACK lead from every leaf screen to the menu. *)
Definition leafScreensEscapeToMenu : Prop :=
  forall (env : Env) (s : State),
    In (currentScreen (ui s)) leafScreens ->
    currentScreen (ui (handleSelect env s)) = SCREEN_MENU
    /\ currentScreen (handleBack (ui s)) = SCREEN_MENU.

(** Whether [pressedEdge] answers true for a button in the pass of [loop]
    that starts in [s]. *)
Definition edgeInPass (get : Buttons -> Btn) (env : Env) (s : State) : bool :=
  fst (pressedEdge (get (btns (updateButtons env s)))).

(** The scan list, with a password left over from an earlier session. *)
Definition scanListOldSecret : State :=
  onUI (set_manualPassword "old secret") scanListState.

(** An environment in which only BACK is held down. *)
Definition backHeldEnv : Env :=
  {| digitalRead := fun p _ => negb (p =? BTN_BACK_PIN);
     wifiLinked := wifiLinked quietEnv;
     localIP := localIP quietEnv;
     scanNetworks := scanNetworks quietEnv;
     scanSSID := scanSSID quietEnv |}.

(** A button that reads low since clock [t], not yet committed. *)
Definition bouncing (p t : Z) : Btn :=
  {| pin := p; stable := HIGH; lastRaw := LOW; lastChange := t;
     pressedAt := 0; prevStable := HIGH; toggles := 0 |}.

(** The screen [scr] at clock 50, with BACK read low since clock 10. *)
Definition backJustPressed (scr : Screen) (u : UI) : State :=
  {| clock := 50;
     btns := set_btnBack (bouncing BTN_BACK_PIN 10) (setupButtons quietEnv 0);
     ui := set_currentScreen scr u |}.

(** The number of "Timeout" results drawn in a log. *)
Definition isTimeout (e : Event) : bool :=
  match e with
  | EvDraw (VResult false msg) => String.eqb msg "Timeout"
  | _ => false
  end.

Definition timeouts (l : list Event) : nat := List.length (filter isTimeout l).

(** A connection attempt started at clock 1000, 100 ms after the last
    refresh. *)
Definition connectingState : State :=
  startWiFiConnect "home" "secret"
    (stateAt quietEnv 1000 (set_lastUiRefresh 900 initialUI)).

(** The claim that every pass of [loop] made in the connecting state polls
    the link status exactly once. *)
Definition pollsEveryConnectingPass : Prop :=
  forall (fuel : nat) (env : Env) (s s' : State),
    currentScreen (ui s) = SCREEN_WIFI_CONNECTING ->
    wifiConnectState (ui s) = WFC_CONNECTING ->
    loop fuel env s = Some s' ->
    polls (log (ui s')) = S (polls (log (ui s))).

(** In the pass that starts in [s] no BACK edge is seen and more than
    [UI_REFRESH_MS] have passed since the last periodic refresh. *)
Definition pollDue (env : Env) (s : State) : bool :=
  negb (edgeInPass btnBack env s)
  && (UI_REFRESH_MS <? sub32 (millis (clock s)) (lastUiRefresh (ui s))).

(** [which] is one of the four buttons of [updateButtons]. *)
Definition tracksPin (which : Buttons -> Btn) : Prop :=
  forall (env : Env) (c : Z) (bs : Buttons),
    which (updateButtonsAt env c bs)
    = updateOne (millis c) (digitalRead env (pin (which bs)) c) (which bs).

(** The active field has not reached its maximum length. *)
Definition roomLeft (u : UI) : bool :=
  if editingSSID u then (String.length (manualSSID u) <? 32)%nat
  else (String.length (manualPassword u) <? 64)%nat.


(** SELECT and BACK are both down from clock [from] to clock [till]. *)
Definition bothHeldEnv (from till : Z) : Env :=
  {| digitalRead := fun p c =>
       if (p =? BTN_SEL_PIN) || (p =? BTN_BACK_PIN)
       then negb ((from <=? c) && (c <? till)) else HIGH;
     wifiLinked := wifiLinked quietEnv;
     localIP := localIP quietEnv;
     scanNetworks := scanNetworks quietEnv;
     scanSSID := scanSSID quietEnv |}.

(** Only SELECT is down from clock [from] to clock [till]. *)
Definition selHeldEnv (from till : Z) : Env :=
  {| digitalRead := fun p c =>
       if p =? BTN_SEL_PIN
       then negb ((from <=? c) && (c <? till)) else HIGH;
     wifiLinked := wifiLinked quietEnv;
     localIP := localIP quietEnv;
     scanNetworks := scanNetworks quietEnv;
     scanSSID := scanSSID quietEnv |}.

(** A button that has been stable-pressed since clock [t]. *)
Definition heldSince (p t : Z) : Btn :=
  {| pin := p; stable := LOW; lastRaw := LOW; lastChange := t - 40;
     pressedAt := t; prevStable := LOW; toggles := 1 |}.

(** The keyboard at clock [c], editing the network name [ssid] with the
    password [pwd], with SELECT and BACK stable-pressed since clock 1000. *)
Definition keyboardBothHeld (c : Z) (ssid pwd : string) : State :=
  {| clock := c;
     btns := {| btnUp := initB BTN_UP_PIN 0 HIGH;
                btnDown := initB BTN_DOWN_PIN 0 HIGH;
                btnSel := heldSince BTN_SEL_PIN 1000;
                btnBack := heldSince BTN_BACK_PIN 1000 |};
     ui := initialUI |> set_currentScreen SCREEN_WIFI_KEYBOARD
                     |> set_manualSSID ssid |> set_manualPassword pwd |}.

(** The keyboard at clock [c], with only SELECT stable-pressed since clock
    1000. *)
Definition keyboardSelHeld (c : Z) (ssid pwd : string) : State :=
  {| clock := c;
     btns := {| btnUp := initB BTN_UP_PIN 0 HIGH;
                btnDown := initB BTN_DOWN_PIN 0 HIGH;
                btnSel := heldSince BTN_SEL_PIN 1000;
                btnBack := initB BTN_BACK_PIN 0 HIGH |};
     ui := initialUI |> set_currentScreen SCREEN_WIFI_KEYBOARD
                     |> set_manualSSID ssid |> set_manualPassword pwd |}.

(** A network name of the maximum length, 32 characters. *)
Definition fullName : string := "0123456789abcdef0123456789abcdef".

(** The keyboard as start-up leaves it in [env], editing the password. *)
Definition keyboardFresh (env : Env) : State :=
  stateAt env 10
    (initialUI |> set_currentScreen SCREEN_WIFI_KEYBOARD
               |> set_editingSSID false).

(** The calls to the radio, the HTTP client and [Preferences] in a log:
    everything but the drawing. *)
Definition commands (l : list Event) : list Event :=
  filter (fun e => match e with EvDraw _ => false | _ => true end) l.

(** What the insert and delete gestures leave untouched. *)
Definition keyboardEdit (u u' : UI) : Prop :=
  currentScreen u' = currentScreen u
  /\ prefs u' = prefs u
  /\ wifiConnectState u' = wifiConnectState u
  /\ commands (log u') = commands (log u).

(** The two text buffers. *)
Definition buffers (u : UI) : string * string :=
  (manualSSID u, manualPassword u).

(** The connection state is connecting only on the connecting screen. *)
Definition connectingOnScreen (u : UI) : Prop :=
  wifiConnectState u = WFC_CONNECTING ->
  currentScreen u = SCREEN_WIFI_CONNECTING.


(** BACK is down from clock 1000 to clock 8000 and SELECT, inside that hold,
    from clock 3500 to clock 6000. *)
Definition backThenSelEnv : Env :=
  {| digitalRead := fun p c =>
       if p =? BTN_BACK_PIN then negb ((1000 <=? c) && (c <? 8000))
       else if p =? BTN_SEL_PIN then negb ((3500 <=? c) && (c <? 6000))
       else HIGH;
     wifiLinked := wifiLinked quietEnv;
     localIP := localIP quietEnv;
     scanNetworks := scanNetworks quietEnv;
     scanSSID := scanSSID quietEnv |}.

(** The keyboard as start-up leaves it in [env], editing the network name
    "abc". *)
Definition keyboardWithName (env : Env) : State :=
  stateAt env 10
    (initialUI |> set_currentScreen SCREEN_WIFI_KEYBOARD
               |> set_manualSSID "abc").
(** ** Further parts of the sketch *)

(** [weatherCodeToStatus]. *)
Definition weatherCodeToStatus (code : Z) : string :=
  if code =? 0 then "Clear"
  else if code =? 1 then "Mainly Clear"
  else if code =? 2 then "Partly Cloudy"
  else if code =? 3 then "Overcast"
  else if (code =? 45) || (code =? 48) then "Fog"
  else if (code =? 51) || (code =? 53) || (code =? 55) then "Drizzle"
  else if (code =? 56) || (code =? 57) then "Freezing Drizzle"
  else if (code =? 61) || (code =? 63) || (code =? 65) then "Rain"
  else if (code =? 66) || (code =? 67) then "Freezing Rain"
  else if (code =? 71) || (code =? 73) || (code =? 75) then "Snow"
  else if code =? 77 then "Snow Grains"
  else if (code =? 80) || (code =? 81) || (code =? 82) then "Showers"
  else if (code =? 85) || (code =? 86) then "Snow Showers"
  else if code =? 95 then "Thunderstorm"
  else if (code =? 96) || (code =? 99) then "Thunder + Hail"
  else "Unknown".

(** The weather codes [weatherCodeToStatus] knows. *)
Definition knownWeatherCodes : list Z :=
  [0; 1; 2; 3; 45; 48; 51; 53; 55; 56; 57; 61; 63; 65; 66; 67; 71; 73; 75;
   77; 80; 81; 82; 85; 86; 95; 96; 99].

(** *** What [showWiFiScan] puts on its four rows *)

(** The first list index [showWiFiScan] draws ([startIndex]). *)
Definition scanWindowStart (u : UI) : Z :=
  let maxRows := 4 in
  let start0 := wifiListIndex u - Z.quot maxRows 2 in
  let start1 := if start0 <? 0 then 0 else start0 in
  if scannedCount u <? start1 + maxRows
  then Z.max 0 (scannedCount u - maxRows) else start1.

Inductive ScanRow : Type :=
| RowBlank
| RowEntry (highlighted : bool) (ssid : string).

(** The rows of the scan list, top to bottom. *)
Definition scanRows (u : UI) : list ScanRow :=
  map (fun row =>
         let idx := scanWindowStart u + row in
         if scannedCount u <=? idx then RowBlank
         else RowEntry (idx =? wifiListIndex u)
                (nth (Z.to_nat idx) (scannedSSIDs u) EmptyString))
    [0; 1; 2; 3].

Definition isHighlighted (r : ScanRow) : bool :=
  match r with
  | RowEntry true _ => true
  | _ => false
  end.

(** The scan list as the sketch keeps it: at most 31 entries in an array of
    32, the highlighted index among them, and at least one entry while the
    list is on screen. *)
Definition scanListOk (u : UI) : Prop :=
  List.length (scannedSSIDs u) = 32%nat
  /\ 0 <= scannedCount u <= 31
  /\ 0 <= wifiListIndex u
  /\ (wifiListIndex u < scannedCount u
      \/ (scannedCount u = 0 /\ wifiListIndex u = 0))
  /\ (currentScreen u = SCREEN_WIFI_SCAN -> 1 <= scannedCount u).

(** *** What [showKeyboard] draws *)

(** The character [showKeyboard] draws in cell ([r], [c]). *)
Definition drawnChar (r c : Z) : ascii :=
  let ch := charAt (nth (Z.to_nat r) keyboardCells EmptyString) c in
  if (r =? KEYBOARD_ROWS - 1) && (8 <=? c) then
    let symIndex := c - 8 in
    if symIndex <? Z.of_nat (String.length extraSymbols)
    then charAt extraSymbols symIndex else " "%char
  else ch.

(** [s.substring(from)]. *)
Definition suffixFrom (from : nat) (s : string) : string :=
  substring from (String.length s - from) s.

(** The line [showKeyboard] prints above the grid: the active field with
    its label, cut to its last 20 characters. *)
Definition shownField (u : UI) : string :=
  let s := if editingSSID u then "SSID: " ++ manualSSID u
           else "PWD: " ++ manualPassword u in
  if (20 <? String.length s)%nat then suffixFrom (String.length s - 20) s
  else s.

(** The characters the keyboard can insert. *)
Definition typeableChars : string :=
  "abcdefghiklmnopqrstuvwxyzABCDEFGHIJKLMNOPQRSTUVWXYZ012345!@".

(** The cursor on cell ([r], [c]). *)
Definition cursorAt (r c : Z) (u : UI) : UI :=
  u |> set_kbRow r |> set_kbCol c.

(** *** Start-up *)

Definition DEFAULT_WIFI_SSID : string := " WIFI SSID".
Definition DEFAULT_WIFI_PASSWORD : string := "WIFI PASSWORD".

(** [preferences.getString(key, "")]. *)
Definition getStringOr (key : string) (u : UI) : string :=
  match getString key u with
  | Some v => v
  | None => EmptyString
  end.

(** The part of [setup] that loads the saved credentials into the manual
    buffers. *)
Definition loadSavedCredentials (u : UI) : UI :=
  let savedSsid := getStringOr PREF_SSID_KEY u in
  let savedPwd := getStringOr PREF_PWD_KEY u in
  if (0 <? String.length savedSsid)%nat
  then u |> set_manualSSID savedSsid |> set_manualPassword savedPwd
  else u.

(** [while (WiFi.status() != WL_CONNECTED && millis() - st < tmo)
    delay(200);] of [setup], with [tmo = 6000].  [fuel] bounds the
    iterations. *)
Fixpoint bootWait (fuel : nat) (env : Env) (st : Z) (s : State)
    : option State :=
  let s1 := onUI (emit EvWifiStatus) s in
  if wifiLinked env (clock s) then Some s1
  else if sub32 (millis (clock s)) st <? 6000 then
    match fuel with
    | O => None
    | S fuel' => bootWait fuel' env st (delay 200 s1)
    end
  else Some s1.

(** The automatic connection attempt of [setup], after [showLoading]. *)
Definition bootAutoConnect (fuel : nat) (env : Env) (s : State)
    : option State :=
  let savedSsid := getStringOr PREF_SSID_KEY (ui s) in
  let savedPwd := getStringOr PREF_PWD_KEY (ui s) in
  let saved := (0 <? String.length savedSsid)%nat in
  let trySsid := if saved then savedSsid else DEFAULT_WIFI_SSID in
  let tryPwd := if saved then savedPwd else DEFAULT_WIFI_PASSWORD in
  if (0 <? String.length trySsid)%nat then
    let s1 := onUI (fun u => u |> emit EvWifiMode
                               |> emit (EvWifiBegin trySsid tryPwd)) s in
    bootWait fuel env (millis (clock s1)) s1
      >>= fun s2 =>
            let u2 := emit EvWifiStatus (ui s2) in
            Some (set_ui
                    (if wifiLinked env (clock s2)
                     then set_wifiConnected true u2
                     else u2 |> set_wifiConnected false
                             |> emit EvWifiDisconnect) s2)
  else Some s.

(** *** Inputs of the examples for these parts *)

(** A press seen at clock 20 and still there 40 ms later. *)
Definition pressSeen : list Sample := [(20, LOW); (45, LOW); (60, LOW)].

(** A release is pending: the stable level is high again, the last edge
    query saw it low. *)
Definition releasePending : Btn :=
  {| pin := BTN_SEL_PIN; stable := HIGH; lastRaw := HIGH; lastChange := 500;
     pressedAt := 0; prevStable := LOW; toggles := 2 |}.

(** A step that leaves the scan list alone and does not enter its screen. *)
Definition scanKept (u u' : UI) : Prop :=
  scannedSSIDs u' = scannedSSIDs u
  /\ scannedCount u' = scannedCount u
  /\ wifiListIndex u' = wifiListIndex u
  /\ (currentScreen u' = SCREEN_WIFI_SCAN ->
      currentScreen u = SCREEN_WIFI_SCAN).

(** An environment in which the scan finds nothing. *)
Definition emptyScanEnv : Env :=
  {| digitalRead := digitalRead quietEnv;
     wifiLinked := wifiLinked quietEnv;
     localIP := localIP quietEnv;
     scanNetworks := fun _ => 0;
     scanSSID := fun _ _ => EmptyString |}.

(** A scan list of six networks with the fourth highlighted. *)
Definition sixNetworks : UI :=
  initialUI |> set_currentScreen SCREEN_WIFI_SCAN
            |> set_scannedSSIDs
                 (storeSSIDs (fun i => if i =? 3 then "home" else "other") 6
                    (scannedSSIDs initialUI))
            |> set_scannedCount 6 |> set_wifiListIndex 3.

(** The cells of the keyboard grid. *)
Definition keyboardCellsIndex : list (Z * Z) :=
  list_prod [0; 1; 2; 3; 4; 5] [0; 1; 2; 3; 4; 5; 6; 7; 8; 9].

(** Whether every element of [l1] occurs in [l2]. *)
Definition allIn (l1 l2 : list ascii) : bool :=
  forallb (fun a => existsb (Ascii.eqb a) l2) l1.

(** The line [showKeyboard] prints, before it is cut. *)
Definition labelledField (u : UI) : string :=
  if editingSSID u then "SSID: " ++ manualSSID u
  else "PWD: " ++ manualPassword u.

(** The keyboard editing a password of 30 characters. *)
Definition longPassword : UI :=
  initialUI |> set_currentScreen SCREEN_WIFI_KEYBOARD
            |> set_editingSSID false
            |> set_manualPassword "correct horse battery staple 1".

(** The text buffers and the scanned names are within their lengths: 32
    characters for a network name, 64 for the password. *)
Definition withinCaps (u : UI) : Prop :=
  (String.length (manualSSID u) <= 32)%nat
  /\ (String.length (manualPassword u) <= 64)%nat
  /\ Forall (fun n => (String.length n <= 32)%nat) (scannedSSIDs u).

(** The radio reports network names of at most 32 characters. *)
Definition shortNames (env : Env) : Prop :=
  forall c i, (String.length (scanSSID env c i) <= 32)%nat.

(** A step that leaves the buffers and the scanned names alone. *)
Definition textKept (u u' : UI) : Prop :=
  manualSSID u' = manualSSID u
  /\ manualPassword u' = manualPassword u
  /\ scannedSSIDs u' = scannedSSIDs u.


(** The pins of SELECT and BACK are the same in two sets of buttons. *)
Definition samePins (bs bs' : Buttons) : Prop :=
  pin (btnSel bs') = pin (btnSel bs) /\ pin (btnBack bs') = pin (btnBack bs).

(** The [WiFi.begin] calls in a log. *)
Definition begins (l : list Event) : list Event :=
  filter (fun e => match e with EvWifiBegin _ _ => true | _ => false end) l.

(** A step that saves nothing and starts no connection attempt. *)
Definition nothingStarted (u u' : UI) : Prop :=
  prefs u' = prefs u
  /\ begins (log u') = begins (log u)
  /\ (wifiConnectState u' = WFC_CONNECTING ->
      wifiConnectState u = WFC_CONNECTING).

(** The confirm test of [loop] with its two readings of [millis()]:
    [heldSel] is taken at the clock of [s] and [heldBack] [d] ms later. *)
Definition keyboardConfirmAt (d : Z) (s : State) : State :=
  let sel := btnSel (btns s) in
  let back := btnBack (btns s) in
  if isPressed sel && isPressed back
     && negb (pressedAt sel =? 0) && negb (pressedAt back =? 0) then
    let heldSel := sub32 (millis (clock s)) (pressedAt sel) in
    let heldBack := sub32 (millis (clock s + d)) (pressedAt back) in
    if (LONGPRESS_MS <? heldSel) && (LONGPRESS_MS <? heldBack) then
      s |> delay d
        |> onUI (fun u =>
             u |> putString PREF_SSID_KEY (manualSSID u)
               |> putString PREF_PWD_KEY (manualPassword u))
        |> (fun s1 =>
              startWiFiConnect (manualSSID (ui s1)) (manualPassword (ui s1))
                s1)
        |> delay 40
    else delay d s
  else s.

(** The block [if (currentScreen == SCREEN_WIFI_KEYBOARD) { ... }] when the
    clock moves between its four readings of [millis()]: [d1] ms pass
    between the SELECT test and the BACK test, [d2] between the BACK test
    and the reading of [heldSel], [d3] between that and the reading of
    [heldBack].  [keyboardLongPress] is the block with all four readings in
    the same millisecond. *)
Definition keyboardLongPressAt (d1 d2 d3 : Z) (fuel : nat) (env : Env)
    (s : State) : option State :=
  match currentScreen (ui s) with
  | SCREEN_WIFI_KEYBOARD =>
      keyboardSelectLong fuel env s
        >>= (fun s1 => keyboardBackLong fuel env (delay d1 s1))
        >>= fun s2 => Some (keyboardConfirmAt d3 (delay d2 s2))
  | _ => Some s
  end.

(** Both holds pass the long-press threshold while the block runs: SELECT
    is not yet held long at the first reading of [millis()] nor BACK at the
    second, and both are at the third and the fourth. *)
Definition crossesThreshold (d1 d2 d3 : Z) (s : State) : bool :=
  negb (longHeld (millis (clock s)) (btnSel (btns s)))
  && negb (longHeld (millis (clock s + d1)) (btnBack (btns s)))
  && longHeld (millis (clock s + d1 + d2)) (btnSel (btns s))
  && longHeld (millis (clock s + d1 + d2 + d3)) (btnBack (btns s)).

(** SELECT is held down for good. *)
Definition selStuckEnv : Env :=
  {| digitalRead := fun p _ => negb (p =? BTN_SEL_PIN);
     wifiLinked := wifiLinked quietEnv;
     localIP := localIP quietEnv;
     scanNetworks := scanNetworks quietEnv;
     scanSSID := scanSSID quietEnv |}.

(** The globals after a restart: [Preferences] persists, all else is
    initial. *)
Definition rebooted (u : UI) : UI := set_prefs (prefs u) initialUI.

(** A state in which [setup] begins its connection attempt at clock [c],
    after [loadSavedCredentials]; the buttons, which play no part in the
    attempt, are as [setupButtons] leaves them at that clock. *)
Definition bootState (env : Env) (c : Z) (u : UI) : State :=
  {| clock := c; btns := setupButtons env c; ui := loadSavedCredentials u |}.

(** Low readings at clocks 100, 1500 and 3000. *)
Definition heldSamples : list Sample := [(100, LOW); (1500, LOW); (3000, LOW)].

(** The manual-setup screen at clock 3000, with SELECT stable-pressed since
    clock 1000 and the name field selected. *)
Definition manualSetupSelHeld : State :=
  onUI (set_currentScreen SCREEN_WIFI_MANUAL_SETUP)
    (keyboardSelHeld 3000 "ab" "pw").

(** * Properties *)

Local Close Scope string_scope.

(** ** Arithmetic on timestamps *)

Lemma WORD_pos : 0 < WORD.
Proof. reflexivity. Qed.

Lemma sub32_millis (a b : Z) : sub32 (millis a) (millis b) = (a - b) mod WORD.
Proof. unfold sub32, millis. symmetry. apply Zminus_mod. Qed.

Lemma sub32_small (a b : Z) :
  0 <= a - b < WORD -> sub32 (millis a) (millis b) = a - b.
Proof. intros H. rewrite sub32_millis. now apply Z.mod_small. Qed.

Lemma sub32_range (a b : Z) : 0 <= sub32 a b < WORD.
Proof. unfold sub32. apply Z.mod_pos_bound, WORD_pos. Qed.

(** ** The debouncer *)

Lemma eqb_LOW (x : bool) : Bool.eqb x LOW = negb x.
Proof. now destruct x. Qed.

Lemma lastRaw_updateOne (t : Z) (raw : bool) (b : Btn) :
  lastRaw (updateOne t raw b) = raw.
Proof.
  unfold updateOne.
  destruct (Bool.eqb raw (lastRaw b)) eqn:E; cbn.
  - apply Bool.eqb_prop in E.
    destruct (_ && _); cbn; congruence.
  - reflexivity.
Qed.

Lemma prevStable_updateOne (t : Z) (raw : bool) (b : Btn) :
  prevStable (updateOne t raw b) = prevStable b.
Proof.
  unfold updateOne.
  destruct (negb _); [reflexivity|]. now destruct (_ && _).
Qed.

(** A low sample never makes the stable level leave [LOW]. *)
Lemma stable_updateOne_low (t : Z) (b : Btn) :
  stable b = LOW -> stable (updateOne t LOW b) = LOW.
Proof.
  intros H. unfold updateOne.
  destruct (negb _); [exact H|]. now destruct (_ && _).
Qed.

Lemma tickBtn_aligned (b : Btn) (x : Sample) :
  prevStable (snd (tickBtn b x)) = stable (snd (tickBtn b x)).
Proof. reflexivity. Qed.

Lemma tickBtn_lastRaw (b : Btn) (x : Sample) :
  lastRaw (snd (tickBtn b x)) = snd x.
Proof. cbn. apply lastRaw_updateOne. Qed.

Lemma runSamples_aligned (xs : list Sample) (b : Btn) :
  prevStable b = stable b ->
  prevStable (runSamples b xs) = stable (runSamples b xs).
Proof.
  revert b. induction xs as [|x xs IH]; intros b H; cbn [runSamples].
  - exact H.
  - apply IH, tickBtn_aligned.
Qed.

Lemma lastLevel_cons (r : bool) (x : Sample) (xs : list Sample) :
  lastLevel r (x :: xs) = lastLevel (snd x) xs.
Proof.
  unfold lastLevel. cbn [map]. generalize (snd x) as a. revert r.
  induction (map snd xs) as [|c l IH]; intros r a; [reflexivity|].
  change (last (a :: c :: l) r) with (last (c :: l) r).
  now rewrite (IH r c), (IH a c).
Qed.

Lemma runSamples_lastRaw (xs : list Sample) (b : Btn) :
  lastRaw (runSamples b xs) = lastLevel (lastRaw b) xs.
Proof.
  revert b. induction xs as [|x xs IH]; intros b; cbn [runSamples].
  - reflexivity.
  - now rewrite IH, tickBtn_lastRaw, lastLevel_cons.
Qed.

Lemma pressedEdges_length (xs : list Sample) (b : Btn) :
  List.length (pressedEdges b xs) = List.length xs.
Proof.
  revert b. induction xs as [|x xs IH]; intros b; cbn; [|rewrite IH];
    reflexivity.
Qed.

Lemma pressedEdges_app (xs ys : list Sample) (b : Btn) :
  pressedEdges b (xs ++ ys)
  = pressedEdges b xs ++ pressedEdges (runSamples b xs) ys.
Proof.
  revert b. induction xs as [|x xs IH]; intros b; cbn; [|rewrite IH];
    reflexivity.
Qed.

Lemma edgesDuring_run (b : Btn) (pre run post : list Sample) :
  edgesDuring b pre run post = pressedEdges (runSamples b pre) run.
Proof.
  unfold edgesDuring.
  rewrite pressedEdges_app.
  rewrite skipn_app, pressedEdges_length, Nat.sub_diag, skipn_O.
  rewrite skipn_all2 by (rewrite pressedEdges_length; lia).
  cbn [app]. rewrite pressedEdges_app.
  rewrite firstn_app, pressedEdges_length, Nat.sub_diag, firstn_O, app_nil_r.
  apply firstn_all2. rewrite pressedEdges_length. lia.
Qed.

(** Once the edge of a press has been consumed, low samples give no more. *)
Lemma pressedEdges_consumed (run : list Sample) (b : Btn) :
  allLow run -> stable b = LOW -> prevStable b = LOW ->
  fires (pressedEdges b run) = 0%nat.
Proof.
  revert b. induction run as [|[t r] run IH]; intros b Hlow Hs Hp;
    [reflexivity|].
  inversion Hlow as [|? ? Hr Hrest]; subst. cbn in Hr. subst r.
  assert (Hs' : stable (updateOne (millis t) LOW b) = LOW)
    by now apply stable_updateOne_low.
  cbn [pressedEdges tickBtn pressedEdge fst snd].
  rewrite prevStable_updateOne, Hp. cbn [andb fires count_occ].
  destruct (bool_dec false true) as [E|_]; [discriminate E|].
  apply IH; [assumption| |]; cbn; exact Hs'.
Qed.

Lemma pressedEdges_once (run : list Sample) (b : Btn) :
  allLow run -> (fires (pressedEdges b run) <= 1)%nat.
Proof.
  revert b. induction run as [|[t r] run IH]; intros b Hlow; [cbn; lia|].
  inversion Hlow as [|? ? Hr Hrest]; subst. cbn in Hr. subst r.
  cbn [pressedEdges]. unfold fires. cbn [count_occ].
  destruct (bool_dec (fst (tickBtn b (t, LOW))) true) as [E|E].
  - (* the edge fires here: the button is now stable-pressed and aligned *)
    assert (Hs : stable (snd (tickBtn b (t, LOW))) = LOW).
    { cbn in E |- *. apply andb_prop in E. destruct E as [_ E].
      rewrite eqb_LOW in E. now destruct (stable _). }
    pose proof (pressedEdges_consumed run _ Hrest Hs) as H0.
    rewrite tickBtn_aligned in H0. specialize (H0 Hs).
    unfold fires in H0. rewrite H0. lia.
  - apply IH, Hrest.
Qed.

(** A run that started at clock [t1] and has not lasted longer than the
    debounce window commits nothing. *)
Lemma pressedEdges_short (run : list Sample) (b : Btn) (t1 : Z) :
  allLow run ->
  Forall (fun y => t1 <= fst y <= t1 + DEBOUNCE_MS) run ->
  prevStable b = stable b -> lastRaw b = LOW -> lastChange b = millis t1 ->
  fires (pressedEdges b run) = 0%nat.
Proof.
  revert b. induction run as [|[t r] run IH]; intros b Hlow Hspan Ha Hr Hc;
    [reflexivity|].
  inversion Hlow as [|? ? Hr0 Hrest]; subst. cbn in Hr0. subst r.
  inversion Hspan as [|? ? Ht Hspan']; subst. cbn in Ht.
  assert (Hu : updateOne (millis t) LOW b = b).
  { unfold updateOne. rewrite Hr. cbn [Bool.eqb LOW negb].
    rewrite Hc, sub32_small by (unfold WORD, DEBOUNCE_MS in *; lia).
    replace (DEBOUNCE_MS <? t - t1) with false; [reflexivity|].
    symmetry. apply Z.ltb_ge. lia. }
  cbn [pressedEdges tickBtn pressedEdge fst snd]. rewrite Hu, Ha, eqb_LOW.
  rewrite andb_negb_r. unfold fires. cbn [count_occ].
  destruct (bool_dec false true) as [E|_]; [discriminate E|].
  apply IH; auto.
Qed.

(** With the edge query made after every sample, a high sample never
    produces a press edge. *)
Lemma tickBtn_high (b : Btn) (x : Sample) :
  prevStable b = stable b -> snd x = HIGH -> fst (tickBtn b x) = false.
Proof.
  intros Ha Hx. destruct x as [t r]. cbn in Hx. subst r.
  cbn [tickBtn pressedEdge fst snd]. rewrite prevStable_updateOne, eqb_LOW.
  unfold updateOne.
  destruct (negb (Bool.eqb HIGH (lastRaw b))); cbn [stable].
  - rewrite Ha. apply andb_negb_r.
  - destruct ((DEBOUNCE_MS <? _) && _); cbn [stable HIGH negb].
    + apply andb_false_r.
    + rewrite Ha. apply andb_negb_r.
Qed.

(** C7.  Whatever samples a button has seen since [setupButtons] ([pre])
    and sees later ([post]): during a contiguous run of low samples
    [pressedEdge] answers true at most once; if the run begins after a
    high level and spans no more than the debounce window (in particular
    if it is shorter than 30 ms), [pressedEdge] never answers true during
    it; and it never answers true on a high sample, so every press edge
    belongs to a low run. *)
Theorem pressedEdge_debounced :
  forall (p t0 : Z) (r0 : bool) (pre run post : list Sample),
    allLow run ->
    (fires (edgesDuring (initB p t0 r0) pre run post) <= 1)%nat
    /\ (lastLevel r0 pre = HIGH -> spanWithin DEBOUNCE_MS run ->
        fires (edgesDuring (initB p t0 r0) pre run post) = 0%nat)
    /\ (forall x, snd x = HIGH ->
                  fst (tickBtn (runSamples (initB p t0 r0) pre) x) = false).
Proof.
  intros p t0 r0 pre run post Hlow. rewrite edgesDuring_run.
  set (b := runSamples (initB p t0 r0) pre).
  assert (Ha : prevStable b = stable b)
    by (apply runSamples_aligned; reflexivity).
  split; [|split].
  - now apply pressedEdges_once.
  - intros Hhigh Hspan.
    assert (Hr : lastRaw b = HIGH)
      by (unfold b; rewrite runSamples_lastRaw; exact Hhigh).
    destruct run as [|[t1 r] run]; [reflexivity|].
    inversion Hlow as [|? ? Hr0 Hrest]; subst. cbn in Hr0. subst r.
    cbn [spanWithin fst] in Hspan.
    inversion Hspan as [|? ? _ Hspan']; subst.
    (* the first low sample only records the change *)
    assert (Hu : updateOne (millis t1) LOW b
                 = {| pin := pin b; stable := stable b; lastRaw := LOW;
                      lastChange := millis t1; pressedAt := pressedAt b;
                      prevStable := prevStable b; toggles := toggles b |}).
    { unfold updateOne. now rewrite Hr. }
    cbn [pressedEdges tickBtn pressedEdge fst snd]. rewrite Hu. cbn.
    rewrite Ha, eqb_LOW, andb_negb_r. unfold fires. cbn [count_occ].
    destruct (bool_dec false true) as [E|_]; [discriminate E|].
    apply (pressedEdges_short run _ t1); auto.
  - intros x Hx. now apply tickBtn_high.
Qed.

(** The theorem on a bounce of 15 ms between two high readings. *)
Lemma pressedEdge_debounced_witness :
  (fires (edgesDuring (initB BTN_SEL_PIN 0 HIGH)
            bouncePre bounceRun bouncePost) <= 1)%nat
  /\ fires (edgesDuring (initB BTN_SEL_PIN 0 HIGH)
              bouncePre bounceRun bouncePost) = 0%nat.
Proof.
  assert (Hlow : allLow bounceRun) by (repeat constructor).
  destruct (pressedEdge_debounced BTN_SEL_PIN 0 HIGH
              bouncePre bounceRun bouncePost Hlow) as (H1 & H2 & _).
  split; [exact H1|].
  apply H2; [reflexivity|].
  unfold spanWithin, DEBOUNCE_MS, bounceRun. cbn [fst].
  repeat constructor; cbn; lia.
Defined.

Example long_press_fires_once :
  pressedEdges (initB BTN_SEL_PIN 0 HIGH) (bouncePre ++ pressRun)
  = [false; false; false; false; true; false; false].
Proof. reflexivity. Qed.

(** *** [pressedAt] against the stable level *)

Lemma runOps_invariant (P : Btn -> Prop) (ok : BtnOp -> Prop) :
  (forall b o, ok o -> P b -> P (applyOp b o)) ->
  forall os b, Forall ok os -> P b -> P (runOps b os).
Proof.
  intros Hstep os. unfold runOps.
  induction os as [|o os IH]; intros b Hok Hb; cbn [fold_left].
  - exact Hb.
  - inversion Hok; subst. apply IH; auto.
Qed.

(** A non-zero [pressedAt] is only ever written together with a pressed
    stable level. *)
Lemma pressedAt_sound_step (b : Btn) (o : BtnOp) :
  (pressedAt b <> 0 -> isPressed b = true) ->
  pressedAt (applyOp b o) <> 0 -> isPressed (applyOp b o) = true.
Proof.
  intros Hb. destruct o as [t raw| |]; cbn; try exact Hb.
  unfold updateOne.
  destruct (negb (Bool.eqb raw (lastRaw b))); [exact Hb|].
  destruct (_ && _); [|exact Hb].
  cbn. unfold isPressed. cbn. destruct raw; cbn; congruence.
Qed.

Lemma pressedAt_complete_step (b : Btn) (o : BtnOp) :
  nonzeroStamp o ->
  (isPressed b = true -> pressedAt b <> 0) ->
  isPressed (applyOp b o) = true -> pressedAt (applyOp b o) <> 0.
Proof.
  intros Hok Hb. destruct o as [t raw| |]; cbn; try exact Hb.
  cbn in Hok. unfold updateOne.
  destruct (negb (Bool.eqb raw (lastRaw b))); [exact Hb|].
  destruct (_ && _); [|exact Hb].
  unfold isPressed. cbn. destruct raw; cbn; congruence.
Qed.

(** C9, as the sketch has it.  From [setupButtons] on, through any
    sequence of [updateButtons], [pressedEdge] and [releasedEdge]: a
    non-zero [pressedAt] implies a pressed stable level; and a pressed
    stable level implies a non-zero [pressedAt] when the button read
    released at start-up and no update ran at a [millis()] value of 0. *)
Theorem pressedAt_nonzero_pressed :
  forall (p t0 : Z) (r0 : bool) (ops : list BtnOp),
    let b := runOps (initB p t0 r0) ops in
    (pressedAt b <> 0 -> isPressed b = true)
    /\ (r0 = HIGH -> Forall nonzeroStamp ops ->
        isPressed b = true -> pressedAt b <> 0).
Proof.
  intros p t0 r0 ops b. split.
  - apply (runOps_invariant
             (fun b => pressedAt b <> 0 -> isPressed b = true)
             (fun _ => True)).
    + intros b0 o _. apply pressedAt_sound_step.
    + clear. induction ops; constructor; auto.
    + cbn. congruence.
  - intros Hr Hops.
    apply (runOps_invariant
             (fun b => isPressed b = true -> pressedAt b <> 0) nonzeroStamp).
    + intros b0 o. apply pressedAt_complete_step.
    + exact Hops.
    + subst r0. cbn. discriminate.
Qed.

(** The theorem on a button that is pressed at clock 100 and updated
    again 40 ms later. *)
Lemma pressedAt_nonzero_pressed_witness :
  isPressed (runOps (initB BTN_SEL_PIN 5 HIGH)
               [OpUpdate 100 LOW; OpUpdate 140 LOW; OpPressedEdge]) = true
  /\ pressedAt (runOps (initB BTN_SEL_PIN 5 HIGH)
                  [OpUpdate 100 LOW; OpUpdate 140 LOW; OpPressedEdge]) <> 0.
Proof.
  split; [reflexivity|].
  apply (proj2 (pressedAt_nonzero_pressed BTN_SEL_PIN 5 HIGH
                  [OpUpdate 100 LOW; OpUpdate 140 LOW; OpPressedEdge]));
    [reflexivity | | reflexivity].
  repeat constructor; cbn; lia.
Defined.

(** A button held down while [setupButtons] runs is stable-pressed with
    [pressedAt] zero. *)
Lemma pressedAt_zero_when_held_at_startup :
  (isPressed (initB BTN_SEL_PIN 5 LOW) = true
   /\ pressedAt (initB BTN_SEL_PIN 5 LOW) = 0)
  /\ ~ pressedAtTracksStable.
Proof.
  split; [split; reflexivity|].
  intros H.
  specialize (H BTN_SEL_PIN 5 LOW []). cbn in H.
  destruct H as [_ H]. specialize (H eq_refl). now apply H.
Qed.

(** ** Sequencing and the release wait *)

Lemma andThen_Some (m : option State) (k : State -> option State)
    (s' : State) :
  m >>= k = Some s' -> exists s1, m = Some s1 /\ k s1 = Some s'.
Proof. destruct m as [s1|]; [eauto | discriminate]. Qed.

Lemma waitRelease_ui (fuel : nat) (env : Env) (which : Buttons -> Btn) :
  forall s s', waitRelease fuel env which s = Some s' -> ui s' = ui s.
Proof.
  induction fuel as [|fuel IH]; intros s s'; cbn [waitRelease];
    destruct (isPressed (which (btns s))); try discriminate;
    try (intros [= <-]; reflexivity).
  intros H. now rewrite (IH _ _ H).
Qed.

(** The wait returns only once the button is seen released. *)
Lemma waitRelease_released (fuel : nat) (env : Env) (which : Buttons -> Btn) :
  forall s s', waitRelease fuel env which s = Some s' ->
               isPressed (which (btns s')) = false.
Proof.
  induction fuel as [|fuel IH]; intros s s'; cbn [waitRelease];
    destruct (isPressed (which (btns s))) eqn:E; try discriminate;
    try (intros [= <-]; exact E).
  apply IH.
Qed.

(** ** The keyboard cursor *)

Ltac split_ifs :=
  repeat match goal with
         | |- context [if ?c then _ else _] => destruct c
         end.

Lemma handleUp_inBounds (u : UI) : inBounds u -> inBounds (handleUp u).
Proof.
  unfold inBounds, handleUp, KEYBOARD_ROWS, KEYBOARD_COLS.
  destruct (currentScreen u); split_ifs; cbn; lia.
Qed.

Lemma handleDown_inBounds (u : UI) : inBounds u -> inBounds (handleDown u).
Proof.
  unfold inBounds, handleDown, KEYBOARD_ROWS, KEYBOARD_COLS.
  destruct (currentScreen u); split_ifs; cbn; lia.
Qed.

Lemma handleBack_inBounds (u : UI) : inBounds u -> inBounds (handleBack u).
Proof.
  unfold inBounds, handleBack, KEYBOARD_ROWS, KEYBOARD_COLS.
  destruct (currentScreen u); cbn; lia.
Qed.

Lemma menuDispatch_kb (env : Env) (s : State) :
  kbRow (ui (menuDispatch env s)) = kbRow (ui s)
  /\ kbCol (ui (menuDispatch env s)) = kbCol (ui s).
Proof.
  unfold menuDispatch, startWifiScanAndShow, showLocalWeather,
    showGeolocation.
  split_ifs; cbn; split_ifs; split; reflexivity.
Qed.

Lemma handleSelect_inBounds (env : Env) (s : State) :
  inBounds (ui s) -> inBounds (ui (handleSelect env s)).
Proof.
  unfold inBounds, handleSelect, KEYBOARD_ROWS, KEYBOARD_COLS.
  destruct (currentScreen (ui s)) eqn:E; try (cbn; lia).
  - destruct (menuDispatch_kb env
                (onUI (fun u => set_previousScreen (currentScreen u) u) s))
      as [-> ->]. cbn. lia.
  - cbn. split_ifs; cbn; lia.
Qed.

Lemma onEdge_preserves (P : UI -> Prop) (get : Buttons -> Btn)
    (set : Btn -> Buttons -> Buttons) (h : State -> State) (s : State) :
  (forall s0, P (ui s0) -> P (ui (h s0))) ->
  P (ui s) -> P (ui (onEdge get set h s)).
Proof.
  intros Hh Hs. unfold onEdge.
  destruct (fst (pressedEdge (get (btns s)))); [apply Hh|]; exact Hs.
Qed.

Lemma shortPresses_inBounds (env : Env) (s : State) :
  inBounds (ui s) -> inBounds (ui (shortPresses env s)).
Proof.
  intros H. unfold shortPresses.
  apply onEdge_preserves; [intros s0; apply handleBack_inBounds|].
  apply onEdge_preserves; [intros s0; apply handleSelect_inBounds|].
  apply onEdge_preserves; [intros s0; apply handleDown_inBounds|].
  apply onEdge_preserves; [intros s0; apply handleUp_inBounds|].
  exact H.
Qed.

Lemma insertHighlighted_inBounds (u : UI) :
  inBounds u -> inBounds (insertHighlighted u).
Proof. unfold inBounds, insertHighlighted. split_ifs; cbn; auto. Qed.

Lemma deleteLast_inBounds (u : UI) : inBounds u -> inBounds (deleteLast u).
Proof. unfold inBounds, deleteLast. split_ifs; cbn; auto. Qed.

Lemma keyboardConfirm_inBounds (s : State) :
  inBounds (ui s) -> inBounds (ui (keyboardConfirm s)).
Proof. unfold inBounds, keyboardConfirm. split_ifs; cbn; auto. Qed.

Lemma keyboardSelectLong_inBounds (fuel : nat) (env : Env) (s s' : State) :
  keyboardSelectLong fuel env s = Some s' ->
  inBounds (ui s) -> inBounds (ui s').
Proof.
  unfold keyboardSelectLong.
  destruct (longHeld _ _); [|now intros [= <-]].
  intros H Hb. apply andThen_Some in H. destruct H as (s1 & Hw & [= <-]).
  apply waitRelease_ui in Hw. unfold inBounds. cbn. rewrite Hw.
  now apply insertHighlighted_inBounds.
Qed.

Lemma keyboardBackLong_inBounds (fuel : nat) (env : Env) (s s' : State) :
  keyboardBackLong fuel env s = Some s' ->
  inBounds (ui s) -> inBounds (ui s').
Proof.
  unfold keyboardBackLong.
  destruct (longHeld _ _); [|now intros [= <-]].
  intros H Hb. apply andThen_Some in H. destruct H as (s1 & Hw & [= <-]).
  apply waitRelease_ui in Hw. unfold inBounds. cbn. rewrite Hw.
  now apply deleteLast_inBounds.
Qed.

Lemma keyboardLongPress_inBounds (fuel : nat) (env : Env) (s s' : State) :
  keyboardLongPress fuel env s = Some s' ->
  inBounds (ui s) -> inBounds (ui s').
Proof.
  unfold keyboardLongPress.
  destruct (currentScreen (ui s)); try now intros [= <-].
  intros H Hb.
  apply andThen_Some in H. destruct H as (s2 & H & [= <-]).
  apply andThen_Some in H. destruct H as (s1 & H1 & H2).
  apply keyboardConfirm_inBounds.
  eapply keyboardBackLong_inBounds; [exact H2|].
  eapply keyboardSelectLong_inBounds; eauto.
Qed.

Lemma manualSetupLongPress_inBounds (fuel : nat) (env : Env)
    (s s' : State) :
  manualSetupLongPress fuel env s = Some s' ->
  inBounds (ui s) -> inBounds (ui s').
Proof.
  unfold manualSetupLongPress.
  destruct (currentScreen (ui s)); try now intros [= <-].
  destruct (longHeld _ _); [|now intros [= <-]].
  intros Hw _. apply waitRelease_ui in Hw. rewrite Hw.
  unfold inBounds, KEYBOARD_ROWS, KEYBOARD_COLS. cbn. lia.
Qed.

Lemma periodicRefresh_inBounds (env : Env) (c : Z) (u : UI) :
  inBounds u -> inBounds (periodicRefresh env c u).
Proof.
  unfold inBounds, periodicRefresh, pollConnection, showLocalWeather.
  destruct (UI_REFRESH_MS <? _); [|auto].
  cbn. destruct (currentScreen u); cbn; auto.
  - split_ifs; cbn; auto.
  - destruct (wifiConnectState u); cbn; auto. split_ifs; cbn; auto.
Qed.

Lemma loop_inBounds (fuel : nat) (env : Env) (s s' : State) :
  loop fuel env s = Some s' -> inBounds (ui s) -> inBounds (ui s').
Proof.
  unfold loop. intros H Hb.
  apply andThen_Some in H. destruct H as (s2 & H & [= <-]).
  apply andThen_Some in H. destruct H as (s1 & H1 & H2).
  cbn. apply periodicRefresh_inBounds.
  eapply manualSetupLongPress_inBounds; [exact H2|].
  eapply keyboardLongPress_inBounds; [exact H1|].
  now apply shortPresses_inBounds.
Qed.

(** C8.  From a cursor on the 6 x 10 grid, every operation leaves it on
    the grid: the four short-press handlers on any screen, and a whole pass
    of [loop].  On the keyboard UP and DOWN move the row by one and stop
    at 0 and at 5, BACK and SELECT move the column by one and stop at 0
    and at 9; at an edge the cursor stays where it is instead of wrapping. *)
Theorem keyboard_cursor_clamped :
  forall (env : Env) (s : State),
    inBounds (ui s) ->
    (inBounds (handleUp (ui s)) /\ inBounds (handleDown (ui s))
     /\ inBounds (ui (handleSelect env s)) /\ inBounds (handleBack (ui s)))
    /\ (forall fuel s', loop fuel env s = Some s' -> inBounds (ui s'))
    /\ (currentScreen (ui s) = SCREEN_WIFI_KEYBOARD ->
        let r := kbRow (ui s) in
        let c := kbCol (ui s) in
        (kbRow (handleUp (ui s)) = (if r =? 0 then 0 else r - 1)
         /\ kbCol (handleUp (ui s)) = c)
        /\ (kbRow (handleDown (ui s))
            = (if r =? KEYBOARD_ROWS - 1 then KEYBOARD_ROWS - 1 else r + 1)
            /\ kbCol (handleDown (ui s)) = c)
        /\ (kbCol (handleBack (ui s)) = (if c =? 0 then 0 else c - 1)
            /\ kbRow (handleBack (ui s)) = r)
        /\ (kbCol (ui (handleSelect env s))
            = (if c =? KEYBOARD_COLS - 1 then KEYBOARD_COLS - 1 else c + 1)
            /\ kbRow (ui (handleSelect env s)) = r)).
Proof.
  intros env s Hb. split; [|split].
  - split; [|split; [|split]].
    + apply handleUp_inBounds, Hb.
    + apply handleDown_inBounds, Hb.
    + apply handleSelect_inBounds, Hb.
    + apply handleBack_inBounds, Hb.
  - intros fuel s' H. eapply loop_inBounds; eauto.
  - intros Hk r c. subst r c.
    unfold handleUp, handleDown, handleBack, handleSelect. rewrite Hk.
    unfold inBounds, KEYBOARD_ROWS, KEYBOARD_COLS in *. cbn.
    repeat split;
      match goal with
      | |- context [?a =? ?b] => destruct (Z.eqb_spec a b)
      end; lia.
Qed.

(** The theorem with the cursor in the bottom-right corner: DOWN and
    SELECT leave it there, and a pass of [loop] keeps it on the grid. *)
Lemma keyboard_cursor_clamped_witness :
  inBounds keyboardCorner
  /\ kbRow (handleDown keyboardCorner) = 5
  /\ kbCol (ui (handleSelect quietEnv (stateAt quietEnv 10 keyboardCorner)))
     = 9
  /\ exists s', loop 0 quietEnv (stateAt quietEnv 10 keyboardCorner)
                = Some s' /\ inBounds (ui s').
Proof.
  assert (Hb : inBounds (ui (stateAt quietEnv 10 keyboardCorner)))
    by (unfold inBounds, KEYBOARD_ROWS, KEYBOARD_COLS; cbn; lia).
  destruct (keyboard_cursor_clamped quietEnv
              (stateAt quietEnv 10 keyboardCorner) Hb) as (_ & Hloop & Hk).
  specialize (Hk eq_refl). cbn zeta in Hk.
  destruct Hk as (_ & (Hd & _) & _ & (Hs & _)).
  split; [exact Hb|]. split; [exact Hd|]. split; [exact Hs|].
  destruct (loop 0 quietEnv (stateAt quietEnv 10 keyboardCorner))
    as [s'|] eqn:E; [|vm_compute in E; discriminate E].
  exists s'. split; [reflexivity|]. exact (Hloop 0%nat s' E).
Defined.

(** ** Navigation *)

(** C10.  SELECT on the scan list with at least one entry opens the
    keyboard with the network name taken from the highlighted entry and
    the password field active; it also empties the password buffer and
    puts the cursor on row 0, column 0. *)
Theorem scan_select_resets_password_and_cursor :
  forall (env : Env) (s : State),
    currentScreen (ui s) = SCREEN_WIFI_SCAN ->
    0 < scannedCount (ui s) ->
    let u' := ui (handleSelect env s) in
    currentScreen u' = SCREEN_WIFI_KEYBOARD
    /\ manualSSID u'
       = nth (Z.to_nat (wifiListIndex (ui s))) (scannedSSIDs (ui s))
           EmptyString
    /\ editingSSID u' = false
    /\ manualPassword u' = EmptyString
    /\ kbRow u' = 0 /\ kbCol u' = 0.
Proof.
  intros env s Hscr Hn u'. subst u'. unfold handleSelect. rewrite Hscr.
  apply Z.ltb_lt in Hn. cbn. rewrite Hn. cbn. repeat split.
Qed.

(** The theorem on the scan list of [quietEnv], with a password left over
    from an earlier session. *)
Lemma scan_select_resets_password_and_cursor_witness :
  manualPassword (ui scanListOldSecret) = "old secret"%string
  /\ manualSSID (ui (handleSelect quietEnv scanListOldSecret)) = "home"%string
  /\ manualPassword (ui (handleSelect quietEnv scanListOldSecret))
     = EmptyString
  /\ kbRow (ui (handleSelect quietEnv scanListOldSecret)) = 0
  /\ kbCol (ui (handleSelect quietEnv scanListOldSecret)) = 0.
Proof.
  destruct (scan_select_resets_password_and_cursor quietEnv scanListOldSecret)
    as (_ & Hn & _ & Hp & Hr & Hc); [reflexivity | reflexivity |].
  split; [reflexivity|]. split; [exact Hn|]. split; [exact Hp|].
  split; [exact Hr | exact Hc].
Defined.

(** *** The stages of the short-press part of a pass *)

Lemma handleSelect_btns (env : Env) (s : State) :
  btns (handleSelect env s) = btns s.
Proof.
  unfold handleSelect, menuDispatch, startWifiScanAndShow.
  destruct (currentScreen (ui s)); try reflexivity.
  cbn. split_ifs; reflexivity.
Qed.

Lemma onEdge_ui (get : Buttons -> Btn) (set : Btn -> Buttons -> Buttons)
    (h : State -> State) (s : State) :
  ui (onEdge get set h s)
  = if fst (pressedEdge (get (btns s)))
    then ui (h (set_btns (set (snd (pressedEdge (get (btns s)))) (btns s)) s))
    else ui s.
Proof. unfold onEdge. now destruct (fst _). Qed.

Lemma onEdge_btns (get : Buttons -> Btn) (set : Btn -> Buttons -> Buttons)
    (h : State -> State) (s : State) :
  (forall s0, btns (h s0) = btns s0) ->
  btns (onEdge get set h s) = set (snd (pressedEdge (get (btns s)))) (btns s).
Proof. intros Hh. unfold onEdge. destruct (fst _); [apply Hh | reflexivity]. Qed.

Lemma onEdge_onUI_clock (get : Buttons -> Btn)
    (set : Btn -> Buttons -> Buttons) (f : UI -> UI) (s : State) :
  clock (onEdge get set (onUI f) s) = clock s.
Proof. unfold onEdge. now destruct (fst _). Qed.

Lemma shortPresses_stages (env : Env) (s : State) :
  shortPresses env s
  = onEdge btnBack set_btnBack (onUI handleBack) (afterSelect env s).
Proof. reflexivity. Qed.

Lemma afterUpDown_btns (env : Env) (s : State) :
  btnSel (btns (afterUpDown env s)) = btnSel (btns (updateButtons env s))
  /\ btnBack (btns (afterUpDown env s)) = btnBack (btns (updateButtons env s)).
Proof.
  unfold afterUpDown.
  rewrite !onEdge_btns by reflexivity. split; reflexivity.
Qed.

Lemma afterUpDown_clock (env : Env) (s : State) :
  clock (afterUpDown env s) = clock s.
Proof. unfold afterUpDown. now rewrite !onEdge_onUI_clock. Qed.

Lemma afterUpDown_ui (env : Env) (s : State) :
  ui (afterUpDown env s)
  = let u1 := if edgeInPass btnUp env s then handleUp (ui s) else ui s in
    if edgeInPass btnDown env s then handleDown u1 else u1.
Proof.
  unfold afterUpDown. rewrite onEdge_ui, onEdge_btns by reflexivity.
  cbn [btnDown set_btnUp ui onUI set_ui set_btns].
  rewrite onEdge_ui. unfold edgeInPass. cbn [ui onUI set_ui set_btns].
  destruct (fst (pressedEdge (btnDown (btns (updateButtons env s)))));
    destruct (fst (pressedEdge (btnUp (btns (updateButtons env s)))));
    reflexivity.
Qed.

Lemma afterSelect_back (env : Env) (s : State) :
  btnBack (btns (afterSelect env s)) = btnBack (btns (updateButtons env s)).
Proof.
  unfold afterSelect. rewrite onEdge_btns by apply handleSelect_btns.
  cbn [btnBack set_btnSel]. apply afterUpDown_btns.
Qed.

Lemma shortPresses_ui (env : Env) (s : State) :
  ui (shortPresses env s)
  = if edgeInPass btnBack env s
    then handleBack (ui (afterSelect env s))
    else ui (afterSelect env s).
Proof.
  rewrite shortPresses_stages, onEdge_ui, afterSelect_back. reflexivity.
Qed.

Lemma afterSelect_ui (env : Env) (s : State) :
  ui (afterSelect env s)
  = if edgeInPass btnSel env s
    then ui (handleSelect env
               (set_btns (set_btnSel
                            (snd (pressedEdge
                                    (btnSel (btns (afterUpDown env s)))))
                            (btns (afterUpDown env s)))
                  (afterUpDown env s)))
    else ui (afterUpDown env s).
Proof.
  unfold afterSelect. rewrite onEdge_ui.
  destruct (afterUpDown_btns env s) as [-> _]. reflexivity.
Qed.

Lemma handleUp_screen (u : UI) :
  currentScreen (handleUp u) = currentScreen u.
Proof.
  unfold handleUp. destruct (currentScreen u) eqn:E; cbn; auto.
  destruct (0 <? _); cbn; auto.
Qed.

Lemma handleDown_screen (u : UI) :
  currentScreen (handleDown u) = currentScreen u.
Proof.
  unfold handleDown. destruct (currentScreen u) eqn:E; cbn; auto.
  destruct (0 <? _); cbn; auto.
Qed.

Lemma afterUpDown_screen (env : Env) (s : State) :
  currentScreen (ui (afterUpDown env s)) = currentScreen (ui s).
Proof.
  rewrite afterUpDown_ui. cbn zeta.
  destruct (edgeInPass btnDown env s); destruct (edgeInPass btnUp env s);
    now rewrite ?handleDown_screen, ?handleUp_screen.
Qed.

(** *** Leaf screens *)

Lemma handleSelect_plainLeaf (env : Env) (s : State) :
  In (currentScreen (ui s)) plainLeafScreens ->
  currentScreen (ui (handleSelect env s)) = SCREEN_MENU.
Proof.
  unfold handleSelect, plainLeafScreens. intros H.
  destruct (currentScreen (ui s)); try reflexivity;
    cbn in H; repeat (destruct H as [H|H]; try discriminate H); contradiction.
Qed.

Lemma handleBack_plainLeaf (u : UI) :
  In (currentScreen u) (SCREEN_MENU :: SCREEN_WIFI_SCAN :: plainLeafScreens) ->
  currentScreen (handleBack u) = SCREEN_MENU.
Proof.
  unfold handleBack, plainLeafScreens. intros H.
  destruct (currentScreen u) eqn:E; try reflexivity; try exact E;
    cbn in H; repeat (destruct H as [H|H]; try discriminate H); contradiction.
Qed.

Lemma periodicRefresh_screen (env : Env) (c : Z) (u : UI) :
  currentScreen u <> SCREEN_WIFI_CONNECTING ->
  currentScreen (periodicRefresh env c u) = currentScreen u.
Proof.
  intros H. unfold periodicRefresh, showLocalWeather.
  destruct (UI_REFRESH_MS <? _); [|reflexivity]. cbn.
  destruct (currentScreen u) eqn:E; try congruence;
    split_ifs; cbn; exact E.
Qed.

(** A pass whose short-press part ends on the menu ends on the menu. *)
Lemma loop_ends_on_menu (fuel : nat) (env : Env) (s : State) :
  currentScreen (ui (shortPresses env s)) = SCREEN_MENU ->
  exists s', loop fuel env s = Some s'
             /\ currentScreen (ui s') = SCREEN_MENU.
Proof.
  intros H. unfold loop, keyboardLongPress. rewrite H.
  cbn [andThen]. unfold manualSetupLongPress. rewrite H. cbn [andThen].
  eexists. split; [reflexivity|]. cbn.
  rewrite periodicRefresh_screen; [exact H | rewrite H; discriminate].
Qed.

(** C5, as the sketch has it.  On the local-weather, API-weather,
    geolocation, info and connection-result screens SELECT and BACK both
    lead to the menu, and a pass of [loop] in which either edge is seen
    ends on the menu.  On the scan list BACK leads to the menu, while
    SELECT opens the keyboard when the list has an entry and otherwise
    stays on the list. *)
Theorem leaf_screens_return_to_menu :
  forall (env : Env) (s : State),
    (In (currentScreen (ui s)) plainLeafScreens ->
     currentScreen (ui (handleSelect env s)) = SCREEN_MENU
     /\ currentScreen (handleBack (ui s)) = SCREEN_MENU
     /\ (edgeInPass btnSel env s || edgeInPass btnBack env s = true ->
         forall fuel, exists s',
           loop fuel env s = Some s'
           /\ currentScreen (ui s') = SCREEN_MENU))
    /\ (currentScreen (ui s) = SCREEN_WIFI_SCAN ->
        currentScreen (handleBack (ui s)) = SCREEN_MENU
        /\ currentScreen (ui (handleSelect env s))
           = (if 0 <? scannedCount (ui s)
              then SCREEN_WIFI_KEYBOARD else SCREEN_WIFI_SCAN)).
Proof.
  intros env s. split.
  - intros Hleaf. split; [now apply handleSelect_plainLeaf|].
    split; [apply handleBack_plainLeaf; now do 2 right|].
    intros Hedge fuel. apply loop_ends_on_menu.
    rewrite shortPresses_ui, afterSelect_ui.
    destruct (edgeInPass btnSel env s).
    + (* SELECT leads to the menu, where BACK does nothing *)
      match goal with
      | |- context [handleSelect env ?x] =>
          assert (Hm : currentScreen (ui (handleSelect env x)) = SCREEN_MENU)
      end.
      { apply handleSelect_plainLeaf. cbn [ui set_btns].
        now rewrite afterUpDown_screen. }
      destruct (edgeInPass btnBack env s); [|exact Hm].
      apply handleBack_plainLeaf. rewrite Hm. now left.
    + rewrite orb_false_l in Hedge. rewrite Hedge.
      apply handleBack_plainLeaf. rewrite afterUpDown_screen. now do 2 right.
  - intros Hscan. split.
    + apply handleBack_plainLeaf. rewrite Hscan. right. now left.
    + unfold handleSelect. rewrite Hscan. cbn.
      now destruct (0 <? scannedCount (ui s)).
Qed.

(** The theorem on the info screen, with BACK read low since 40 ms. *)
Lemma leaf_screens_return_to_menu_witness :
  edgeInPass btnBack backHeldEnv (backJustPressed SCREEN_INFO initialUI) = true
  /\ currentScreen (handleBack (ui (backJustPressed SCREEN_INFO initialUI)))
     = SCREEN_MENU
  /\ exists s',
       loop 0 backHeldEnv (backJustPressed SCREEN_INFO initialUI) = Some s'
       /\ currentScreen (ui s') = SCREEN_MENU.
Proof.
  destruct (leaf_screens_return_to_menu backHeldEnv
              (backJustPressed SCREEN_INFO initialUI)) as [H _].
  destruct H as (_ & Hb & Hl); [cbn; tauto|].
  split; [reflexivity|]. split; [exact Hb|].
  apply Hl. reflexivity.
Defined.

(** SELECT on the scan list with two networks opens the keyboard. *)
Lemma scan_list_select_leaves_for_keyboard :
  (In (currentScreen (ui scanListState)) leafScreens
   /\ currentScreen (ui (handleSelect quietEnv scanListState))
      = SCREEN_WIFI_KEYBOARD)
  /\ ~ leafScreensEscapeToMenu.
Proof.
  assert (H : currentScreen (ui (handleSelect quietEnv scanListState))
              = SCREEN_WIFI_KEYBOARD) by reflexivity.
  split; [split; [cbn; tauto | exact H]|].
  intros C. destruct (C quietEnv scanListState) as [C1 _]; [cbn; tauto|].
  rewrite H in C1. discriminate C1.
Qed.

(** *** The menu *)

Lemma handleUp_menuIndex (u : UI) :
  0 <= menuIndex u < MENU_COUNT -> 0 <= menuIndex (handleUp u) < MENU_COUNT.
Proof.
  unfold handleUp, MENU_COUNT. cbn [MENU_ITEMS List.length Z.of_nat].
  intros H. destruct (currentScreen u); split_ifs; cbn; try exact H.
  change (Z.pos (Pos.of_succ_nat 4)) with 5 in *.
  pose proof (Z.rem_bound_pos (menuIndex u - 1 + 5) 5). lia.
Qed.

Lemma handleDown_menuIndex (u : UI) :
  0 <= menuIndex u < MENU_COUNT ->
  0 <= menuIndex (handleDown u) < MENU_COUNT.
Proof.
  unfold handleDown, MENU_COUNT. cbn [MENU_ITEMS List.length Z.of_nat].
  intros H. destruct (currentScreen u); split_ifs; cbn; try exact H.
  change (Z.pos (Pos.of_succ_nat 4)) with 5 in *.
  pose proof (Z.rem_bound_pos (menuIndex u + 1) 5). lia.
Qed.

(** C2 at the input where the sketch departs from it.  The menu shows
    five items and UP and DOWN keep the index within them; SELECT on the
    fifth item, labelled "Info / About" (index 4), opens the manual Wi-Fi
    setup screen, and no index of the menu opens the info screen. *)
Theorem menu_select_dispatch :
  forall (env : Env) (s : State),
    currentScreen (ui s) = SCREEN_MENU ->
    0 <= menuIndex (ui s) < MENU_COUNT ->
    MENU_COUNT = 5
    /\ nth 4 MENU_ITEMS EmptyString = "Info / About"%string
    /\ 0 <= menuIndex (handleUp (ui s)) < MENU_COUNT
    /\ 0 <= menuIndex (handleDown (ui s)) < MENU_COUNT
    /\ currentScreen (ui (handleSelect env s)) <> SCREEN_INFO
    /\ (menuIndex (ui s) = 4 ->
        currentScreen (ui (handleSelect env s)) = SCREEN_WIFI_MANUAL_SETUP).
Proof.
  intros env s Hm Hi.
  split; [reflexivity|]. split; [reflexivity|].
  split; [now apply handleUp_menuIndex|].
  split; [now apply handleDown_menuIndex|].
  assert (Hc : MENU_COUNT = 5) by reflexivity. rewrite Hc in Hi.
  unfold handleSelect. rewrite Hm.
  unfold menuDispatch, startWifiScanAndShow, showLocalWeather,
    showGeolocation.
  cbn [ui onUI set_ui menuIndex set_previousScreen].
  split.
  - repeat match goal with
           | |- context [menuIndex (ui s) =? ?k] =>
               destruct (Z.eqb_spec (menuIndex (ui s)) k)
           end; cbn; split_ifs; cbn; try discriminate; lia.
  - intros ->. reflexivity.
Qed.

(** The theorem with the fifth item highlighted. *)
Lemma menu_select_dispatch_witness :
  nth 4 MENU_ITEMS EmptyString = "Info / About"%string
  /\ currentScreen (ui (handleSelect quietEnv (stateAt quietEnv 10 (menuAt 4))))
     = SCREEN_WIFI_MANUAL_SETUP.
Proof.
  destruct (menu_select_dispatch quietEnv (stateAt quietEnv 10 (menuAt 4)))
    as (_ & Hn & _ & _ & _ & H4);
    [reflexivity | unfold MENU_COUNT; cbn; lia |].
  split; [exact Hn | exact (H4 eq_refl)].
Defined.

(** ** The connection state machine *)

Arguments polls : simpl never.
Arguments timeouts : simpl never.

Lemma polls_app (l l' : list Event) : polls (l ++ l') = (polls l + polls l')%nat.
Proof. unfold polls. now rewrite filter_app, length_app. Qed.

Lemma polls_single (e : Event) :
  polls [e] = match e with EvWifiStatus => 1%nat | _ => 0%nat end.
Proof. now destruct e. Qed.

Lemma timeouts_app (l l' : list Event) :
  timeouts (l ++ l') = (timeouts l + timeouts l')%nat.
Proof. unfold timeouts. now rewrite filter_app, length_app. Qed.

(** Outside the connecting state the refresh neither polls nor times out. *)
Lemma periodicRefresh_idle (env : Env) (c : Z) (u : UI) :
  wifiConnectState u <> WFC_CONNECTING ->
  wifiConnectState (periodicRefresh env c u) = wifiConnectState u
  /\ polls (log (periodicRefresh env c u)) = polls (log u)
  /\ timeouts (log (periodicRefresh env c u)) = timeouts (log u).
Proof.
  intros H. unfold periodicRefresh, showLocalWeather.
  destruct (UI_REFRESH_MS <? _); [|auto]. cbn.
  destruct (currentScreen u); cbn; auto.
  - split_ifs; cbn; rewrite ?polls_app, ?timeouts_app;
      (split; [reflexivity|]); unfold polls, timeouts; cbn; lia.
  - destruct (wifiConnectState u) eqn:E; cbn; auto. congruence.
Qed.

(** C4.  A poll in the connecting state with the radio not linked: up to
    20000 ms after the start it only queries the link status, and the
    state stays as it is, nothing is drawn and the radio gets no command;
    after more than 20000 ms it tells the radio to disconnect, shows the
    result "Timeout" and moves the state to failed.  That one poll adds
    exactly one timeout, and from the failed state no later refresh polls
    or times out again. *)
Theorem poll_timeout_once :
  forall (env : Env) (c : Z) (u : UI),
    wifiConnectState u = WFC_CONNECTING ->
    wifiLinked env c = false ->
    (sub32 (millis c) (wifiConnectStart u) <= WIFI_CONNECT_TIMEOUT ->
     pollConnection env c u = emit EvWifiStatus u
     /\ wifiConnectState (pollConnection env c u) = WFC_CONNECTING)
    /\ (WIFI_CONNECT_TIMEOUT < sub32 (millis c) (wifiConnectStart u) ->
        let u' := pollConnection env c u in
        wifiConnectState u' = WFC_FAILED
        /\ currentScreen u' = SCREEN_WIFI_RESULT
        /\ log u' = log u ++ [EvWifiStatus; EvWifiDisconnect;
                              EvDraw (VResult false "Timeout")]
        /\ timeouts (log u') = S (timeouts (log u))
        /\ forall env' c',
             wifiConnectState (periodicRefresh env' c' u') = WFC_FAILED
             /\ polls (log (periodicRefresh env' c' u')) = polls (log u')
             /\ timeouts (log (periodicRefresh env' c' u'))
                = timeouts (log u')).
Proof.
  intros env c u Hst Hlink. unfold pollConnection. rewrite Hlink.
  cbn [wifiConnectStart emit set_log]. split.
  - intros Hle. apply Z.ltb_ge in Hle. rewrite Hle. split; [reflexivity|].
    exact Hst.
  - intros Hgt. apply Z.ltb_lt in Hgt. rewrite Hgt. cbn zeta.
    split; [reflexivity|]. split; [reflexivity|].
    split; [cbn; now rewrite <- !app_assoc|].
    split.
    + cbn. rewrite !timeouts_app. unfold timeouts at 2 3 4. cbn. lia.
    + intros env' c'.
      match goal with
      | |- context [periodicRefresh env' c' ?x] =>
          destruct (periodicRefresh_idle env' c' x) as (H1 & H2 & H3);
          [cbn; discriminate|]
      end.
      rewrite H1, H2, H3. repeat split.
Qed.

(** The theorem on the attempt of [connectingState], polled 500 ms and
    20001 ms after it started. *)
Lemma poll_timeout_once_witness :
  pollConnection quietEnv 1500 (ui connectingState)
  = emit EvWifiStatus (ui connectingState)
  /\ wifiConnectState (pollConnection quietEnv 21001 (ui connectingState))
     = WFC_FAILED
  /\ timeouts (log (pollConnection quietEnv 21001 (ui connectingState))) = 1%nat.
Proof.
  destruct (poll_timeout_once quietEnv 1500 (ui connectingState))
    as [Hearly _]; [reflexivity | reflexivity |].
  destruct (poll_timeout_once quietEnv 21001 (ui connectingState))
    as [_ Hlate]; [reflexivity | reflexivity |].
  destruct Hearly as [He _]; [vm_compute; discriminate|].
  destruct Hlate as (Hf & _ & _ & Ht & _); [reflexivity|].
  split; [exact He|]. split; [exact Hf|]. exact Ht.
Defined.

(** *** A pass of [loop] on the connecting screen *)

Lemma handleUp_connecting (u : UI) :
  currentScreen u = SCREEN_WIFI_CONNECTING -> handleUp u = u.
Proof. unfold handleUp. now intros ->. Qed.

Lemma handleDown_connecting (u : UI) :
  currentScreen u = SCREEN_WIFI_CONNECTING -> handleDown u = u.
Proof. unfold handleDown. now intros ->. Qed.

Lemma afterUpDown_connecting (env : Env) (s : State) :
  currentScreen (ui s) = SCREEN_WIFI_CONNECTING ->
  ui (afterUpDown env s) = ui s.
Proof.
  intros H. rewrite afterUpDown_ui. cbn zeta.
  destruct (edgeInPass btnUp env s); destruct (edgeInPass btnDown env s);
    now rewrite ?handleUp_connecting, ?handleDown_connecting.
Qed.

Lemma afterSelect_connecting (env : Env) (s : State) :
  currentScreen (ui s) = SCREEN_WIFI_CONNECTING ->
  ui (afterSelect env s) = ui s /\ clock (afterSelect env s) = clock s.
Proof.
  intros H. pose proof (afterUpDown_connecting env s H) as Hu.
  unfold afterSelect, onEdge.
  destruct (fst (pressedEdge (btnSel (btns (afterUpDown env s))))).
  - unfold handleSelect. cbn [ui set_btns]. rewrite Hu, H.
    cbn [ui clock set_btns]. now rewrite afterUpDown_clock.
  - cbn [ui clock set_btns]. now rewrite afterUpDown_clock.
Qed.

Lemma shortPresses_connecting (env : Env) (s : State) :
  currentScreen (ui s) = SCREEN_WIFI_CONNECTING ->
  ui (shortPresses env s)
  = (if edgeInPass btnBack env s then handleBack (ui s) else ui s)
  /\ clock (shortPresses env s) = clock s.
Proof.
  intros H. destruct (afterSelect_connecting env s H) as [Hu Hc]. split.
  - now rewrite shortPresses_ui, Hu.
  - now rewrite shortPresses_stages, onEdge_onUI_clock.
Qed.

Lemma loop_connecting (fuel : nat) (env : Env) (s : State) :
  currentScreen (ui s) = SCREEN_WIFI_CONNECTING ->
  exists s',
    loop fuel env s = Some s'
    /\ ui s' = periodicRefresh env (clock s)
                 (if edgeInPass btnBack env s
                  then handleBack (ui s) else ui s).
Proof.
  intros H. destruct (shortPresses_connecting env s H) as [Hu Hc].
  assert (Hscr : currentScreen (ui (shortPresses env s))
                 = SCREEN_WIFI_CONNECTING
                 \/ currentScreen (ui (shortPresses env s))
                    = SCREEN_WIFI_RESULT).
  { rewrite Hu. destruct (edgeInPass btnBack env s); [right|now left].
    unfold handleBack. now rewrite H. }
  unfold loop, keyboardLongPress, manualSetupLongPress.
  destruct Hscr as [Hscr|Hscr]; rewrite Hscr; cbn [andThen]; rewrite Hscr;
    (eexists; split; [reflexivity|]); cbn; now rewrite Hu, Hc.
Qed.

(** C3, as the sketch has it.  A pass of [loop] that starts on the
    connecting screen in the connecting state always completes, and it
    polls the link status exactly once if more than 700 ms have passed
    since the last periodic refresh and no BACK edge cancels the attempt
    in that pass; otherwise it does not poll at all.  UP, DOWN and SELECT
    make no difference. *)
Theorem poll_once_per_refresh_interval :
  forall (fuel : nat) (env : Env) (s : State),
    currentScreen (ui s) = SCREEN_WIFI_CONNECTING ->
    wifiConnectState (ui s) = WFC_CONNECTING ->
    exists s',
      loop fuel env s = Some s'
      /\ polls (log (ui s'))
         = (polls (log (ui s)) + (if pollDue env s then 1 else 0))%nat.
Proof.
  intros fuel env s Hscr Hst. unfold pollDue.
  destruct (loop_connecting fuel env s Hscr) as (s' & Hl & Hu).
  exists s'. split; [exact Hl|]. rewrite Hu.
  destruct (edgeInPass btnBack env s); cbn [negb andb].
  - (* cancelled: the state is failed before the refresh looks at it *)
    match goal with
    | |- context [periodicRefresh env (clock s) ?x] =>
        destruct (periodicRefresh_idle env (clock s) x) as (_ & H2 & _)
    end.
    { unfold handleBack. rewrite Hscr. cbn. discriminate. }
    rewrite H2. unfold handleBack. rewrite Hscr. cbn.
    rewrite !polls_app, !polls_single. cbn. lia.
  - unfold periodicRefresh. destruct (UI_REFRESH_MS <? _); [|lia].
    cbn [currentScreen wifiConnectState set_lastUiRefresh].
    rewrite Hscr, Hst. unfold pollConnection.
    split_ifs; cbn; rewrite !polls_app, !polls_single; cbn; lia.
Qed.

(** The theorem on [connectingState]: 120 ms into the attempt the pass
    does not poll; 800 ms later it polls once. *)
Lemma poll_once_per_refresh_interval_witness :
  (exists s', loop 0 quietEnv connectingState = Some s'
              /\ polls (log (ui s')) = 0%nat)
  /\ (exists s', loop 0 quietEnv (delay 800 connectingState) = Some s'
                 /\ polls (log (ui s')) = 1%nat).
Proof.
  split.
  - destruct (poll_once_per_refresh_interval 0 quietEnv connectingState)
      as (s' & Hl & Hp); [reflexivity | reflexivity |].
    exists s'. split; [exact Hl | exact Hp].
  - destruct (poll_once_per_refresh_interval 0 quietEnv
                (delay 800 connectingState))
      as (s' & Hl & Hp); [reflexivity | reflexivity |].
    exists s'. split; [exact Hl | exact Hp].
Defined.

(** A pass made 120 ms into an attempt, 220 ms after the last refresh,
    does not poll. *)
Lemma connecting_pass_without_poll :
  (currentScreen (ui connectingState) = SCREEN_WIFI_CONNECTING
   /\ wifiConnectState (ui connectingState) = WFC_CONNECTING
   /\ exists s', loop 0 quietEnv connectingState = Some s'
                 /\ polls (log (ui s')) = polls (log (ui connectingState)))
  /\ ~ pollsEveryConnectingPass.
Proof.
  assert (H : exists s', loop 0 quietEnv connectingState = Some s'
                         /\ polls (log (ui s'))
                            = polls (log (ui connectingState))).
  { eexists. split; [vm_compute; reflexivity | reflexivity]. }
  split; [split; [reflexivity | split; [reflexivity | exact H]]|].
  intros C. destruct H as (s' & Hl & Hp).
  specialize (C 0%nat quietEnv connectingState s' eq_refl eq_refl Hl). lia.
Qed.

(** ** The release wait terminates *)

Lemma sub32_advance (c d l : Z) :
  sub32 (millis (c + d)) l = (sub32 (millis c) l + d) mod WORD.
Proof.
  unfold sub32, millis.
  rewrite Zminus_mod_idemp_l, Zplus_mod_idemp_l.
  replace (c mod WORD - l + d) with (c mod WORD + (d - l)) by lia.
  rewrite Zplus_mod_idemp_l. f_equal. lia.
Qed.

Lemma tracksPin_sel : tracksPin btnSel.
Proof. intros env c bs. reflexivity. Qed.


Lemma pin_updateOne (t : Z) (raw : bool) (b : Btn) :
  pin (updateOne t raw b) = pin b.
Proof.
  unfold updateOne. destruct (negb _); [reflexivity|]. now destruct (_ && _).
Qed.

Section ReleaseWait.

Variable env : Env.
Variable which : Buttons -> Btn.
Hypothesis Hwhich : tracksPin which.

(** One iteration of the wait. *)
Let next (s : State) : State := updateButtons env (delay 10 s).

Lemma next_which (s : State) :
  which (btns (next s))
  = updateOne (millis (clock s + 10))
      (digitalRead env (pin (which (btns s))) (clock s + 10))
      (which (btns s)).
Proof. unfold next, updateButtons, delay. cbn. apply Hwhich. Qed.

Lemma next_clock (s : State) : clock (next s) = clock s + 10.
Proof. reflexivity. Qed.

Lemma next_pin (s : State) :
  pin (which (btns (next s))) = pin (which (btns s)).
Proof. rewrite next_which. apply pin_updateOne. Qed.

Lemma waitRelease_step (fuel : nat) (s : State) :
  waitRelease (S fuel) env which s
  = if isPressed (which (btns s)) then waitRelease fuel env which (next s)
    else Some s.
Proof. reflexivity. Qed.

Lemma waitRelease_idle (fuel : nat) (s : State) :
  isPressed (which (btns s)) = false ->
  waitRelease fuel env which s = Some s.
Proof. intros H. destruct fuel; cbn [waitRelease]; now rewrite H. Qed.

(** The raw level has been high for [x <= 30] ms; [n] more iterations
    carry it past the debounce window. *)
Lemma waitRelease_settling (n : nat) :
  forall s,
    (forall c, clock s <= c ->
               digitalRead env (pin (which (btns s))) c = HIGH) ->
    lastRaw (which (btns s)) = HIGH ->
    sub32 (millis (clock s)) (lastChange (which (btns s))) <= DEBOUNCE_MS ->
    DEBOUNCE_MS
    < sub32 (millis (clock s)) (lastChange (which (btns s)))
      + 10 * Z.of_nat n ->
    exists s', waitRelease n env which s = Some s'.
Proof.
  induction n as [|n IH]; intros s Hhigh Hraw Hx Hn.
  - lia.
  - rewrite waitRelease_step.
    destruct (isPressed (which (btns s))) eqn:Hp; [|eauto].
    pose proof (sub32_range (millis (clock s))
                  (lastChange (which (btns s)))) as Hr.
    assert (Hx' : sub32 (millis (clock s + 10))
                    (lastChange (which (btns s)))
                  = sub32 (millis (clock s)) (lastChange (which (btns s)))
                    + 10).
    { rewrite sub32_advance. apply Z.mod_small.
      unfold DEBOUNCE_MS, WORD in *. lia. }
    assert (Hb : which (btns (next s))
                 = updateOne (millis (clock s + 10)) HIGH
                     (which (btns s))).
    { rewrite next_which, Hhigh by lia. reflexivity. }
    unfold isPressed in Hp. rewrite eqb_LOW in Hp.
    destruct (stable (which (btns s))) eqn:Hs; [discriminate Hp|].
    unfold updateOne in Hb. rewrite Hraw, Hs in Hb.
    cbn [Bool.eqb negb andb HIGH LOW] in Hb.
    destruct (DEBOUNCE_MS <? sub32 (millis (clock s + 10))
                               (lastChange (which (btns s)))) eqn:Hc;
      cbn [Bool.eqb negb andb HIGH LOW] in Hb.
    + (* committed: the next test of the loop sees the release *)
      exists (next s). apply waitRelease_idle. now rewrite Hb.
    + apply Z.ltb_ge in Hc.
      apply IH.
      * intros c Hcl. rewrite next_pin. apply Hhigh.
        rewrite next_clock in Hcl. lia.
      * now rewrite Hb.
      * now rewrite next_clock, Hb.
      * rewrite next_clock, Hb, Hx'. lia.
Qed.

(** With the raw level high and already recorded, five iterations do. *)
Lemma waitRelease_recorded (s : State) :
  (forall c, clock s <= c ->
             digitalRead env (pin (which (btns s))) c = HIGH) ->
  lastRaw (which (btns s)) = HIGH ->
  exists s', waitRelease 5 env which s = Some s'.
Proof.
  intros Hhigh Hraw. rewrite waitRelease_step.
  destruct (isPressed (which (btns s))) eqn:Hp; [|eauto].
  assert (Hb : which (btns (next s))
               = updateOne (millis (clock s + 10)) HIGH (which (btns s))).
  { rewrite next_which, Hhigh by lia. reflexivity. }
  unfold isPressed in Hp. rewrite eqb_LOW in Hp.
  destruct (stable (which (btns s))) eqn:Hs; [discriminate Hp|].
  unfold updateOne in Hb. rewrite Hraw, Hs in Hb.
    cbn [Bool.eqb negb andb HIGH LOW] in Hb.
  destruct (DEBOUNCE_MS <? sub32 (millis (clock s + 10))
                             (lastChange (which (btns s)))) eqn:Hc;
    cbn [Bool.eqb negb andb HIGH LOW] in Hb.
  - exists (next s). apply waitRelease_idle. now rewrite Hb.
  - apply Z.ltb_ge in Hc.
    apply waitRelease_settling.
    + intros c Hcl. rewrite next_pin. apply Hhigh.
      rewrite next_clock in Hcl. lia.
    + now rewrite Hb.
    + now rewrite next_clock, Hb.
    + rewrite next_clock, Hb.
      pose proof (sub32_range (millis (clock s + 10))
                    (lastChange (which (btns s)))).
      unfold DEBOUNCE_MS in *. lia.
Qed.

Lemma waitRelease_high (s : State) :
  (forall c, clock s <= c ->
             digitalRead env (pin (which (btns s))) c = HIGH) ->
  exists s', waitRelease 6 env which s = Some s'.
Proof.
  intros Hhigh. rewrite waitRelease_step.
  destruct (isPressed (which (btns s))) eqn:Hp; [|eauto].
  apply waitRelease_recorded.
  - intros c Hcl. rewrite next_pin. apply Hhigh.
    rewrite next_clock in Hcl. lia.
  - rewrite next_which, Hhigh by lia. apply lastRaw_updateOne.
Qed.

Lemma waitRelease_within (T : Z) (n : nat) :
  forall s,
    (forall c, T <= c -> digitalRead env (pin (which (btns s))) c = HIGH) ->
    T <= clock s + 10 * Z.of_nat n ->
    exists s', waitRelease (n + 6) env which s = Some s'.
Proof.
  induction n as [|n IH]; intros s Hhigh HT.
  - apply waitRelease_high. intros c Hc. apply Hhigh. lia.
  - change (S n + 6)%nat with (S (n + 6)). rewrite waitRelease_step.
    destruct (isPressed (which (btns s))); [|eauto].
    apply IH.
    + intros c Hc. rewrite next_pin. now apply Hhigh.
    + rewrite next_clock. lia.
Qed.

(** If the button reads high from some moment on, the wait returns. *)
Lemma waitRelease_terminates (T : Z) (s : State) :
  (forall c, T <= c -> digitalRead env (pin (which (btns s))) c = HIGH) ->
  exists fuel s', waitRelease fuel env which s = Some s'.
Proof.
  intros Hhigh. exists (Z.to_nat (T - clock s) + 6)%nat.
  apply (waitRelease_within T); [exact Hhigh|]. lia.
Qed.

End ReleaseWait.

(** ** The keyboard gestures *)

Lemma keyboardSelectLong_cases (fuel : nat) (env : Env) (s s1 : State) :
  keyboardSelectLong fuel env s = Some s1 ->
  (longHeld (millis (clock s)) (btnSel (btns s)) = true
   /\ ui s1 = showKeyboard (insertHighlighted (ui s))
   /\ isPressed (btnSel (btns s1)) = false)
  \/ (longHeld (millis (clock s)) (btnSel (btns s)) = false /\ s1 = s).
Proof.
  unfold keyboardSelectLong.
  destruct (longHeld _ _); [|intros [= <-]; now right].
  intros H. left. apply andThen_Some in H. destruct H as (s' & Hw & [= <-]).
  split; [reflexivity|]. split.
  - cbn. now rewrite (waitRelease_ui _ _ _ _ _ Hw).
  - cbn. exact (waitRelease_released _ _ _ _ _ Hw).
Qed.

Lemma keyboardBackLong_cases (fuel : nat) (env : Env) (s s1 : State) :
  keyboardBackLong fuel env s = Some s1 ->
  (longHeld (millis (clock s)) (btnBack (btns s)) = true
   /\ ui s1 = showKeyboard (deleteLast (ui s))
   /\ isPressed (btnBack (btns s1)) = false)
  \/ (longHeld (millis (clock s)) (btnBack (btns s)) = false /\ s1 = s).
Proof.
  unfold keyboardBackLong.
  destruct (longHeld _ _); [|intros [= <-]; now right].
  intros H. left. apply andThen_Some in H. destruct H as (s' & Hw & [= <-]).
  split; [reflexivity|]. split.
  - cbn. now rewrite (waitRelease_ui _ _ _ _ _ Hw).
  - cbn. exact (waitRelease_released _ _ _ _ _ Hw).
Qed.

Lemma longHeld_released (now : Z) (b : Btn) :
  isPressed b = false -> longHeld now b = false.
Proof. unfold longHeld. now intros ->. Qed.

(** The confirm test repeats the two long-press tests at the same clock. *)
Lemma keyboardConfirm_idle (s : State) :
  longHeld (millis (clock s)) (btnSel (btns s)) = false
  \/ longHeld (millis (clock s)) (btnBack (btns s)) = false ->
  keyboardConfirm s = s.
Proof.
  unfold keyboardConfirm, longHeld.
  destruct (isPressed (btnSel (btns s))), (isPressed (btnBack (btns s))),
    (pressedAt (btnSel (btns s)) =? 0), (pressedAt (btnBack (btns s)) =? 0),
    (LONGPRESS_MS <? sub32 (millis (clock s)) (pressedAt (btnSel (btns s)))),
    (LONGPRESS_MS <? sub32 (millis (clock s)) (pressedAt (btnBack (btns s))));
    cbn; intros [H|H]; try discriminate H; reflexivity.
Qed.

Lemma commands_app (l l' : list Event) :
  commands (l ++ l') = commands l ++ commands l'.
Proof. apply filter_app. Qed.

Lemma keyboardEdit_refl (u : UI) : keyboardEdit u u.
Proof. repeat split. Qed.

Lemma keyboardEdit_trans (u v w : UI) :
  keyboardEdit u v -> keyboardEdit v w -> keyboardEdit u w.
Proof.
  unfold keyboardEdit. intros (A & B & C & D) (A' & B' & C' & D').
  repeat split; congruence.
Qed.

Lemma keyboardEdit_insert (u : UI) :
  keyboardEdit u (showKeyboard (insertHighlighted u)).
Proof.
  unfold keyboardEdit, showKeyboard, insertHighlighted.
  split_ifs; cbn; rewrite commands_app, app_nil_r; repeat split.
Qed.

Lemma keyboardEdit_delete (u : UI) :
  keyboardEdit u (showKeyboard (deleteLast u)).
Proof.
  unfold keyboardEdit, showKeyboard, deleteLast.
  split_ifs; cbn; rewrite commands_app, app_nil_r; repeat split.
Qed.

(** On the keyboard the two long-press gestures come first, and each keeps
    the sketch waiting until its button is released: the confirm test that
    follows never finds both buttons held, so the block neither saves the
    credentials nor leaves the keyboard. *)
Lemma keyboardLongPress_edits (fuel : nat) (env : Env) (s s' : State) :
  currentScreen (ui s) = SCREEN_WIFI_KEYBOARD ->
  keyboardLongPress fuel env s = Some s' ->
  keyboardEdit (ui s) (ui s')
  /\ (longHeld (millis (clock s)) (btnSel (btns s)) = true ->
      buffers (ui s') = buffers (insertHighlighted (ui s))
      \/ buffers (ui s') = buffers (deleteLast (insertHighlighted (ui s)))).
Proof.
  intros Hk H. unfold keyboardLongPress in H. rewrite Hk in H.
  apply andThen_Some in H. destruct H as (s2 & H & [= <-]).
  apply andThen_Some in H. destruct H as (s1 & H1 & H2).
  apply keyboardSelectLong_cases in H1. apply keyboardBackLong_cases in H2.
  destruct H1 as [(Hs & Hu1 & Hr1)|(Hs & ->)];
    destruct H2 as [(Hb & Hu2 & Hr2)|(Hb & ->)].
  - rewrite keyboardConfirm_idle
      by (right; now apply longHeld_released).
    split.
    + rewrite Hu2, Hu1.
      eapply keyboardEdit_trans; [apply keyboardEdit_insert|].
      apply keyboardEdit_delete.
    + intros _. right. rewrite Hu2, Hu1.
      unfold buffers, showKeyboard, deleteLast. cbn. split_ifs; reflexivity.
  - rewrite keyboardConfirm_idle
      by (left; now apply longHeld_released).
    split.
    + rewrite Hu1. apply keyboardEdit_insert.
    + intros _. left. now rewrite Hu1.
  - rewrite keyboardConfirm_idle
      by (right; now apply longHeld_released).
    split.
    + rewrite Hu2. apply keyboardEdit_delete.
    + intros Hs'. congruence.
  - rewrite keyboardConfirm_idle by now left.
    split; [apply keyboardEdit_refl|]. intros Hs'. congruence.
Qed.

Lemma periodicRefresh_keyboard (env : Env) (c : Z) (u : UI) :
  currentScreen u = SCREEN_WIFI_KEYBOARD ->
  periodicRefresh env c u = u
  \/ periodicRefresh env c u = set_lastUiRefresh (millis c) u.
Proof.
  intros H. unfold periodicRefresh.
  destruct (UI_REFRESH_MS <? _); [right|now left].
  cbn. now rewrite H.
Qed.

(** C1 at the inputs where the sketch departs from it.  In a pass of
    [loop] whose long-press block finds the keyboard on screen and SELECT
    and BACK both stable-pressed for more than 1200 ms, the insert gesture
    takes the hold: when the pass returns, the keyboard is still on screen,
    nothing has been written to [Preferences], no command has gone to the
    radio, the connection state is what it was, and the buffers hold the
    inserted character, or have lost their last character again to the
    delete gesture. *)
Theorem confirm_gesture_preempted :
  forall (fuel : nat) (env : Env) (s s' : State),
    currentScreen (ui (shortPresses env s)) = SCREEN_WIFI_KEYBOARD ->
    longHeld (millis (clock (shortPresses env s)))
      (btnSel (btns (shortPresses env s))) = true ->
    longHeld (millis (clock (shortPresses env s)))
      (btnBack (btns (shortPresses env s))) = true ->
    loop fuel env s = Some s' ->
    currentScreen (ui s') = SCREEN_WIFI_KEYBOARD
    /\ prefs (ui s') = prefs (ui (shortPresses env s))
    /\ wifiConnectState (ui s') = wifiConnectState (ui (shortPresses env s))
    /\ commands (log (ui s')) = commands (log (ui (shortPresses env s)))
    /\ (buffers (ui s')
        = buffers (insertHighlighted (ui (shortPresses env s)))
        \/ buffers (ui s')
           = buffers (deleteLast
                        (insertHighlighted (ui (shortPresses env s))))).
Proof.
  intros fuel env s s' Hk Hsel _ H. unfold loop in H.
  apply andThen_Some in H. destruct H as (s2 & H & [= <-]).
  apply andThen_Some in H. destruct H as (s1 & H1 & H2).
  destruct (keyboardLongPress_edits _ _ _ _ Hk H1)
    as ((A & B & C & D) & Hbuf).
  specialize (Hbuf Hsel). rewrite Hk in A.
  unfold manualSetupLongPress in H2. rewrite A in H2.
  injection H2 as <-. cbn [ui onUI set_ui delay set_clock].
  destruct (periodicRefresh_keyboard env (clock s1) (ui s1) A) as [-> | ->];
    cbn; repeat split; assumption.
Qed.

(** The theorem on a hold of both buttons that started at clock 1000 and
    ends at clock 5000, met by the pass at clock 3000 with the name "ab" in
    the buffer: the pass returns on the keyboard, with "aba" in the buffer and
    nothing saved. *)
Lemma confirm_gesture_preempted_witness :
  exists s',
    loop 300 (bothHeldEnv 1000 5000) (keyboardBothHeld 3000 "ab" "") = Some s'
    /\ currentScreen (ui s') = SCREEN_WIFI_KEYBOARD
    /\ prefs (ui s') = []
    /\ wifiConnectState (ui s') = WFC_IDLE
    /\ buffers (ui s') = ("aba"%string, EmptyString).
Proof.
  destruct (loop 300 (bothHeldEnv 1000 5000) (keyboardBothHeld 3000 "ab" ""))
    as [s'|] eqn:E; [|vm_compute in E; discriminate E].
  exists s'. split; [reflexivity|].
  assert (Hbuf : buffers (ui s') = ("aba"%string, EmptyString))
    by (vm_compute in E; injection E as <-; reflexivity).
  destruct (confirm_gesture_preempted 300 (bothHeldEnv 1000 5000)
              (keyboardBothHeld 3000 "ab" "") s')
    as (A & B & C & _ & _); [reflexivity | reflexivity | reflexivity | exact E |].
  split; [exact A|]. split; [rewrite B; reflexivity|].
  split; [rewrite C; reflexivity | exact Hbuf].
Defined.

(** *** Insert and delete *)

Lemma length_appendChar (s : string) (ch : ascii) :
  String.length (appendChar s ch) = S (String.length s).
Proof.
  unfold appendChar. induction s as [|a s IH]; cbn; [|rewrite IH];
    reflexivity.
Qed.

Lemma length_prefix (s : string) :
  forall n, (n <= String.length s)%nat ->
            String.length (substring 0 n s) = n.
Proof.
  induction s as [|a s IH]; intros [|n] H; cbn in *; try reflexivity;
    try lia.
  rewrite IH; [reflexivity | lia].
Qed.

Lemma length_dropLast (s : string) :
  String.length (dropLast s) = Nat.pred (String.length s).
Proof. unfold dropLast. rewrite length_prefix; lia. Qed.






Lemma selHeldEnv_released (from till c : Z) :
  till <= c -> digitalRead (selHeldEnv from till) BTN_SEL_PIN c = HIGH.
Proof.
  intros H. cbn. replace (c <? till) with false by (symmetry; apply Z.ltb_ge; lia).
  now rewrite andb_false_r.
Qed.



(** From start-up on the keyboard: SELECT goes down at clock 100 and stays
    down for 6100 ms, more than five thresholds.  The press edge moves the
    cursor from [a] to [b]; the hold inserts [b] once. *)
Example hold_of_five_thresholds_inserts_once :
  option_map (fun s => (buffers (ui s), kbCol (ui s)))
    (loops 300 1000 (selHeldEnv 100 6200)
       (keyboardFresh (selHeldEnv 100 6200)))
  = Some ((EmptyString, "b"%string), 1).
Proof. vm_compute. reflexivity. Qed.

(** A hold that no test finds does nothing.  From start-up on the keyboard
    with "abc" as the name: BACK goes down at clock 1000 and stays down
    until clock 8000; pass 280 finds it held long, removes [c] and waits
    for its release.  SELECT goes down at clock 3500 and up at clock 6000,
    inside that wait: the wait sees it pressed and released, and the hold
    of 2500 ms appends nothing. *)
Example hold_during_back_wait_appends_nothing :
  option_map
    (fun s => (clock s, buffers (ui s), toggles (btnSel (btns s))))
    (loops 279 1000 backThenSelEnv (keyboardWithName backThenSelEnv))
  = Some (2242, ("abc"%string, EmptyString), 0)
  /\ option_map
       (fun s => (clock s, buffers (ui s), toggles (btnSel (btns s)),
                  isPressed (btnSel (btns s))))
       (loops 280 1000 backThenSelEnv (keyboardWithName backThenSelEnv))
     = Some (8050, ("ab"%string, EmptyString), 2, false).
Proof. split; vm_compute; reflexivity. Qed.

(** *** The connecting state and the connecting screen go together *)

Ltac by_screen :=
  cbn;
  let H1 := fresh in
  let H2 := fresh in
  intros H1 H2; try discriminate H2;
  try specialize (H1 H2); congruence.

Lemma handleUp_connectingOnScreen (u : UI) :
  connectingOnScreen u -> connectingOnScreen (handleUp u).
Proof.
  unfold connectingOnScreen, handleUp.
  destruct (currentScreen u) eqn:E; split_ifs; by_screen.
Qed.

Lemma handleDown_connectingOnScreen (u : UI) :
  connectingOnScreen u -> connectingOnScreen (handleDown u).
Proof.
  unfold connectingOnScreen, handleDown.
  destruct (currentScreen u) eqn:E; split_ifs; by_screen.
Qed.

Lemma handleBack_connectingOnScreen (u : UI) :
  connectingOnScreen u -> connectingOnScreen (handleBack u).
Proof.
  unfold connectingOnScreen, handleBack.
  destruct (currentScreen u) eqn:E; by_screen.
Qed.

Lemma handleSelect_connectingOnScreen (env : Env) (s : State) :
  connectingOnScreen (ui s) -> connectingOnScreen (ui (handleSelect env s)).
Proof.
  unfold connectingOnScreen, handleSelect, menuDispatch,
    startWifiScanAndShow, showLocalWeather, showGeolocation.
  destruct (currentScreen (ui s)) eqn:E; cbn; split_ifs; by_screen.
Qed.

Lemma keyboardConfirm_connectingOnScreen (s : State) :
  connectingOnScreen (ui s) -> connectingOnScreen (ui (keyboardConfirm s)).
Proof.
  unfold connectingOnScreen, keyboardConfirm. split_ifs; cbn; auto.
Qed.

Lemma periodicRefresh_connectingOnScreen (env : Env) (c : Z) (u : UI) :
  connectingOnScreen u -> connectingOnScreen (periodicRefresh env c u).
Proof.
  unfold connectingOnScreen, periodicRefresh, pollConnection,
    showLocalWeather.
  destruct (UI_REFRESH_MS <? _); [|auto]. cbn.
  destruct (currentScreen u) eqn:E; try by_screen.
  - split_ifs; by_screen.
  - destruct (wifiConnectState u) eqn:W; try by_screen.
    split_ifs; by_screen.
Qed.

(** The invariant holds of the initial globals and every pass of [loop]
    keeps it: a pass that starts in the connecting state starts on the
    connecting screen. *)
Lemma loop_connectingOnScreen (fuel : nat) (env : Env) (s s' : State) :
  loop fuel env s = Some s' ->
  connectingOnScreen (ui s) -> connectingOnScreen (ui s').
Proof.
  unfold loop. intros H Hinv.
  apply andThen_Some in H. destruct H as (s2 & H & [= <-]).
  apply andThen_Some in H. destruct H as (s1 & H1 & H2).
  cbn. apply periodicRefresh_connectingOnScreen.
  assert (H0 : connectingOnScreen (ui (shortPresses env s))).
  { unfold shortPresses.
    apply onEdge_preserves; [intros s0; apply handleBack_connectingOnScreen|].
    apply onEdge_preserves;
      [intros s0; apply handleSelect_connectingOnScreen|].
    apply onEdge_preserves; [intros s0; apply handleDown_connectingOnScreen|].
    apply onEdge_preserves; [intros s0; apply handleUp_connectingOnScreen|].
    exact Hinv. }
  assert (Hk : connectingOnScreen (ui s1)).
  { unfold keyboardLongPress in H1.
    destruct (currentScreen (ui (shortPresses env s))) eqn:E;
      try (injection H1 as <-; exact H0).
    apply andThen_Some in H1. destruct H1 as (s4 & H1 & [= <-]).
    apply andThen_Some in H1. destruct H1 as (s3 & H3 & H4).
    apply keyboardConfirm_connectingOnScreen.
    apply keyboardSelectLong_cases in H3. apply keyboardBackLong_cases in H4.
    assert (H3' : connectingOnScreen (ui s3)).
    { destruct H3 as [(_ & -> & _)|(_ & ->)]; [|exact H0].
      unfold connectingOnScreen, showKeyboard, insertHighlighted in *.
      split_ifs; cbn; exact H0. }
    destruct H4 as [(_ & -> & _)|(_ & ->)]; [|exact H3'].
    unfold connectingOnScreen, showKeyboard, deleteLast in *.
    split_ifs; cbn; exact H3'. }
  unfold manualSetupLongPress in H2.
  destruct (currentScreen (ui s1)) eqn:E;
    try (injection H2 as <-; exact Hk).
  destruct (longHeld _ _); [|injection H2 as <-; exact Hk].
  apply waitRelease_ui in H2. rewrite H2.
  unfold connectingOnScreen in *. cbn. intros W.
  specialize (Hk W). rewrite E in Hk. discriminate Hk.
Qed.

Lemma initialUI_connectingOnScreen : connectingOnScreen initialUI.
Proof. discriminate. Qed.

(** * Further properties of the sketch *)

(** ** Edges are consumed *)

(** X1.  An edge query consumes what it sees: asked again at once,
    [pressedEdge] and [releasedEdge] both answer false.  The two queries
    share [prevStable], so a [pressedEdge] call also consumes a pending
    release edge, and a [releasedEdge] call a pending press edge; and the
    two never answer true on the same button state. *)
Theorem edge_queries_consume :
  forall b : Btn,
    fst (pressedEdge (snd (pressedEdge b))) = false
    /\ fst (releasedEdge (snd (releasedEdge b))) = false
    /\ fst (releasedEdge (snd (pressedEdge b))) = false
    /\ fst (pressedEdge (snd (releasedEdge b))) = false
    /\ (fst (pressedEdge b) = true -> fst (releasedEdge b) = false).
Proof.
  intros b. cbn. destruct (stable b), (prevStable b); cbn; repeat split;
    auto; discriminate.
Qed.

(** The theorem on a button whose release has not been asked for yet:
    [releasedEdge] would report it, but not after a [pressedEdge] call. *)
Lemma edge_queries_consume_witness :
  fst (releasedEdge releasePending) = true
  /\ fst (releasedEdge (snd (pressedEdge releasePending))) = false.
Proof.
  split; [reflexivity|].
  exact (proj1 (proj2 (proj2 (edge_queries_consume releasePending)))).
Defined.

(** ** A press is detected *)

Lemma pressedEdges_fires_cons (e : bool) (es : list bool) :
  fires (e :: es) = ((if e then 1 else 0) + fires es)%nat.
Proof.
  unfold fires. cbn [count_occ].
  destruct (bool_dec e true) as [->|E]; [reflexivity|].
  destruct e; [contradiction|reflexivity].
Qed.

(** From a released, aligned button whose raw level has been low since
    clock [t1]: the first sample more than 30 ms later commits the press. *)
Lemma pressedEdges_commit (run : list Sample) (b : Btn) (t1 : Z) :
  allLow run ->
  Forall (fun y => t1 <= fst y < t1 + WORD) run ->
  Exists (fun y => DEBOUNCE_MS < fst y - t1) run ->
  prevStable b = HIGH -> stable b = HIGH ->
  lastRaw b = LOW -> lastChange b = millis t1 ->
  fires (pressedEdges b run) = 1%nat
  /\ isPressed (runSamples b run) = true.
Proof.
  revert b. induction run as [|[t r] run IH];
    intros b Hlow Hrange Hex Hp Hs Hr Hc; [inversion Hex|].
  inversion Hlow as [|? ? Hr0 Hrest]; subst. cbn in Hr0. subst r.
  inversion Hrange as [|? ? Ht Hrange']; subst. cbn [fst] in Ht.
  cbn [pressedEdges runSamples]. rewrite pressedEdges_fires_cons.
  assert (Hsub : sub32 (millis t) (lastChange b) = t - t1)
    by (rewrite Hc; apply sub32_small; lia).
  destruct (Z.ltb_spec DEBOUNCE_MS (t - t1)) as [Hlong|Hshort].
  - (* this sample commits *)
    assert (Hu : stable (updateOne (millis t) LOW b) = LOW).
    { unfold updateOne. rewrite Hr, Hsub, Hs. cbn [Bool.eqb LOW HIGH negb].
      replace (DEBOUNCE_MS <? t - t1) with true
        by (symmetry; now apply Z.ltb_lt).
      reflexivity. }
    assert (He : fst (tickBtn b (t, LOW)) = true).
    { cbn [tickBtn pressedEdge fst snd].
      now rewrite prevStable_updateOne, Hp, Hu. }
    rewrite He.
    assert (Hs' : stable (snd (tickBtn b (t, LOW))) = LOW) by exact Hu.
    rewrite (pressedEdges_consumed run _ Hrest Hs')
      by (rewrite tickBtn_aligned; exact Hs').
    split; [reflexivity|].
    clear - Hrest Hs'. revert Hs'.
    generalize (snd (tickBtn b (t, LOW))) as b'.
    induction run as [|[t' r'] run IH]; intros b' Hs'.
    + unfold isPressed. cbn. now rewrite Hs'.
    + inversion Hrest as [|? ? Hr0 Hrest']; subst. cbn in Hr0. subst r'.
      cbn [runSamples]. apply IH; [exact Hrest'|].
      cbn. now apply stable_updateOne_low.
  - (* still within the window: nothing changes *)
    assert (Hu : updateOne (millis t) LOW b = b).
    { unfold updateOne. rewrite Hr, Hsub. cbn [Bool.eqb LOW negb].
      replace (DEBOUNCE_MS <? t - t1) with false
        by (symmetry; now apply Z.ltb_ge).
      reflexivity. }
    assert (Hb' : snd (tickBtn b (t, LOW)) = set_prevStable (stable b) b)
      by (cbn [tickBtn pressedEdge fst snd]; now rewrite Hu).
    assert (He : fst (tickBtn b (t, LOW)) = false).
    { cbn [tickBtn pressedEdge fst snd]. rewrite Hu, Hs, Hp. reflexivity. }
    rewrite He, Hb'.
    apply IH; auto.
    inversion Hex as [? ? Hnow|? ? Hlater]; subst; [cbn in Hnow; lia|].
    exact Hlater.
Qed.

(** X2.  A press that lasts is reported exactly once.  Take a button that
    is stable-released after the samples [pre], the last of them high.  If
    a run of low samples follows whose first sample is at clock [t1], all
    within 2^32 ms of it, and one of them is more than 30 ms after [t1],
    then [pressedEdge] answers true exactly once during the run and the
    button is stable-pressed at its end. *)
Theorem press_reported_exactly_once :
  forall (p t0 : Z) (r0 : bool) (pre run post : list Sample) (t1 : Z),
    stable (runSamples (initB p t0 r0) pre) = HIGH ->
    lastLevel r0 pre = HIGH ->
    allLow run ->
    hd_error (map fst run) = Some t1 ->
    Forall (fun y => t1 <= fst y < t1 + WORD) run ->
    Exists (fun y => DEBOUNCE_MS < fst y - t1) run ->
    fires (edgesDuring (initB p t0 r0) pre run post) = 1%nat
    /\ isPressed (runSamples (initB p t0 r0) (pre ++ run)) = true.
Proof.
  intros p t0 r0 pre run post t1 Hs Hhigh Hlow Hhd Hrange Hex.
  rewrite edgesDuring_run.
  assert (Hrun : runSamples (initB p t0 r0) (pre ++ run)
                 = runSamples (runSamples (initB p t0 r0) pre) run).
  { generalize (initB p t0 r0) as b0. clear.
    induction pre as [|x pre IH]; intros b0; cbn; [reflexivity|apply IH]. }
  rewrite Hrun.
  set (b := runSamples (initB p t0 r0) pre) in *.
  assert (Ha : prevStable b = stable b)
    by (apply runSamples_aligned; reflexivity).
  assert (Hr : lastRaw b = HIGH)
    by (unfold b; rewrite runSamples_lastRaw; exact Hhigh).
  destruct run as [|[t r] run]; [inversion Hex|].
  cbn in Hhd. injection Hhd as ->.
  inversion Hlow as [|? ? Hr0 Hrest]; subst. cbn in Hr0. subst r.
  inversion Hrange as [|? ? _ Hrange']; subst.
  inversion Hex as [? ? Hnow|? ? Hlater]; subst;
    [cbn in Hnow; unfold DEBOUNCE_MS in Hnow; lia|].
  assert (Hu : updateOne (millis t1) LOW b
               = {| pin := pin b; stable := stable b; lastRaw := LOW;
                    lastChange := millis t1; pressedAt := pressedAt b;
                    prevStable := prevStable b; toggles := toggles b |}).
  { unfold updateOne. now rewrite Hr. }
  cbn [pressedEdges runSamples]. rewrite pressedEdges_fires_cons.
  assert (He : fst (tickBtn b (t1, LOW)) = false).
  { cbn [tickBtn pressedEdge fst snd]. rewrite Hu. cbn.
    now rewrite Ha, Hs. }
  rewrite He.
  apply (pressedEdges_commit run _ t1); auto;
    cbn [tickBtn pressedEdge snd fst]; rewrite Hu; cbn; auto.
Qed.

(** The theorem on a press first seen at clock 20 and sampled again at
    clocks 45 and 60. *)
Lemma press_reported_exactly_once_witness :
  fires (edgesDuring (initB BTN_SEL_PIN 0 HIGH) bouncePre pressSeen
           bouncePost) = 1%nat
  /\ isPressed (runSamples (initB BTN_SEL_PIN 0 HIGH)
                  (bouncePre ++ pressSeen)) = true.
Proof.
  apply (press_reported_exactly_once BTN_SEL_PIN 0 HIGH bouncePre pressSeen
           bouncePost 20); try reflexivity.
  - repeat constructor.
  - unfold pressSeen, WORD. repeat constructor; cbn; lia.
  - unfold pressSeen, DEBOUNCE_MS. apply Exists_cons_tl, Exists_cons_tl,
      Exists_cons_hd. cbn. lia.
Defined.

(** ** Invariants of a pass of [loop] *)

Lemma loop_stages (fuel : nat) (env : Env) (s s' : State) :
  loop fuel env s = Some s' ->
  exists s1 s2,
    keyboardLongPress fuel env (shortPresses env s) = Some s1
    /\ manualSetupLongPress fuel env s1 = Some s2
    /\ s' = delay 8 (onUI (periodicRefresh env (clock s2)) s2).
Proof.
  unfold loop. intros H.
  apply andThen_Some in H. destruct H as (s2 & H & [= <-]).
  apply andThen_Some in H. destruct H as (s1 & H1 & H2).
  exists s1, s2. auto.
Qed.

Section LoopInvariant.

Variable P : UI -> Prop.
Variable env : Env.

Hypothesis HUp : forall u, P u -> P (handleUp u).
Hypothesis HDown : forall u, P u -> P (handleDown u).
Hypothesis HBack : forall u, P u -> P (handleBack u).
Hypothesis HSel : forall s, P (ui s) -> P (ui (handleSelect env s)).
Hypothesis HIns : forall u, P u -> P (showKeyboard (insertHighlighted u)).
Hypothesis HDel : forall u, P u -> P (showKeyboard (deleteLast u)).
Hypothesis HConf : forall s, P (ui s) -> P (ui (keyboardConfirm s)).
Hypothesis HMan :
  forall u, P u ->
            P (u |> set_currentScreen SCREEN_WIFI_KEYBOARD
                 |> set_kbRow 0 |> set_kbCol 0 |> showKeyboard).
Hypothesis HRef : forall c u, P u -> P (periodicRefresh env c u).

Lemma shortPresses_invariant (s : State) :
  P (ui s) -> P (ui (shortPresses env s)).
Proof.
  intros H. unfold shortPresses.
  apply onEdge_preserves; [intros s0; apply HBack|].
  apply onEdge_preserves; [intros s0; apply HSel|].
  apply onEdge_preserves; [intros s0; apply HDown|].
  apply onEdge_preserves; [intros s0; apply HUp|].
  exact H.
Qed.

Lemma keyboardLongPress_invariant (fuel : nat) (m s1 : State) :
  keyboardLongPress fuel env m = Some s1 -> P (ui m) -> P (ui s1).
Proof.
  unfold keyboardLongPress. intros H Hm.
  destruct (currentScreen (ui m)); try (injection H as <-; exact Hm).
  apply andThen_Some in H. destruct H as (s4 & H & [= <-]).
  apply andThen_Some in H. destruct H as (s3 & H3 & H4).
  apply HConf.
  apply keyboardSelectLong_cases in H3. apply keyboardBackLong_cases in H4.
  assert (H3' : P (ui s3)).
  { destruct H3 as [(_ & E & _)|(_ & E)]; [|now subst s3].
    rewrite E. now apply HIns. }
  destruct H4 as [(_ & E & _)|(_ & E)]; [|now subst s4].
  rewrite E. now apply HDel.
Qed.

Lemma manualSetupLongPress_invariant (fuel : nat) (m s2 : State) :
  manualSetupLongPress fuel env m = Some s2 -> P (ui m) -> P (ui s2).
Proof.
  unfold manualSetupLongPress. intros H Hm.
  destruct (currentScreen (ui m)); try (injection H as <-; exact Hm).
  destruct (longHeld _ _); [|injection H as <-; exact Hm].
  apply waitRelease_ui in H. rewrite H. now apply HMan.
Qed.

Lemma loop_invariant (fuel : nat) (s s' : State) :
  loop fuel env s = Some s' -> P (ui s) -> P (ui s').
Proof.
  intros H Hs. apply loop_stages in H.
  destruct H as (s1 & s2 & H1 & H2 & ->).
  apply shortPresses_invariant in Hs.
  apply (keyboardLongPress_invariant _ _ _ H1) in Hs.
  apply (manualSetupLongPress_invariant _ _ _ H2) in Hs.
  change (P (periodicRefresh env (clock s2) (ui s2))). now apply HRef.
Qed.

End LoopInvariant.

(** ** The menu *)

(** X3.  On the menu UP and DOWN cycle through the five items: UP from the
    first item selects the last, DOWN from the last selects the first,
    each undoes the other, and neither leaves the menu. *)
Theorem menu_selection_wraps :
  forall u : UI,
    currentScreen u = SCREEN_MENU ->
    0 <= menuIndex u < MENU_COUNT ->
    menuIndex (handleUp u)
    = (if menuIndex u =? 0 then MENU_COUNT - 1 else menuIndex u - 1)
    /\ menuIndex (handleDown u)
       = (if menuIndex u =? MENU_COUNT - 1 then 0 else menuIndex u + 1)
    /\ menuIndex (handleDown (handleUp u)) = menuIndex u
    /\ menuIndex (handleUp (handleDown u)) = menuIndex u
    /\ currentScreen (handleUp u) = SCREEN_MENU
    /\ currentScreen (handleDown u) = SCREEN_MENU.
Proof.
  intros u Hm Hi.
  assert (Hc : MENU_COUNT = 5) by reflexivity. rewrite Hc in *.
  assert (Hup : menuIndex (handleUp u) = Z.rem (menuIndex u - 1 + 5) 5)
    by (unfold handleUp; rewrite Hm, Hc; reflexivity).
  assert (Hdn : menuIndex (handleDown u) = Z.rem (menuIndex u + 1) 5)
    by (unfold handleDown; rewrite Hm, Hc; reflexivity).
  assert (Hsu : currentScreen (handleUp u) = SCREEN_MENU)
    by (rewrite handleUp_screen; exact Hm).
  assert (Hsd : currentScreen (handleDown u) = SCREEN_MENU)
    by (rewrite handleDown_screen; exact Hm).
  assert (Hdu : menuIndex (handleDown (handleUp u))
                = Z.rem (menuIndex (handleUp u) + 1) 5)
    by (unfold handleDown at 1; rewrite Hsu, Hc; reflexivity).
  assert (Hud : menuIndex (handleUp (handleDown u))
                = Z.rem (menuIndex (handleDown u) - 1 + 5) 5)
    by (unfold handleUp at 1; rewrite Hsd, Hc; reflexivity).
  rewrite Hdu, Hud, Hup, Hdn.
  assert (Hcases : menuIndex u = 0 \/ menuIndex u = 1 \/ menuIndex u = 2
                   \/ menuIndex u = 3 \/ menuIndex u = 4) by lia.
  destruct Hcases as [E|[E|[E|[E|E]]]]; rewrite E; cbn; repeat split; auto.
Qed.

(** The theorem on the menu with its first item highlighted. *)
Lemma menu_selection_wraps_witness :
  menuIndex (handleUp (menuAt 0)) = 4
  /\ menuIndex (handleDown (handleUp (menuAt 0))) = 0.
Proof.
  destruct (menu_selection_wraps (menuAt 0)) as (Hu & _ & Hdu & _);
    [reflexivity | unfold MENU_COUNT; cbn; lia |].
  split; [exact Hu | exact Hdu].
Defined.

(** ** The scan list *)

Arguments storeSSIDs : simpl never.

Lemma storeSSIDs_length (f : Z -> string) (n : nat) (l : list string) :
  (n <= List.length l)%nat ->
  List.length (storeSSIDs f n l) = List.length l.
Proof.
  intros H. unfold storeSSIDs.
  rewrite length_app, length_map, length_seq, length_skipn. lia.
Qed.

Lemma storeSSIDs_nth (f : Z -> string) (n : nat) (l : list string) (i : nat) :
  (i < n)%nat -> nth i (storeSSIDs f n l) EmptyString = f (Z.of_nat i).
Proof.
  intros H. unfold storeSSIDs.
  rewrite app_nth1 by (rewrite length_map, length_seq; exact H).
  rewrite (nth_indep _ EmptyString (f (Z.of_nat 0)))
    by (rewrite length_map, length_seq; exact H).
  rewrite (map_nth (fun i => f (Z.of_nat i)) (seq 0 n) 0%nat i).
  now rewrite seq_nth.
Qed.

Lemma storeSSIDs_stale (f : Z -> string) (n : nat) (l : list string)
    (i : nat) :
  (n <= i)%nat -> (n <= List.length l)%nat ->
  nth i (storeSSIDs f n l) EmptyString = nth i l EmptyString.
Proof.
  intros Hi Hn. unfold storeSSIDs.
  rewrite app_nth2 by (rewrite length_map, length_seq; exact Hi).
  rewrite length_map, length_seq, nth_skipn. f_equal. lia.
Qed.

(** X4.  [startWifiScanAndShow] always leaves a list the screen can show:
    the array keeps its 32 entries, between 1 and 31 of them count, and
    the first is highlighted.  If the scan finds nothing (or fails), the
    list is the single entry "No networks found"; otherwise it holds the
    first 31 networks found, in the order of the scan.  Entries past the
    count keep what an earlier scan left there. *)
Theorem scan_fills_list :
  forall (env : Env) (s : State),
    List.length (scannedSSIDs (ui s)) = 32%nat ->
    let found := scanNetworks env (clock s + 80) in
    let u' := ui (startWifiScanAndShow env s) in
    List.length (scannedSSIDs u') = 32%nat
    /\ 1 <= scannedCount u' <= 31
    /\ wifiListIndex u' = 0
    /\ scannedCount u' = (if found <=? 0 then 1 else Z.min found 31)
    /\ (found <= 0 ->
        nth 0 (scannedSSIDs u') EmptyString = "No networks found"%string)
    /\ (0 < found ->
        forall i, 0 <= i < scannedCount u' ->
                  nth (Z.to_nat i) (scannedSSIDs u') EmptyString
                  = scanSSID env (clock s + 80) i)
    /\ (forall i, scannedCount u' <= i ->
                  nth (Z.to_nat i) (scannedSSIDs u') EmptyString
                  = nth (Z.to_nat i) (scannedSSIDs (ui s)) EmptyString).
Proof.
  intros env s Hlen found u'. subst u'. unfold startWifiScanAndShow.
  cbn [clock delay set_clock onUI set_ui ui]. fold found.
  destruct (Z.ltb_spec 31 found) as [Hbig|Hsmall].
  - (* more than 31 networks: capped *)
    cbn. rewrite storeSSIDs_length by (rewrite Hlen; cbn; lia).
    replace (found <=? 0) with false by (symmetry; apply Z.leb_gt; lia).
    repeat split; try lia; try exact Hlen.
    + intros _ i Hi.
      replace (Pos.to_nat 31) with (Z.to_nat 31) by reflexivity.
      rewrite storeSSIDs_nth by lia. f_equal. lia.
    + intros i Hi. apply storeSSIDs_stale; [|rewrite Hlen; cbn]; lia.
  - destruct (Z.leb_spec found 0) as [Hnone|Hsome].
    + cbn. repeat split; try lia; try exact Hlen.
      * now rewrite storeSSIDs_length by (rewrite Hlen; cbn; lia).
      * intros i Hi. apply storeSSIDs_stale; [|rewrite Hlen; cbn]; lia.
    + cbn. rewrite storeSSIDs_length by (rewrite Hlen; lia).
      repeat split; try lia; try exact Hlen.
      * intros _ i Hi. rewrite storeSSIDs_nth by lia. f_equal. lia.
      * intros i Hi. apply storeSSIDs_stale; [|rewrite Hlen]; lia.
Qed.

(** The theorem on the scan of [quietEnv], which finds two networks. *)
Lemma scan_fills_list_witness :
  scannedCount (ui (startWifiScanAndShow quietEnv
                      (stateAt quietEnv 10 (menuAt 3)))) = 2
  /\ nth 1 (scannedSSIDs (ui (startWifiScanAndShow quietEnv
                                (stateAt quietEnv 10 (menuAt 3)))))
       EmptyString = "cafe"%string.
Proof.
  destruct (scan_fills_list quietEnv (stateAt quietEnv 10 (menuAt 3)))
    as (_ & _ & _ & Hc & _ & Hn & _); [reflexivity|].
  split; [exact Hc|].
  apply (Hn ltac:(reflexivity) 1). rewrite Hc. cbn. lia.
Defined.

Lemma startWifiScanAndShow_screen (env : Env) (s : State) :
  currentScreen (ui (startWifiScanAndShow env s)) = currentScreen (ui s).
Proof. unfold startWifiScanAndShow. cbn. split_ifs; reflexivity. Qed.

(** X5.  When the scan finds no network, SELECT on "Connect to Wi-Fi"
    shows a list of one entry, "No networks found"; SELECT on that entry
    opens the keyboard all the same, with "No networks found" as the
    network name. *)
Theorem empty_scan_entry_is_selectable :
  forall (env : Env) (s : State),
    currentScreen (ui s) = SCREEN_MENU ->
    menuIndex (ui s) = 3 ->
    List.length (scannedSSIDs (ui s)) = 32%nat ->
    scanNetworks env (clock s + 80) <= 0 ->
    let s1 := handleSelect env s in
    currentScreen (ui s1) = SCREEN_WIFI_SCAN
    /\ scannedCount (ui s1) = 1
    /\ currentScreen (ui (handleSelect env s1)) = SCREEN_WIFI_KEYBOARD
    /\ manualSSID (ui (handleSelect env s1)) = "No networks found"%string.
Proof.
  intros env s Hm Hi Hlen Hnone s1.
  assert (Hs1 : s1 = startWifiScanAndShow env
                       (onUI (set_currentScreen SCREEN_WIFI_SCAN)
                          (onUI (fun u => set_previousScreen
                                            (currentScreen u) u) s))).
  { unfold s1, handleSelect. rewrite Hm. unfold menuDispatch.
    cbn [ui onUI set_ui menuIndex set_previousScreen]. now rewrite Hi. }
  match type of Hs1 with
  | _ = startWifiScanAndShow env ?s0 =>
      destruct (scan_fills_list env s0) as (_ & _ & Hidx & Hc & H0 & _);
      [exact Hlen|]
  end.
  cbn [clock onUI set_ui] in Hc, H0. rewrite <- Hs1 in Hidx, Hc, H0.
  replace (scanNetworks env (clock s + 80) <=? 0) with true in Hc
    by (symmetry; now apply Z.leb_le).
  specialize (H0 Hnone).
  assert (Hscr : currentScreen (ui s1) = SCREEN_WIFI_SCAN)
    by (rewrite Hs1, startWifiScanAndShow_screen; reflexivity).
  split; [exact Hscr|]. split; [exact Hc|].
  destruct (scan_select_resets_password_and_cursor env s1 Hscr)
    as (Hk & Hn & _); [lia|].
  split; [exact Hk|]. rewrite Hn, Hidx. exact H0.
Qed.

(** The theorem on the menu in [emptyScanEnv]. *)
Lemma empty_scan_entry_is_selectable_witness :
  manualSSID
    (ui (handleSelect emptyScanEnv
           (handleSelect emptyScanEnv (stateAt emptyScanEnv 10 (menuAt 3)))))
  = "No networks found"%string.
Proof.
  destruct (empty_scan_entry_is_selectable emptyScanEnv
              (stateAt emptyScanEnv 10 (menuAt 3)))
    as (_ & _ & _ & H);
    [reflexivity | reflexivity | reflexivity | cbn; lia | exact H].
Defined.

(** *** The list stays well formed *)

Lemma scanListOk_kept (u u' : UI) :
  scanKept u u' -> scanListOk u -> scanListOk u'.
Proof.
  unfold scanKept, scanListOk.
  intros (-> & -> & -> & Hs) (A & B & C & D & E).
  repeat split; auto; lia.
Qed.

Lemma scanKept_refl (u : UI) : scanKept u u.
Proof. repeat split; auto. Qed.

Ltac scan_kept :=
  unfold scanKept; cbn; repeat split; auto; try discriminate; congruence.

Lemma handleUp_scanListOk (u : UI) : scanListOk u -> scanListOk (handleUp u).
Proof.
  intros H. unfold handleUp.
  destruct (currentScreen u) eqn:E;
    try (apply (scanListOk_kept u); [scan_kept | exact H]).
  destruct (Z.ltb_spec 0 (scannedCount u));
    [|apply (scanListOk_kept u); [scan_kept | exact H]].
  unfold scanListOk in *. cbn. rewrite E. lia.
Qed.

Lemma handleDown_scanListOk (u : UI) :
  scanListOk u -> scanListOk (handleDown u).
Proof.
  intros H. unfold handleDown.
  destruct (currentScreen u) eqn:E;
    try (apply (scanListOk_kept u); [scan_kept | exact H]).
  destruct (Z.ltb_spec 0 (scannedCount u));
    [|apply (scanListOk_kept u); [scan_kept | exact H]].
  unfold scanListOk in *. cbn. rewrite E. lia.
Qed.

Lemma handleBack_scanListOk (u : UI) :
  scanListOk u -> scanListOk (handleBack u).
Proof.
  intros H. unfold handleBack.
  destruct (currentScreen u) eqn:E;
    apply (scanListOk_kept u); try exact H; scan_kept.
Qed.

Lemma handleSelect_scanListOk (env : Env) (s : State) :
  scanListOk (ui s) -> scanListOk (ui (handleSelect env s)).
Proof.
  intros H. unfold handleSelect.
  destruct (currentScreen (ui s)) eqn:E;
    try (apply (scanListOk_kept (ui s)); [scan_kept | exact H]).
  - (* the menu *)
    unfold menuDispatch. cbn [ui onUI set_ui menuIndex set_previousScreen].
    destruct (menuIndex (ui s) =? 0);
      [apply (scanListOk_kept (ui s)); [|exact H];
       unfold showLocalWeather; cbn; split_ifs; scan_kept|].
    destruct (menuIndex (ui s) =? 1);
      [apply (scanListOk_kept (ui s)); [scan_kept | exact H]|].
    destruct (menuIndex (ui s) =? 2);
      [apply (scanListOk_kept (ui s)); [|exact H];
       unfold showGeolocation; cbn; split_ifs; scan_kept|].
    destruct (menuIndex (ui s) =? 3).
    + match goal with
      | |- scanListOk (ui (startWifiScanAndShow env ?s0)) =>
          destruct (scan_fills_list env s0) as (A & B & C & _);
          [exact (proj1 H)|]
      end.
      unfold scanListOk. rewrite C. repeat split; try lia; exact A.
    + destruct (menuIndex (ui s) =? 4);
        [apply (scanListOk_kept (ui s)); [scan_kept | exact H]|].
      destruct (menuIndex (ui s) =? 5);
        apply (scanListOk_kept (ui s)); try exact H; scan_kept.
  - (* the scan list itself *)
    cbn. destruct (0 <? scannedCount (ui s)); [|exact H].
    apply (scanListOk_kept (ui s)); [scan_kept | exact H].
Qed.

Lemma periodicRefresh_scanKept (env : Env) (c : Z) (u : UI) :
  scanKept u (periodicRefresh env c u).
Proof.
  unfold periodicRefresh, pollConnection, showLocalWeather.
  destruct (UI_REFRESH_MS <? _); [|apply scanKept_refl]. cbn.
  destruct (currentScreen u) eqn:E; try scan_kept.
  - split_ifs; scan_kept.
  - destruct (wifiConnectState u); try scan_kept. split_ifs; scan_kept.
Qed.

Lemma keyboardConfirm_scanKept (s : State) :
  scanKept (ui s) (ui (keyboardConfirm s)).
Proof. unfold keyboardConfirm. split_ifs; scan_kept. Qed.

Lemma keyboardEdits_scanListOk (u : UI) :
  scanListOk u ->
  scanListOk (showKeyboard (insertHighlighted u))
  /\ scanListOk (showKeyboard (deleteLast u)).
Proof.
  intros H. split; apply (scanListOk_kept u); try exact H.
  - unfold showKeyboard, insertHighlighted. split_ifs; scan_kept.
  - unfold showKeyboard, deleteLast. split_ifs; scan_kept.
Qed.

Lemma loop_scanListOk (fuel : nat) (env : Env) (s s' : State) :
  loop fuel env s = Some s' -> scanListOk (ui s) -> scanListOk (ui s').
Proof.
  apply (loop_invariant scanListOk env).
  - apply handleUp_scanListOk.
  - apply handleDown_scanListOk.
  - apply handleBack_scanListOk.
  - apply handleSelect_scanListOk.
  - intros u H. apply (keyboardEdits_scanListOk u H).
  - intros u H. apply (keyboardEdits_scanListOk u H).
  - intros s0 H. eapply scanListOk_kept; [apply keyboardConfirm_scanKept|].
    exact H.
  - intros u H. apply (scanListOk_kept u); [scan_kept | exact H].
  - intros c u H. eapply scanListOk_kept; [apply periodicRefresh_scanKept|].
    exact H.
Qed.

(** X6.  The scan list stays well formed: it is so in the initial globals
    and every pass of [loop] keeps it so.  Hence, whenever the list is on
    screen, the highlighted index is that of one of the entries that
    count, and the array read of SELECT, [scannedSSIDs[wifiListIndex]],
    is inside the 32-entry array. *)
Theorem scan_list_stays_well_formed :
  scanListOk initialUI
  /\ (forall fuel env s s',
        scanListOk (ui s) -> loop fuel env s = Some s' -> scanListOk (ui s'))
  /\ (forall u,
        scanListOk u -> currentScreen u = SCREEN_WIFI_SCAN ->
        0 <= wifiListIndex u < scannedCount u
        /\ (Z.to_nat (wifiListIndex u) < List.length (scannedSSIDs u))%nat).
Proof.
  split; [|split].
  - unfold scanListOk. cbn. repeat split; try lia. discriminate.
  - intros fuel env s s' Hinv H. eapply loop_scanListOk; eauto.
  - intros u (A & B & C & D & E) Hscr. specialize (E Hscr).
    rewrite A. lia.
Qed.

(** The theorem on [scanListState], after one pass of [loop]. *)
Lemma scan_list_stays_well_formed_witness :
  exists s', loop 0 quietEnv scanListState = Some s'
             /\ scanListOk (ui s')
             /\ 0 <= wifiListIndex (ui s') < scannedCount (ui s').
Proof.
  destruct scan_list_stays_well_formed as (_ & Hloop & Hread).
  assert (H0 : scanListOk (ui scanListState)).
  { unfold scanListOk. cbn. repeat split; try lia. }
  destruct (loop 0 quietEnv scanListState) as [s'|] eqn:E;
    [|vm_compute in E; discriminate E].
  exists s'. split; [reflexivity|].
  pose proof (Hloop 0%nat quietEnv scanListState s' H0 E) as H1.
  split; [exact H1|].
  apply Hread; [exact H1|].
  vm_compute in E. injection E as <-. reflexivity.
Defined.

(** *** What the scan screen shows *)

Lemma scanWindowStart_bounds (u : UI) :
  0 <= wifiListIndex u < scannedCount u ->
  0 <= scanWindowStart u <= wifiListIndex u
  /\ wifiListIndex u < scanWindowStart u + 4
  /\ (4 <= scannedCount u -> scanWindowStart u + 4 <= scannedCount u).
Proof.
  intros H. unfold scanWindowStart.
  change (Z.quot 4 2) with 2.
  destruct (Z.ltb_spec (wifiListIndex u - 2) 0);
    match goal with
    | |- context [?a <? ?b] => destruct (Z.ltb_spec a b)
    end; lia.
Qed.

(** X7.  [showWiFiScan] always shows the selection.  With the highlighted
    index among the entries that count, the four rows drawn start at an
    index of the list, contain the highlighted entry, and highlight that
    row and no other; the window does not run past the end of a list of
    four or more entries. *)
Theorem scan_window_shows_selection :
  forall u : UI,
    0 <= wifiListIndex u < scannedCount u ->
    0 <= scanWindowStart u <= wifiListIndex u
    /\ wifiListIndex u < scanWindowStart u + 4
    /\ (4 <= scannedCount u -> scanWindowStart u + 4 <= scannedCount u)
    /\ List.length (filter isHighlighted (scanRows u)) = 1%nat
    /\ nth (Z.to_nat (wifiListIndex u - scanWindowStart u)) (scanRows u)
         RowBlank
       = RowEntry true
           (nth (Z.to_nat (wifiListIndex u)) (scannedSSIDs u) EmptyString).
Proof.
  intros u H.
  destruct (scanWindowStart_bounds u H) as (A & B & C).
  split; [exact A|]. split; [exact B|]. split; [exact C|].
  unfold scanRows. cbn [map].
  set (st := scanWindowStart u) in *. clearbody st.
  set (cnt := scannedCount u) in *. clearbody cnt.
  generalize dependent (wifiListIndex u). intros idx H A B.
  assert (Hd : idx = st + 0 \/ idx = st + 1 \/ idx = st + 2 \/ idx = st + 3)
    by lia.
  destruct Hd as [E|[E|[E|E]]]; subst idx;
    match goal with
    | |- context [Z.to_nat (st + ?k - st)] =>
        replace (st + k - st) with k by lia
    end;
    repeat match goal with
           | |- context [?a <=? ?b] => destruct (Z.leb_spec a b)
           | |- context [?a =? ?b] => destruct (Z.eqb_spec a b)
           end;
    try lia; cbn; split; reflexivity.
Qed.

(** The theorem on a list of six networks with the fourth highlighted:
    the rows show entries 1 to 4, the third row highlighted. *)
Lemma scan_window_shows_selection_witness :
  scanWindowStart sixNetworks = 1
  /\ nth 2 (scanRows sixNetworks) RowBlank = RowEntry true "home".
Proof.
  destruct (scan_window_shows_selection sixNetworks)
    as (_ & _ & _ & _ & H); [cbn; lia|].
  split; [reflexivity | exact H].
Defined.

(** ** The keyboard *)

(** X8.  What is inserted is what is shown: with the cursor on the grid,
    the character [showKeyboard] draws in the cursor's cell is the
    character the insert gesture appends. *)
Theorem inserted_char_is_drawn_char :
  forall u : UI,
    inBounds u -> drawnChar (kbRow u) (kbCol u) = highlightedChar u.
Proof.
  intros u [Hr Hc]. unfold drawnChar, highlightedChar.
  destruct ((kbRow u =? KEYBOARD_ROWS - 1) && (8 <=? kbCol u)) eqn:E;
    [|reflexivity].
  replace (kbCol u - 8 <? Z.of_nat (String.length extraSymbols)) with true;
    [reflexivity|].
  symmetry. apply Z.ltb_lt. unfold KEYBOARD_COLS in Hc. cbn. lia.
Qed.

(** The theorem in the bottom-right corner, where the grid's own [7] is
    replaced by [@]. *)
Lemma inserted_char_is_drawn_char_witness :
  drawnChar 5 9 = "@"%char /\ highlightedChar keyboardCorner = "@"%char.
Proof.
  assert (H : inBounds keyboardCorner)
    by (unfold inBounds, KEYBOARD_ROWS, KEYBOARD_COLS; cbn; lia).
  pose proof (inserted_char_is_drawn_char keyboardCorner H) as E.
  split; [reflexivity|]. rewrite <- E. reflexivity.
Defined.

Lemma allIn_incl (l1 l2 : list ascii) : allIn l1 l2 = true -> incl l1 l2.
Proof.
  unfold allIn. rewrite forallb_forall. intros H a Ha.
  specialize (H a Ha). apply existsb_exists in H.
  destruct H as (b & Hb & E). apply Ascii.eqb_eq in E. now subst.
Qed.

Lemma keyboardCellsIndex_spec (r c : Z) :
  In (r, c) keyboardCellsIndex
  <-> 0 <= r < KEYBOARD_ROWS /\ 0 <= c < KEYBOARD_COLS.
Proof.
  unfold keyboardCellsIndex, KEYBOARD_ROWS, KEYBOARD_COLS.
  rewrite in_prod_iff. cbn [In]. lia.
Qed.

(** X9.  The characters the keyboard can insert, with the cursor anywhere
    on the grid, are exactly the lower-case letters except [j], the
    upper-case letters, the digits 0 to 5, and [!] and [@].  So [j], the
    digits 6 to 9 and the other nine characters of [extraSymbols] cannot
    be entered. *)
Theorem keyboard_alphabet :
  (forall ch : ascii,
     (exists u, inBounds u /\ highlightedChar u = ch)
     <-> In ch (list_ascii_of_string typeableChars))
  /\ ~ In "j"%char (list_ascii_of_string typeableChars)
  /\ (forall d, In d (list_ascii_of_string "6789#.-_/:*?& ") ->
                ~ In d (list_ascii_of_string typeableChars)).
Proof.
  set (chars := map (fun rc => highlightedChar
                                  (cursorAt (fst rc) (snd rc) initialUI))
                  keyboardCellsIndex).
  assert (H1 : incl chars (list_ascii_of_string typeableChars))
    by (apply allIn_incl; vm_compute; reflexivity).
  assert (H2 : incl (list_ascii_of_string typeableChars) chars)
    by (apply allIn_incl; vm_compute; reflexivity).
  split; [|split].
  - intros ch. split.
    + intros (u & Hb & <-). apply H1. unfold chars. apply in_map_iff.
      exists (kbRow u, kbCol u). split; [reflexivity|].
      now apply keyboardCellsIndex_spec.
    + intros Hin. apply H2 in Hin. unfold chars in Hin.
      apply in_map_iff in Hin. destruct Hin as ([r c] & <- & Hrc).
      exists (cursorAt r c initialUI). split; [|reflexivity].
      now apply keyboardCellsIndex_spec in Hrc.
  - intros Hin. vm_compute in Hin.
    repeat (destruct Hin as [Hin|Hin]; [discriminate Hin|]). exact Hin.
  - intros d Hd Hin. cbn in Hd.
    repeat (destruct Hd as [<-|Hd];
            [vm_compute in Hin;
             repeat (destruct Hin as [Hin|Hin]; [discriminate Hin|]);
             exact Hin|]).
    exact Hd.
Qed.

(** The theorem on two characters: [a] can be entered, [6] cannot. *)
Lemma keyboard_alphabet_witness :
  (exists u, inBounds u /\ highlightedChar u = "a"%char)
  /\ ~ In "6"%char (list_ascii_of_string typeableChars).
Proof.
  destruct keyboard_alphabet as (H1 & _ & H3). split.
  - apply H1. cbn. tauto.
  - apply H3. cbn. tauto.
Defined.

(** ** Insert and delete undo each other *)

Arguments dropLast : simpl never.
Arguments appendChar : simpl never.

Lemma dropLast_appendChar (s : string) (ch : ascii) :
  dropLast (appendChar s ch) = s.
Proof.
  unfold dropLast. rewrite length_appendChar. cbn [Nat.sub].
  rewrite Nat.sub_0_r. unfold appendChar.
  induction s as [|a s IH]; [reflexivity|].
  cbn. now rewrite IH.
Qed.

(** X10.  Deleting after inserting restores both buffers when the active
    one had room; when it was full, the insertion did nothing and the
    deletion removes its last character.  Neither gesture ever touches
    the field that is not being edited, and deleting from an empty field
    changes nothing. *)
Theorem delete_undoes_insert :
  forall u : UI,
    buffers (deleteLast (insertHighlighted u))
    = (if roomLeft u then buffers u else buffers (deleteLast u))
    /\ (editingSSID u = true ->
        manualPassword (insertHighlighted u) = manualPassword u
        /\ manualPassword (deleteLast u) = manualPassword u)
    /\ (editingSSID u = false ->
        manualSSID (insertHighlighted u) = manualSSID u
        /\ manualSSID (deleteLast u) = manualSSID u)
    /\ (activeBuffer u = EmptyString -> deleteLast u = u).
Proof.
  intros u. unfold buffers, roomLeft, insertHighlighted, deleteLast,
              activeBuffer.
  destruct (editingSSID u) eqn:E.
  - split; [|split; [|split]].
    + destruct (String.length (manualSSID u) <? 32)%nat eqn:L;
        cbn; rewrite ?E; cbn; [|reflexivity].
      rewrite length_appendChar, dropLast_appendChar. reflexivity.
    + intros _. split; split_ifs; reflexivity.
    + discriminate.
    + intros ->. reflexivity.
  - split; [|split; [|split]].
    + destruct (String.length (manualPassword u) <? 64)%nat eqn:L;
        cbn; rewrite ?E; cbn; [|reflexivity].
      rewrite length_appendChar, dropLast_appendChar. reflexivity.
    + discriminate.
    + intros _. split; split_ifs; reflexivity.
    + intros ->. reflexivity.
Qed.

(** The theorem on the keyboard with "ab" in the name buffer. *)
Lemma delete_undoes_insert_witness :
  buffers (insertHighlighted (ui (keyboardSelHeld 3000 "ab" "")))
  = ("aba"%string, EmptyString)
  /\ buffers (deleteLast
                (insertHighlighted (ui (keyboardSelHeld 3000 "ab" ""))))
     = ("ab"%string, EmptyString).
Proof.
  split; [reflexivity|].
  exact (proj1 (delete_undoes_insert (ui (keyboardSelHeld 3000 "ab" "")))).
Defined.

(** ** The buffers keep their lengths *)

Lemma withinCaps_kept (u u' : UI) :
  textKept u u' -> withinCaps u -> withinCaps u'.
Proof. unfold textKept, withinCaps. now intros (-> & -> & ->). Qed.

Ltac text_kept := unfold textKept; cbn; repeat split; reflexivity.

Lemma storeSSIDs_Forall (P : string -> Prop) (f : Z -> string) (n : nat)
    (l : list string) :
  (forall i, P (f i)) -> Forall P l -> Forall P (storeSSIDs f n l).
Proof.
  intros Hf Hl. unfold storeSSIDs. apply Forall_app. split.
  - apply Forall_map, Forall_forall. intros i _. apply Hf.
  - rewrite <- (firstn_skipn n l) in Hl. apply Forall_app in Hl.
    exact (proj2 Hl).
Qed.

Lemma startWifiScanAndShow_withinCaps (env : Env) (s : State) :
  shortNames env -> withinCaps (ui s) ->
  withinCaps (ui (startWifiScanAndShow env s)).
Proof.
  intros Henv (A & B & C). unfold startWifiScanAndShow, withinCaps.
  cbn [clock delay set_clock onUI set_ui ui].
  destruct (_ <=? 0); cbn; repeat split; auto;
    apply storeSSIDs_Forall; auto; intros i; cbn; lia.
Qed.

Lemma handleSelect_withinCaps (env : Env) (s : State) :
  shortNames env -> withinCaps (ui s) ->
  withinCaps (ui (handleSelect env s)).
Proof.
  intros Henv H. unfold handleSelect.
  destruct (currentScreen (ui s)) eqn:E;
    try (apply (withinCaps_kept (ui s)); [text_kept | exact H]).
  - unfold menuDispatch. cbn [ui onUI set_ui menuIndex set_previousScreen].
    destruct (menuIndex (ui s) =? 0);
      [apply (withinCaps_kept (ui s)); [|exact H];
       unfold showLocalWeather; cbn; split_ifs; text_kept|].
    destruct (menuIndex (ui s) =? 1);
      [apply (withinCaps_kept (ui s)); [text_kept | exact H]|].
    destruct (menuIndex (ui s) =? 2);
      [apply (withinCaps_kept (ui s)); [|exact H];
       unfold showGeolocation; cbn; split_ifs; text_kept|].
    destruct (menuIndex (ui s) =? 3);
      [apply startWifiScanAndShow_withinCaps; [exact Henv | exact H]|].
    destruct (menuIndex (ui s) =? 4);
      [apply (withinCaps_kept (ui s)); [text_kept | exact H]|].
    destruct (menuIndex (ui s) =? 5);
      apply (withinCaps_kept (ui s)); try exact H; text_kept.
  - cbn. destruct (0 <? scannedCount (ui s)); [|exact H].
    destruct H as (A & B & C). unfold withinCaps. cbn.
    split; [|split; [lia | exact C]].
    destruct (nth_in_or_default (Z.to_nat (wifiListIndex (ui s)))
                (scannedSSIDs (ui s)) EmptyString) as [Hin| ->];
      [|cbn; lia].
    exact (proj1 (Forall_forall _ _) C _ Hin).
Qed.

Lemma insertHighlighted_withinCaps (u : UI) :
  withinCaps u -> withinCaps (showKeyboard (insertHighlighted u)).
Proof.
  intros (A & B & C). unfold withinCaps, showKeyboard, insertHighlighted.
  destruct (editingSSID u).
  - destruct (Nat.ltb_spec (String.length (manualSSID u)) 32); cbn;
      rewrite ?length_appendChar; repeat split; auto; lia.
  - destruct (Nat.ltb_spec (String.length (manualPassword u)) 64); cbn;
      rewrite ?length_appendChar; repeat split; auto; lia.
Qed.

Lemma deleteLast_withinCaps (u : UI) :
  withinCaps u -> withinCaps (showKeyboard (deleteLast u)).
Proof.
  intros (A & B & C). unfold withinCaps, showKeyboard, deleteLast.
  destruct (editingSSID u); split_ifs; cbn; rewrite ?length_dropLast;
    repeat split; auto; lia.
Qed.

Lemma periodicRefresh_textKept (env : Env) (c : Z) (u : UI) :
  textKept u (periodicRefresh env c u).
Proof.
  unfold periodicRefresh, pollConnection, showLocalWeather.
  destruct (UI_REFRESH_MS <? _); [|text_kept]. cbn.
  destruct (currentScreen u) eqn:E; try text_kept.
  - split_ifs; text_kept.
  - destruct (wifiConnectState u); try text_kept. split_ifs; text_kept.
Qed.

Lemma loop_withinCaps (fuel : nat) (env : Env) (s s' : State) :
  shortNames env ->
  loop fuel env s = Some s' -> withinCaps (ui s) -> withinCaps (ui s').
Proof.
  intros Henv. apply (loop_invariant withinCaps env).
  - intros u H. apply (withinCaps_kept u); [|exact H].
    unfold handleUp. destruct (currentScreen u); split_ifs; text_kept.
  - intros u H. apply (withinCaps_kept u); [|exact H].
    unfold handleDown. destruct (currentScreen u); split_ifs; text_kept.
  - intros u H. apply (withinCaps_kept u); [|exact H].
    unfold handleBack. destruct (currentScreen u); text_kept.
  - intros s0. now apply handleSelect_withinCaps.
  - apply insertHighlighted_withinCaps.
  - apply deleteLast_withinCaps.
  - intros s0 H. apply (withinCaps_kept (ui s0)); [|exact H].
    unfold keyboardConfirm. split_ifs; text_kept.
  - intros u H. apply (withinCaps_kept u); [text_kept | exact H].
  - intros c u H. eapply withinCaps_kept; [apply periodicRefresh_textKept|].
    exact H.
Qed.

(** X11.  The text never outgrows its fields.  If the radio reports
    network names of at most 32 characters, then from the initial globals
    on every pass of [loop] keeps the network-name buffer and every
    scanned name within 32 characters and the password buffer within 64. *)
Theorem buffers_stay_within_caps :
  withinCaps initialUI
  /\ forall fuel env s s',
       shortNames env -> withinCaps (ui s) ->
       loop fuel env s = Some s' -> withinCaps (ui s').
Proof.
  split.
  - unfold withinCaps. cbn. repeat split; try lia.
    repeat constructor.
  - intros fuel env s s' Henv Hinv H. eapply loop_withinCaps; eauto.
Qed.

(** The theorem on the hold of SELECT over a full name buffer: the pass
    returns with the buffer still at 32 characters. *)
Lemma buffers_stay_within_caps_witness :
  exists s',
    loop 500 (selHeldEnv 1000 7100) (keyboardSelHeld 3000 fullName "")
    = Some s'
    /\ withinCaps (ui s').
Proof.
  destruct (loop 500 (selHeldEnv 1000 7100)
              (keyboardSelHeld 3000 fullName "")) as [s'|] eqn:E;
    [|vm_compute in E; discriminate E].
  exists s'. split; [reflexivity|].
  apply (proj2 buffers_stay_within_caps 500%nat (selHeldEnv 1000 7100)
           (keyboardSelHeld 3000 fullName "") s'); [| |exact E].
  - intros c i. cbn. destruct (i =? 0); cbn; lia.
  - unfold withinCaps. cbn. repeat split; try lia. repeat constructor.
Defined.

(** ** The field line of the keyboard screen *)

Lemma substring_split (s : string) :
  forall n, (n <= String.length s)%nat ->
            s = (substring 0 n s ++ substring n (String.length s - n) s)%string.
Proof.
  induction s as [|a s IH]; intros [|n] H; cbn in *; try lia.
  - reflexivity.
  - f_equal. clear. induction s as [|b s IH]; cbn; [|rewrite <- IH];
      reflexivity.
  - f_equal. apply IH. lia.
Qed.

Lemma length_substring (s : string) :
  forall n m, (n + m <= String.length s)%nat ->
              String.length (substring n m s) = m.
Proof.
  induction s as [|a s IH]; intros [|n] [|m] H; cbn in *;
    try reflexivity; try lia;
    try (f_equal; apply (IH 0%nat m); lia); apply IH; lia.
Qed.

(** X12.  The line above the keyboard grid shows the end of the active
    field: it is the labelled field ("SSID: " or "PWD: " and the buffer)
    if that has at most 20 characters, and otherwise exactly its last 20
    characters, so the character typed last is always in view. *)
Theorem field_line_shows_tail :
  forall u : UI,
    (String.length (shownField u) <= 20)%nat
    /\ (exists hidden, labelledField u = (hidden ++ shownField u)%string)
    /\ ((String.length (labelledField u) <= 20)%nat ->
        shownField u = labelledField u)
    /\ ((20 < String.length (labelledField u))%nat ->
        String.length (shownField u) = 20%nat).
Proof.
  intros u. unfold shownField. fold (labelledField u).
  set (s := labelledField u).
  destruct (Nat.ltb_spec 20 (String.length s)) as [Hlong|Hshort].
  - assert (Hlen : String.length (suffixFrom (String.length s - 20) s)
                   = 20%nat).
    { unfold suffixFrom. rewrite length_substring; lia. }
    split; [lia|]. split; [|split; [lia | intros _; exact Hlen]].
    exists (substring 0 (String.length s - 20) s).
    unfold suffixFrom. apply substring_split. lia.
  - split; [exact Hshort|]. split; [|split; [reflexivity | lia]].
    exists EmptyString. reflexivity.
Qed.

(** The theorem on a password of 30 characters: of "PWD: " and the
    password the last 20 characters are shown. *)
Lemma field_line_shows_tail_witness :
  String.length (labelledField longPassword) = 35%nat
  /\ String.length (shownField longPassword) = 20%nat.
Proof.
  split; [reflexivity|].
  apply (proj2 (proj2 (proj2 (field_line_shows_tail longPassword)))).
  cbn. lia.
Defined.

(** ** BACK *)

(** X13.  A short press of BACK never touches the text buffers or
    [Preferences].  On the connecting screen it cancels: the radio is told to disconnect, the
    state becomes failed and the result screen says "Cancelled by user".
    On every other screen it leaves the connection state alone and sends
    no command to the radio. *)
Theorem back_cancels_only_when_connecting :
  forall u : UI,
    buffers (handleBack u) = buffers u
    /\ prefs (handleBack u) = prefs u
    /\ (currentScreen u = SCREEN_WIFI_CONNECTING ->
        wifiConnectState (handleBack u) = WFC_FAILED
        /\ currentScreen (handleBack u) = SCREEN_WIFI_RESULT
        /\ log (handleBack u)
           = log u ++ [EvWifiDisconnect;
                       EvDraw (VResult false "Cancelled by user")])
    /\ (currentScreen u <> SCREEN_WIFI_CONNECTING ->
        wifiConnectState (handleBack u) = wifiConnectState u
        /\ commands (log (handleBack u)) = commands (log u)).
Proof.
  intros u. unfold handleBack, buffers.
  destruct (currentScreen u) eqn:E; cbn;
    (split; [reflexivity|]); (split; [reflexivity|]);
    (split; [try discriminate|]);
    try (intros _; split; [reflexivity|];
         rewrite ?commands_app, ?app_nil_r; reflexivity).
  - intros _. split; [reflexivity|]. split; [reflexivity|].
    now rewrite <- app_assoc.
  - intros H. now contradiction H.
Qed.

(** The theorem on [connectingState]. *)
Lemma back_cancels_only_when_connecting_witness :
  wifiConnectState (handleBack (ui connectingState)) = WFC_FAILED
  /\ currentScreen (handleBack (ui connectingState)) = SCREEN_WIFI_RESULT.
Proof.
  destruct (back_cancels_only_when_connecting (ui connectingState))
    as (_ & _ & H & _).
  destruct H as (A & B & _); [reflexivity|]. split; [exact A | exact B].
Defined.

(** ** An attempt from start to result *)

(** X14.  The timeout counts from the call of [startWiFiConnect], also
    across the wrap of [millis()].  For a poll at clock [c], less than
    2^32 ms after an attempt was started at the clock of [s]: a linked
    radio gives connected and the result screen, however late; with the
    radio not linked, the attempt stays connecting up to 20000 ms after
    the start and fails once more than 20000 ms have passed. *)
Theorem attempt_times_out_after_20s :
  forall (env : Env) (ssid pwd : string) (s : State) (c : Z),
    0 <= c - clock s < WORD ->
    let u0 := ui (startWiFiConnect ssid pwd s) in
    wifiConnectState u0 = WFC_CONNECTING
    /\ (wifiLinked env c = true ->
        wifiConnectState (pollConnection env c u0) = WFC_CONNECTED
        /\ wifiConnected (pollConnection env c u0) = true
        /\ currentScreen (pollConnection env c u0) = SCREEN_WIFI_RESULT)
    /\ (wifiLinked env c = false ->
        c - clock s <= WIFI_CONNECT_TIMEOUT ->
        wifiConnectState (pollConnection env c u0) = WFC_CONNECTING
        /\ currentScreen (pollConnection env c u0) = SCREEN_WIFI_CONNECTING)
    /\ (wifiLinked env c = false ->
        WIFI_CONNECT_TIMEOUT < c - clock s ->
        wifiConnectState (pollConnection env c u0) = WFC_FAILED
        /\ wifiConnected (pollConnection env c u0) = false
        /\ currentScreen (pollConnection env c u0) = SCREEN_WIFI_RESULT).
Proof.
  intros env ssid pwd s c Hc u0.
  assert (Hstart : wifiConnectStart u0 = millis (clock s)) by reflexivity.
  split; [reflexivity|].
  unfold pollConnection. cbn [wifiConnectStart emit set_log].
  rewrite Hstart, (sub32_small c (clock s) Hc).
  split; [|split].
  - intros ->. repeat split.
  - intros -> Hle. apply Z.ltb_ge in Hle. rewrite Hle. repeat split.
  - intros -> Hgt. apply Z.ltb_lt in Hgt. rewrite Hgt. repeat split.
Qed.

(** The theorem on an attempt started 5 s before [millis()] wraps and
    polled 21 s after the start. *)
Lemma attempt_times_out_after_20s_witness :
  millis (WORD - 5000 + 21000) = 16000
  /\ wifiConnectState
       (pollConnection quietEnv (WORD - 5000 + 21000)
          (ui (startWiFiConnect "home" "secret"
                 (stateAt quietEnv (WORD - 5000) initialUI))))
     = WFC_FAILED.
Proof.
  split; [reflexivity|].
  destruct (attempt_times_out_after_20s quietEnv "home" "secret"
              (stateAt quietEnv (WORD - 5000) initialUI)
              (WORD - 5000 + 21000)) as (_ & _ & _ & H);
    [vm_compute; split; [discriminate | reflexivity]|].
  destruct H as (A & _); [reflexivity | vm_compute; reflexivity | exact A].
Defined.

(** ** The periodic refresh *)

Lemma periodicRefresh_stamp (env : Env) (c : Z) (u : UI) :
  UI_REFRESH_MS < sub32 (millis c) (lastUiRefresh u) ->
  lastUiRefresh (periodicRefresh env c u) = millis c.
Proof.
  intros H. apply Z.ltb_lt in H.
  unfold periodicRefresh, pollConnection, showLocalWeather. rewrite H. cbn.
  destruct (currentScreen u); try reflexivity.
  - split_ifs; reflexivity.
  - destruct (wifiConnectState u); try reflexivity. split_ifs; reflexivity.
Qed.

(** X15.  The periodic tasks run at most once in 700 ms: they do nothing
    unless more than 700 ms have passed since they last ran, and once
    they have run at clock [c], a call at any clock up to [c + 700]
    changes nothing, whatever the screen and the radio. *)
Theorem refresh_at_most_every_700_ms :
  forall (env env' : Env) (c c' : Z) (u : UI),
    (sub32 (millis c) (lastUiRefresh u) <= UI_REFRESH_MS ->
     periodicRefresh env c u = u)
    /\ (UI_REFRESH_MS < sub32 (millis c) (lastUiRefresh u) ->
        0 <= c' - c <= UI_REFRESH_MS ->
        periodicRefresh env' c' (periodicRefresh env c u)
        = periodicRefresh env c u).
Proof.
  intros env env' c c' u. split.
  - intros H. apply Z.ltb_ge in H. unfold periodicRefresh. now rewrite H.
  - intros Hfire Hc'.
    pose proof (periodicRefresh_stamp env c u Hfire) as Hst.
    unfold periodicRefresh at 1. rewrite Hst.
    rewrite sub32_small by (unfold UI_REFRESH_MS, WORD in *; lia).
    replace (UI_REFRESH_MS <? c' - c) with false
      by (symmetry; apply Z.ltb_ge; lia).
    reflexivity.
Qed.

(** The theorem on [connectingState]: the poll of clock 1920 is not
    repeated at clock 2600. *)
Lemma refresh_at_most_every_700_ms_witness :
  polls (log (periodicRefresh quietEnv 1920 (ui connectingState))) = 1%nat
  /\ periodicRefresh quietEnv 2600
       (periodicRefresh quietEnv 1920 (ui connectingState))
     = periodicRefresh quietEnv 1920 (ui connectingState).
Proof.
  split; [reflexivity|].
  apply (proj2 (refresh_at_most_every_700_ms quietEnv quietEnv 1920 2600
                  (ui connectingState))).
  - vm_compute. reflexivity.
  - unfold UI_REFRESH_MS. lia.
Defined.

(** ** The local-weather screen *)



(** ** When a pass of [loop] returns *)



Lemma shortPresses_pins (env : Env) (s : State) :
  samePins (btns s) (btns (shortPresses env s)).
Proof.
  rewrite shortPresses_stages.
  rewrite onEdge_btns by reflexivity.
  unfold afterSelect. rewrite onEdge_btns by apply handleSelect_btns.
  destruct (afterUpDown_btns env s) as [A B].
  split; cbn [btnSel btnBack set_btnBack set_btnSel pressedEdge snd
              set_prevStable pin].
  - rewrite A. cbn. apply pin_updateOne.
  - rewrite B. cbn. apply pin_updateOne.
Qed.

(** While the button stays down, the wait does not end. *)
Lemma waitRelease_stuck (env : Env) (which : Buttons -> Btn) (fuel : nat) :
  tracksPin which ->
  forall s,
    isPressed (which (btns s)) = true ->
    (forall c, clock s <= c ->
               digitalRead env (pin (which (btns s))) c = LOW) ->
    waitRelease fuel env which s = None.
Proof.
  intros Hw. induction fuel as [|fuel IH]; intros s Hp Hlow;
    cbn [waitRelease]; rewrite Hp; [reflexivity|].
  assert (Hb : which (btns (updateButtons env (delay 10 s)))
               = updateOne (millis (clock s + 10)) LOW (which (btns s))).
  { cbn. rewrite Hw, Hlow by lia. reflexivity. }
  apply IH.
  - rewrite Hb. unfold isPressed in *. rewrite eqb_LOW in *.
    rewrite stable_updateOne_low; [reflexivity|].
    now destruct (stable (which (btns s))).
  - intros c Hc. rewrite Hb, pin_updateOne. apply Hlow. cbn in Hc. lia.
Qed.






Lemma keyboardLongPress_blocks (fuel : nat) (env : Env) (m : State) :
  currentScreen (ui m) = SCREEN_WIFI_KEYBOARD ->
  longHeld (millis (clock m)) (btnSel (btns m)) = true ->
  (forall c, clock m <= c ->
             digitalRead env (pin (btnSel (btns m))) c = LOW) ->
  keyboardLongPress fuel env m = None.
Proof.
  intros Hk Hheld Hlow. unfold keyboardLongPress. rewrite Hk.
  unfold keyboardSelectLong. rewrite Hheld.
  rewrite (waitRelease_stuck env btnSel fuel tracksPin_sel); [reflexivity| |].
  - change (btns (onUI insertHighlighted m)) with (btns m).
    unfold longHeld in Hheld.
    apply andb_prop in Hheld. destruct Hheld as [Hheld _].
    apply andb_prop in Hheld. now destruct Hheld.
  - exact Hlow.
Qed.

(** X18.  A held button holds the whole sketch.  If the insert wait
    begins with SELECT stable-pressed and the pin stays low from then on,
    the pass of [loop] does not return, whatever bound is put on the
    wait: as long as the button is down there is no refresh and no
    connection poll. *)
Theorem pass_blocks_while_select_is_down :
  forall (fuel : nat) (env : Env) (s : State),
    currentScreen (ui (shortPresses env s)) = SCREEN_WIFI_KEYBOARD ->
    longHeld (millis (clock (shortPresses env s)))
      (btnSel (btns (shortPresses env s))) = true ->
    (forall c, clock (shortPresses env s) <= c ->
               digitalRead env (pin (btnSel (btns s))) c = LOW) ->
    loop fuel env s = None.
Proof.
  intros fuel env s. unfold loop.
  destruct (shortPresses_pins env s) as [Ps _].
  generalize dependent (shortPresses env s). intros m Ps Hk Hheld Hlow.
  rewrite (keyboardLongPress_blocks fuel env m Hk Hheld); [reflexivity|].
  intros c Hc. rewrite Ps. now apply Hlow.
Qed.

(** The theorem with SELECT held for good, for a bound of 1000 waits. *)
Lemma pass_blocks_while_select_is_down_witness :
  loop 1000 selStuckEnv (keyboardSelHeld 3000 "ab" "") = None.
Proof.
  apply pass_blocks_while_select_is_down;
    [reflexivity | reflexivity | intros c Hc; reflexivity].
Defined.

(** ** Where a connection attempt can start *)

Lemma begins_app (l l' : list Event) : begins (l ++ l') = begins l ++ begins l'.
Proof. apply filter_app. Qed.

Lemma begins_commands (l : list Event) : begins (commands l) = begins l.
Proof.
  unfold begins, commands. induction l as [|e l IH]; [reflexivity|].
  destruct e; cbn; rewrite ?IH; reflexivity.
Qed.

Lemma nothingStarted_refl (u : UI) : nothingStarted u u.
Proof. repeat split; auto. Qed.

Lemma nothingStarted_trans (u v w : UI) :
  nothingStarted u v -> nothingStarted v w -> nothingStarted u w.
Proof.
  unfold nothingStarted. intros (A & B & C) (A' & B' & C').
  repeat split; try congruence. auto.
Qed.

Ltac nothing_started :=
  unfold nothingStarted; cbn; rewrite ?begins_app, ?app_nil_r;
  repeat split; auto; try discriminate; intros; congruence.

Lemma handleUp_nothingStarted (u : UI) : nothingStarted u (handleUp u).
Proof.
  unfold handleUp. destruct (currentScreen u); split_ifs; nothing_started.
Qed.

Lemma handleDown_nothingStarted (u : UI) : nothingStarted u (handleDown u).
Proof.
  unfold handleDown. destruct (currentScreen u); split_ifs; nothing_started.
Qed.

Lemma handleBack_nothingStarted (u : UI) : nothingStarted u (handleBack u).
Proof.
  unfold handleBack. destruct (currentScreen u); nothing_started.
Qed.

Lemma handleSelect_nothingStarted (env : Env) (s : State) :
  nothingStarted (ui s) (ui (handleSelect env s)).
Proof.
  unfold handleSelect, menuDispatch, startWifiScanAndShow, showLocalWeather,
    showGeolocation.
  destruct (currentScreen (ui s)); cbn; split_ifs; nothing_started.
Qed.

Lemma periodicRefresh_nothingStarted (env : Env) (c : Z) (u : UI) :
  nothingStarted u (periodicRefresh env c u).
Proof.
  unfold periodicRefresh, pollConnection, showLocalWeather.
  destruct (UI_REFRESH_MS <? _); [|apply nothingStarted_refl]. cbn.
  destruct (currentScreen u) eqn:E; try nothing_started.
  - split_ifs; nothing_started.
  - destruct (wifiConnectState u) eqn:W; try nothing_started.
    split_ifs; nothing_started.
Qed.

Lemma onEdge_nothingStarted (u0 : UI) (get : Buttons -> Btn)
    (set : Btn -> Buttons -> Buttons) (h : State -> State) (s : State) :
  (forall s1, nothingStarted (ui s1) (ui (h s1))) ->
  nothingStarted u0 (ui s) -> nothingStarted u0 (ui (onEdge get set h s)).
Proof.
  intros Hh Hs. rewrite onEdge_ui. destruct (fst _); [|exact Hs].
  eapply nothingStarted_trans; [exact Hs|]. apply (Hh (set_btns _ s)).
Qed.

Lemma shortPresses_nothingStarted (env : Env) (s : State) :
  nothingStarted (ui s) (ui (shortPresses env s)).
Proof.
  unfold shortPresses.
  apply onEdge_nothingStarted;
    [intros s0; apply handleBack_nothingStarted|].
  apply onEdge_nothingStarted;
    [intros s0; apply handleSelect_nothingStarted|].
  apply onEdge_nothingStarted;
    [intros s0; apply handleDown_nothingStarted|].
  apply onEdge_nothingStarted;
    [intros s0; apply handleUp_nothingStarted|].
  apply nothingStarted_refl.
Qed.

Lemma manualSetupLongPress_nothingStarted (fuel : nat) (env : Env)
    (m s2 : State) :
  manualSetupLongPress fuel env m = Some s2 ->
  nothingStarted (ui m) (ui s2).
Proof.
  unfold manualSetupLongPress. intros H.
  destruct (currentScreen (ui m));
    try (injection H as <-; apply nothingStarted_refl).
  destruct (longHeld _ _); [|injection H as <-; apply nothingStarted_refl].
  apply waitRelease_ui in H. rewrite H. nothing_started.
Qed.

Lemma keyboardEdit_nothingStarted (u u' : UI) :
  keyboardEdit u u' -> nothingStarted u u'.
Proof.
  intros (_ & B & C & D). split; [exact B|]. split; [|congruence].
  now rewrite <- begins_commands, D, begins_commands.
Qed.

Lemma delay_0 (s : State) : delay 0 s = s.
Proof. destruct s. unfold delay, set_clock. cbn. now rewrite Z.add_0_r. Qed.

Lemma keyboardConfirmAt_0 (s : State) :
  keyboardConfirmAt 0 s = keyboardConfirm s.
Proof.
  unfold keyboardConfirmAt, keyboardConfirm.
  now rewrite Z.add_0_r, !delay_0.
Qed.

(** The confirm test succeeds exactly if both buttons are held long at its
    two readings of [millis()]. *)
Lemma keyboardConfirmAt_idle (d : Z) (s : State) :
  longHeld (millis (clock s)) (btnSel (btns s))
  && longHeld (millis (clock s + d)) (btnBack (btns s)) = false ->
  ui (keyboardConfirmAt d s) = ui s.
Proof.
  unfold keyboardConfirmAt, longHeld.
  destruct (isPressed (btnSel (btns s))), (isPressed (btnBack (btns s))),
    (pressedAt (btnSel (btns s)) =? 0), (pressedAt (btnBack (btns s)) =? 0),
    (LONGPRESS_MS <? sub32 (millis (clock s)) (pressedAt (btnSel (btns s)))),
    (LONGPRESS_MS
       <? sub32 (millis (clock s + d)) (pressedAt (btnBack (btns s))));
    cbn; intros H; try discriminate H; reflexivity.
Qed.

Lemma keyboardConfirmAt_fires (d : Z) (s : State) :
  longHeld (millis (clock s)) (btnSel (btns s)) = true ->
  longHeld (millis (clock s + d)) (btnBack (btns s)) = true ->
  keyboardConfirmAt d s
  = (s |> delay d
       |> onUI (fun u =>
            u |> putString PREF_SSID_KEY (manualSSID u)
              |> putString PREF_PWD_KEY (manualPassword u))
       |> (fun s1 =>
             startWiFiConnect (manualSSID (ui s1)) (manualPassword (ui s1))
               s1)
       |> delay 40).
Proof.
  unfold keyboardConfirmAt, longHeld.
  destruct (isPressed (btnSel (btns s))), (isPressed (btnBack (btns s))),
    (pressedAt (btnSel (btns s)) =? 0), (pressedAt (btnBack (btns s)) =? 0),
    (LONGPRESS_MS <? sub32 (millis (clock s)) (pressedAt (btnSel (btns s)))),
    (LONGPRESS_MS
       <? sub32 (millis (clock s + d)) (pressedAt (btnBack (btns s))));
    cbn; intros H1 H2; try discriminate H1; try discriminate H2; reflexivity.
Qed.

Lemma keyboardLongPressAt_fires (d1 d2 d3 : Z) (fuel : nat) (env : Env)
    (s : State) :
  currentScreen (ui s) = SCREEN_WIFI_KEYBOARD ->
  crossesThreshold d1 d2 d3 s = true ->
  keyboardLongPressAt d1 d2 d3 fuel env s
  = Some (s |> delay d1 |> delay d2 |> delay d3
            |> onUI (fun u =>
                 u |> putString PREF_SSID_KEY (manualSSID u)
                   |> putString PREF_PWD_KEY (manualPassword u))
            |> (fun s1 =>
                  startWiFiConnect (manualSSID (ui s1))
                    (manualPassword (ui s1)) s1)
            |> delay 40).
Proof.
  intros Hk H. unfold crossesThreshold in H.
  apply andb_prop in H. destruct H as [H H4].
  apply andb_prop in H. destruct H as [H H3].
  apply andb_prop in H. destruct H as [H1 H2].
  apply negb_true_iff in H1. apply negb_true_iff in H2.
  unfold keyboardLongPressAt. rewrite Hk.
  unfold keyboardSelectLong. rewrite H1. cbn [andThen].
  unfold keyboardBackLong.
  change (clock (delay d1 s)) with (clock s + d1).
  change (btns (delay d1 s)) with (btns s).
  rewrite H2. cbn [andThen]. f_equal.
  now apply keyboardConfirmAt_fires.
Qed.

Lemma keyboardLongPressAt_idle (d1 d2 d3 : Z) (fuel : nat) (env : Env)
    (s s' : State) :
  currentScreen (ui s) = SCREEN_WIFI_KEYBOARD ->
  crossesThreshold d1 d2 d3 s = false ->
  keyboardLongPressAt d1 d2 d3 fuel env s = Some s' ->
  keyboardEdit (ui s) (ui s').
Proof.
  intros Hk Hc H. unfold keyboardLongPressAt in H. rewrite Hk in H.
  apply andThen_Some in H. destruct H as (s2 & H & [= <-]).
  apply andThen_Some in H. destruct H as (s1 & H1 & H2).
  apply keyboardSelectLong_cases in H1. apply keyboardBackLong_cases in H2.
  change (ui (delay d1 s1)) with (ui s1) in H2.
  change (btns (delay d1 s1)) with (btns s1) in H2.
  change (clock (delay d1 s1)) with (clock s1 + d1) in H2.
  destruct H2 as [(Hb & Hu2 & Hr2)|(Hb & ->)].
  - (* the delete gesture ran: BACK is released *)
    rewrite keyboardConfirmAt_idle.
    2:{ change (btns (delay d2 s2)) with (btns s2).
        rewrite (longHeld_released _ _ Hr2). apply andb_false_r. }
    change (ui (delay d2 s2)) with (ui s2). rewrite Hu2.
    destruct H1 as [(Hs & Hu1 & Hr1)|(Hs & ->)].
    + rewrite Hu1.
      eapply keyboardEdit_trans; [apply keyboardEdit_insert|].
      apply keyboardEdit_delete.
    + apply keyboardEdit_delete.
  - destruct H1 as [(Hs & Hu1 & Hr1)|(Hs & ->)].
    + (* only the insert gesture ran: SELECT is released *)
      rewrite keyboardConfirmAt_idle.
      2:{ change (btns (delay d2 (delay d1 s1))) with (btns s1).
          now rewrite (longHeld_released _ _ Hr1). }
      change (ui (delay d2 (delay d1 s1))) with (ui s1). rewrite Hu1.
      apply keyboardEdit_insert.
    + (* neither ran: the confirm test decides *)
      rewrite keyboardConfirmAt_idle.
      2:{ change (btns (delay d2 (delay d1 s))) with (btns s).
          change (clock (delay d2 (delay d1 s))) with (clock s + d1 + d2).
          unfold crossesThreshold in Hc. rewrite Hs, Hb in Hc.
          cbn [negb andb] in Hc. exact Hc. }
      apply keyboardEdit_refl.
Qed.

Lemma crossesThreshold_needs_time (d1 d2 d3 : Z) (s : State) :
  d1 + d2 = 0 \/ d2 + d3 = 0 -> crossesThreshold d1 d2 d3 s = false.
Proof.
  unfold crossesThreshold. intros [H|H].
  - replace (clock s + d1 + d2) with (clock s) by lia.
    destruct (longHeld (millis (clock s)) (btnSel (btns s))); cbn;
      [reflexivity|]. now rewrite andb_false_r.
  - replace (clock s + d1 + d2 + d3) with (clock s + d1) by lia.
    destruct (longHeld (millis (clock s + d1)) (btnBack (btns s))); cbn;
      [now rewrite andb_false_r|]. apply andb_false_r.
Qed.

Lemma keyboardLongPressAt_0 (fuel : nat) (env : Env) (s : State) :
  keyboardLongPressAt 0 0 0 fuel env s = keyboardLongPress fuel env s.
Proof.
  unfold keyboardLongPressAt, keyboardLongPress.
  destruct (currentScreen (ui s)); try reflexivity.
  destruct (keyboardSelectLong fuel env s) as [s1|]; [|reflexivity].
  cbn [andThen]. rewrite delay_0.
  destruct (keyboardBackLong fuel env s1) as [s2|]; [|reflexivity].
  cbn [andThen]. now rewrite delay_0, keyboardConfirmAt_0.
Qed.

(** X19.  A pass of [loop] can save credentials and start a connection
    attempt in one place only, the confirm test of the keyboard block,
    and there only while both holds pass the threshold.  The short-press
    handlers, the manual-setup block and the periodic refresh never write
    to [Preferences], call [WiFi.begin] or enter the connecting state.
    On the keyboard, with [d1], [d2] and [d3] ms passing between the four
    readings of [millis()] of the block: if SELECT is not yet held long
    at the first reading, BACK not at the second, and both are at the
    third and the fourth, the block saves the two buffers and calls
    [WiFi.begin] with them; in every other case it saves nothing, starts
    nothing and stays on the keyboard.  The first case needs the clock to
    move between the readings: with all four in the same millisecond,
    which is [keyboardLongPress], the block never starts an attempt. *)
Theorem confirm_fires_only_across_threshold :
  forall (fuel : nat) (env : Env) (d1 d2 d3 : Z) (s : State),
    nothingStarted (ui s) (ui (shortPresses env s))
    /\ (forall s', manualSetupLongPress fuel env s = Some s' ->
                   nothingStarted (ui s) (ui s'))
    /\ (forall c, nothingStarted (ui s) (periodicRefresh env c (ui s)))
    /\ (currentScreen (ui s) = SCREEN_WIFI_KEYBOARD ->
        (crossesThreshold d1 d2 d3 s = true ->
         exists s',
           keyboardLongPressAt d1 d2 d3 fuel env s = Some s'
           /\ begins (log (ui s'))
              = begins (log (ui s))
                ++ [EvWifiBegin (manualSSID (ui s)) (manualPassword (ui s))]
           /\ getStringOr PREF_SSID_KEY (ui s') = manualSSID (ui s)
           /\ getStringOr PREF_PWD_KEY (ui s') = manualPassword (ui s)
           /\ currentScreen (ui s') = SCREEN_WIFI_CONNECTING
           /\ wifiConnectState (ui s') = WFC_CONNECTING)
        /\ (crossesThreshold d1 d2 d3 s = false ->
            forall s',
              keyboardLongPressAt d1 d2 d3 fuel env s = Some s' ->
              nothingStarted (ui s) (ui s')
              /\ currentScreen (ui s') = SCREEN_WIFI_KEYBOARD)
        /\ (d1 + d2 = 0 \/ d2 + d3 = 0 ->
            crossesThreshold d1 d2 d3 s = false)
        /\ keyboardLongPressAt 0 0 0 fuel env s
           = keyboardLongPress fuel env s).
Proof.
  intros fuel env d1 d2 d3 s.
  split; [apply shortPresses_nothingStarted|].
  split; [intros s'; apply manualSetupLongPress_nothingStarted|].
  split; [intros c; apply periodicRefresh_nothingStarted|].
  intros Hk. split; [|split; [|split]].
  - intros Hc. rewrite (keyboardLongPressAt_fires _ _ _ _ _ _ Hk Hc).
    eexists. split; [reflexivity|].
    cbn. rewrite !begins_app. cbn. rewrite !app_nil_r.
    repeat split; reflexivity.
  - intros Hc s' H.
    pose proof (keyboardLongPressAt_idle _ _ _ _ _ _ _ Hk Hc H) as He.
    split; [now apply keyboardEdit_nothingStarted|].
    destruct He as (A & _). congruence.
  - apply crossesThreshold_needs_time.
  - apply keyboardLongPressAt_0.
Qed.

(** The theorem on the keyboard with "ab" and "pw" in the buffers and both
    buttons stable-pressed since clock 1000, met at clock 2200, when the
    holds have lasted 1200 ms, with the clock moving on by one millisecond
    between the BACK test and the confirm test: the block calls
    [WiFi.begin] with "ab" and "pw". *)
Lemma confirm_fires_only_across_threshold_witness :
  exists s',
    keyboardLongPressAt 0 1 0 0 quietEnv (keyboardBothHeld 2200 "ab" "pw")
    = Some s'
    /\ begins (log (ui s')) = [EvWifiBegin "ab"%string "pw"%string]
    /\ currentScreen (ui s') = SCREEN_WIFI_CONNECTING.
Proof.
  destruct (confirm_fires_only_across_threshold 0 quietEnv 0 1 0
              (keyboardBothHeld 2200 "ab" "pw")) as (_ & _ & _ & H).
  destruct (H eq_refl) as (Hf & _).
  destruct (Hf eq_refl) as (s' & E & B & _ & _ & C & _).
  exists s'. split; [exact E|]. split; [exact B | exact C].
Defined.


(** ** Start-up *)

Lemma bootWait_bounded (env : Env) (c0 : Z) (n : nat) :
  forall (k : Z) (s : State),
    0 <= k <= 30 -> clock s = c0 + 200 * k -> 30 <= k + Z.of_nat n ->
    exists s' k',
      bootWait n env (millis c0) s = Some s'
      /\ k <= k' <= 30 /\ clock s' = c0 + 200 * k'
      /\ (wifiLinked env (clock s') = true \/ k' = 30)
      /\ prefs (ui s') = prefs (ui s)
      /\ begins (log (ui s')) = begins (log (ui s)).
Proof.
  induction n as [|n IH]; intros k s Hk Hc Hn; cbn [bootWait];
    destruct (wifiLinked env (clock s)) eqn:L;
    try (exists (onUI (emit EvWifiStatus) s), k; cbn;
         rewrite ?begins_app, ?app_nil_r;
         repeat split; auto; lia).
  - assert (k = 30) by lia. subst k.
    rewrite Hc, sub32_small by (unfold WORD; lia).
    replace (c0 + 200 * 30 - c0 <? 6000) with false
      by (symmetry; apply Z.ltb_ge; lia).
    exists (onUI (emit EvWifiStatus) s), 30. cbn.
    rewrite begins_app, app_nil_r. repeat split; auto; lia.
  - rewrite Hc, sub32_small by (unfold WORD; lia).
    destruct (Z.ltb_spec (c0 + 200 * k - c0) 6000) as [Hlt|Hge].
    + destruct (IH (k + 1) (delay 200 (onUI (emit EvWifiStatus) s)))
        as (s' & k' & E & Hk' & Hc' & Hend & Hp & Hb);
        [lia | cbn [clock delay set_clock onUI set_ui]; lia | lia |].
      exists s', k'. rewrite E. cbn in Hp, Hb.
      rewrite begins_app, app_nil_r in Hb.
      repeat split; auto; lia.
    + assert (k = 30) by lia. subst k.
      exists (onUI (emit EvWifiStatus) s), 30. cbn.
      rewrite begins_app, app_nil_r. repeat split; auto; lia.
Qed.

(** X20.  The connection attempt of [setup] cannot hang: whatever the
    radio does, the wait ends after at most 30 delays of 200 ms, that is
    within 6 s, either linked or at the timeout.  It then records whether
    the radio is linked, and it has called [WiFi.begin] exactly once and
    written nothing to [Preferences]. *)
Theorem boot_attempt_gives_up_after_6s :
  forall (env : Env) (s : State),
    exists s',
      bootAutoConnect 30 env s = Some s'
      /\ clock s <= clock s' <= clock s + 6000
      /\ (wifiLinked env (clock s') = true \/ clock s' = clock s + 6000)
      /\ wifiConnected (ui s') = wifiLinked env (clock s')
      /\ prefs (ui s') = prefs (ui s)
      /\ List.length (begins (log (ui s')))
         = S (List.length (begins (log (ui s)))).
Proof.
  intros env s. unfold bootAutoConnect.
  set (saved := (0 <? String.length (getStringOr PREF_SSID_KEY (ui s)))%nat).
  set (trySsid := if saved then getStringOr PREF_SSID_KEY (ui s)
                  else DEFAULT_WIFI_SSID).
  set (tryPwd := if saved then getStringOr PREF_PWD_KEY (ui s)
                 else DEFAULT_WIFI_PASSWORD).
  assert (Htry : (0 <? String.length trySsid)%nat = true).
  { unfold trySsid, saved.
    destruct (0 <? String.length (getStringOr PREF_SSID_KEY (ui s)))%nat
      eqn:E; [exact E | reflexivity]. }
  rewrite Htry.
  match goal with
  | |- context [bootWait 30 env (millis (clock ?x)) ?x] =>
      destruct (bootWait_bounded env (clock x) 30 0 x)
        as (s2 & k' & E & Hk' & Hc' & Hend & Hp & Hb);
      [lia | lia | lia |]
  end.
  rewrite E. cbn [andThen]. eexists. split; [reflexivity|].
  cbn [clock onUI set_ui ui] in Hc', Hp, Hb |- *.
  cbn [log emit set_log] in Hb. rewrite !begins_app in Hb. cbn in Hb.
  split; [lia|].
  split; [destruct Hend as [Hl|Hk30]; [now left | right; lia]|].
  destruct (wifiLinked env (clock s2)); cbn;
    rewrite ?begins_app, Hb, ?length_app; cbn;
    repeat split; auto; lia.
Qed.

Lemma prefs_after_startWiFiConnect (ssid pwd : string) (s : State) :
  getStringOr PREF_SSID_KEY (ui (startWiFiConnect ssid pwd s)) = ssid
  /\ getStringOr PREF_PWD_KEY (ui (startWiFiConnect ssid pwd s)) = pwd.
Proof. split; reflexivity. Qed.

Lemma bootAutoConnect_begins (env : Env) (s0 : State) :
  log (ui s0) = [] ->
  let saved := (0 <? String.length (getStringOr PREF_SSID_KEY (ui s0)))%nat in
  exists s',
    bootAutoConnect 30 env s0 = Some s'
    /\ begins (log (ui s'))
       = [EvWifiBegin
            (if saved then getStringOr PREF_SSID_KEY (ui s0)
             else DEFAULT_WIFI_SSID)
            (if saved then getStringOr PREF_PWD_KEY (ui s0)
             else DEFAULT_WIFI_PASSWORD)].
Proof.
  intros Hl saved. unfold bootAutoConnect. fold saved.
  set (try1 := if saved then getStringOr PREF_SSID_KEY (ui s0)
               else DEFAULT_WIFI_SSID).
  set (try2 := if saved then getStringOr PREF_PWD_KEY (ui s0)
               else DEFAULT_WIFI_PASSWORD).
  assert (Htry : (0 <? String.length try1)%nat = true).
  { unfold try1, saved.
    destruct (0 <? String.length (getStringOr PREF_SSID_KEY (ui s0)))%nat
      eqn:E; [exact E | reflexivity]. }
  rewrite Htry. clearbody try1 try2.
  match goal with
  | |- context [bootWait 30 env (millis (clock ?x)) ?x] =>
      destruct (bootWait_bounded env (clock x) 30 0 x)
        as (s2 & k' & E & _ & _ & _ & _ & Hb);
      [lia | lia | lia |]
  end.
  rewrite E. cbn [andThen]. eexists. split; [reflexivity|].
  cbn [ui onUI set_ui log emit set_log] in Hb. rewrite Hl in Hb.
  cbn in Hb.
  destruct (wifiLinked env (clock s2)); cbn;
    rewrite ?begins_app, Hb; reflexivity.
Qed.

Lemma boot_uses_saved (env : Env) (c : Z) (u : UI) (ssid pwd : string) :
  getStringOr PREF_SSID_KEY u = ssid ->
  getStringOr PREF_PWD_KEY u = pwd ->
  log u = [] ->
  (ssid <> EmptyString ->
   buffers (loadSavedCredentials u) = (ssid, pwd)
   /\ exists s',
        bootAutoConnect 30 env (bootState env c u) = Some s'
        /\ begins (log (ui s')) = [EvWifiBegin ssid pwd])
  /\ (ssid = EmptyString ->
      loadSavedCredentials u = u
      /\ exists s',
           bootAutoConnect 30 env (bootState env c u) = Some s'
           /\ begins (log (ui s'))
              = [EvWifiBegin DEFAULT_WIFI_SSID DEFAULT_WIFI_PASSWORD]).
Proof.
  intros Hs Hp Hlog. split.
  - intros Hne.
    assert (Hlen : (0 <? String.length ssid)%nat = true)
      by (destruct ssid; [contradiction|reflexivity]).
    assert (Hload : loadSavedCredentials u
                    = (u |> set_manualSSID ssid |> set_manualPassword pwd)).
    { unfold loadSavedCredentials. now rewrite Hs, Hp, Hlen. }
    split; [now rewrite Hload|].
    destruct (bootAutoConnect_begins env (bootState env c u))
      as (s' & E & Hb).
    { unfold bootState. cbn [ui]. now rewrite Hload. }
    exists s'. split; [exact E|]. rewrite Hb.
    unfold bootState. cbn [ui]. rewrite Hload.
    change (getStringOr PREF_SSID_KEY
              (u |> set_manualSSID ssid |> set_manualPassword pwd))
      with (getStringOr PREF_SSID_KEY u).
    change (getStringOr PREF_PWD_KEY
              (u |> set_manualSSID ssid |> set_manualPassword pwd))
      with (getStringOr PREF_PWD_KEY u).
    now rewrite Hs, Hp, Hlen.
  - intros ->.
    assert (Hload : loadSavedCredentials u = u)
      by (unfold loadSavedCredentials; now rewrite Hs).
    split; [exact Hload|].
    destruct (bootAutoConnect_begins env (bootState env c u))
      as (s' & E & Hb).
    { unfold bootState. cbn [ui]. now rewrite Hload. }
    exists s'. split; [exact E|]. rewrite Hb.
    unfold bootState. cbn [ui]. now rewrite Hload, Hs.
Qed.

(** X21.  What [startWiFiConnect] saves is what the next start-up uses.
    After [startWiFiConnect(ssid, pwd)] with a non-empty name and a
    restart, [setup] loads that name and password into the manual
    buffers and calls [WiFi.begin] with them.  With an empty saved name
    the buffers stay as they are and the attempt is made with the
    default credentials. *)
Theorem saved_credentials_are_used_at_boot :
  forall (env : Env) (ssid pwd : string) (s : State) (c : Z),
    let u := rebooted (ui (startWiFiConnect ssid pwd s)) in
    (ssid <> EmptyString ->
     buffers (loadSavedCredentials u) = (ssid, pwd)
     /\ exists s',
          bootAutoConnect 30 env (bootState env c u) = Some s'
          /\ begins (log (ui s')) = [EvWifiBegin ssid pwd])
    /\ (ssid = EmptyString ->
        loadSavedCredentials u = u
        /\ exists s',
             bootAutoConnect 30 env (bootState env c u) = Some s'
             /\ begins (log (ui s'))
                = [EvWifiBegin DEFAULT_WIFI_SSID DEFAULT_WIFI_PASSWORD]).
Proof.
  intros env ssid pwd s c u.
  apply boot_uses_saved; reflexivity.
Qed.

(** The theorem on the credentials of [connectingState]. *)
Lemma saved_credentials_are_used_at_boot_witness :
  buffers (loadSavedCredentials (rebooted (ui connectingState)))
  = ("home"%string, "secret"%string).
Proof.
  destruct (saved_credentials_are_used_at_boot quietEnv "home" "secret"
              (stateAt quietEnv 1000 (set_lastUiRefresh 900 initialUI)) 0)
    as [H _].
  destruct H as [H _]; [discriminate | exact H].
Defined.

(** ** A button held down at start-up *)

Lemma held_at_startup_stays (run : list Sample) (b : Btn) :
  allLow run ->
  stable b = LOW -> prevStable b = LOW -> pressedAt b = 0 ->
  stable (runSamples b run) = LOW /\ pressedAt (runSamples b run) = 0.
Proof.
  revert b. induction run as [|[t r] run IH]; intros b Hlow Hs Hp Hz;
    [now split|].
  inversion Hlow as [|? ? Hr0 Hrest]; subst. cbn in Hr0. subst r.
  cbn [runSamples]. apply IH; [exact Hrest | | |];
    cbn [tickBtn pressedEdge snd fst set_prevStable stable prevStable
         pressedAt].
  - now apply stable_updateOne_low.
  - now apply stable_updateOne_low.
  - unfold updateOne. rewrite Hs.
    destruct (negb (Bool.eqb LOW (lastRaw b))); [exact Hz|].
    rewrite andb_false_r. exact Hz.
Qed.

(** X22.  A button that is down while [setupButtons] runs is ignored for
    as long as it stays down: through any low readings [pressedEdge]
    never answers true, and the long-press test never succeeds, however
    long the button is held. *)
Theorem held_at_startup_is_ignored :
  forall (p t0 : Z) (run : list Sample) (now : Z),
    allLow run ->
    fires (pressedEdges (initB p t0 LOW) run) = 0%nat
    /\ isPressed (runSamples (initB p t0 LOW) run) = true
    /\ longHeld now (runSamples (initB p t0 LOW) run) = false.
Proof.
  intros p t0 run now Hlow.
  split; [now apply pressedEdges_consumed|].
  destruct (held_at_startup_stays run (initB p t0 LOW) Hlow)
    as [Hs Hz]; try reflexivity.
  unfold longHeld, isPressed. rewrite Hs, Hz. split; reflexivity.
Qed.

(** The theorem on SELECT held from start-up to clock 3000. *)
Lemma held_at_startup_is_ignored_witness :
  fires (pressedEdges (initB BTN_SEL_PIN 0 LOW) heldSamples) = 0%nat
  /\ longHeld (millis 3000) (runSamples (initB BTN_SEL_PIN 0 LOW) heldSamples)
     = false.
Proof.
  destruct (held_at_startup_is_ignored BTN_SEL_PIN 0 heldSamples
              (millis 3000)) as (A & _ & B); [repeat constructor|].
  split; [exact A | exact B].
Defined.

(** ** Weather codes *)

(** X23.  [weatherCodeToStatus] answers "Unknown" exactly for the codes
    that are not among the 28 it knows; in particular for every negative
    code, such as the -1 [showAPISummaryWeather] uses when the reply has
    no weather code, and for every code above 99. *)
Theorem unknown_weather_codes :
  forall code : Z,
    (weatherCodeToStatus code = "Unknown"%string
     <-> ~ In code knownWeatherCodes)
    /\ (code < 0 \/ 99 < code ->
        weatherCodeToStatus code = "Unknown"%string).
Proof.
  intros code.
  assert (Hknown : In code knownWeatherCodes ->
                   weatherCodeToStatus code <> "Unknown"%string).
  { unfold knownWeatherCodes. cbn [In]. intros H.
    repeat (destruct H as [<-|H]; [vm_compute; discriminate|]).
    contradiction. }
  assert (Hunknown : ~ In code knownWeatherCodes ->
                     weatherCodeToStatus code = "Unknown"%string).
  { unfold knownWeatherCodes. cbn [In]. intros H.
    unfold weatherCodeToStatus.
    repeat match goal with
           | |- context [code =? ?k] =>
               destruct (Z.eqb_spec code k) as [E|_];
               [exfalso; apply H; lia|]
           end.
    reflexivity. }
  split; [split|].
  - intros E Hin. now apply Hknown in Hin.
  - exact Hunknown.
  - intros Hout. apply Hunknown. unfold knownWeatherCodes. cbn [In]. lia.
Qed.

(** The theorem on the code of a reply without weather code. *)
Lemma unknown_weather_codes_witness :
  weatherCodeToStatus (-1) = "Unknown"%string.
Proof.
  apply (proj2 (unknown_weather_codes (-1))). lia.
Defined.

(** ** The scan list clamps *)

(** X24.  Where the menu wraps, the scan list stops.  With the highlighted
    index among the entries that count, UP moves it one entry up and
    stays on the first, DOWN moves it one entry down and stays on the
    last; neither leaves the screen or changes the list. *)
Theorem scan_selection_clamps :
  forall u : UI,
    currentScreen u = SCREEN_WIFI_SCAN ->
    0 <= wifiListIndex u < scannedCount u ->
    wifiListIndex (handleUp u)
    = (if wifiListIndex u =? 0 then 0 else wifiListIndex u - 1)
    /\ wifiListIndex (handleDown u)
       = (if wifiListIndex u =? scannedCount u - 1
          then wifiListIndex u else wifiListIndex u + 1)
    /\ currentScreen (handleUp u) = SCREEN_WIFI_SCAN
    /\ currentScreen (handleDown u) = SCREEN_WIFI_SCAN
    /\ scannedSSIDs (handleUp u) = scannedSSIDs u
    /\ scannedSSIDs (handleDown u) = scannedSSIDs u.
Proof.
  intros u Hscr Hi.
  assert (Hc : (0 <? scannedCount u) = true) by (apply Z.ltb_lt; lia).
  rewrite handleUp_screen, handleDown_screen.
  unfold handleUp, handleDown. rewrite Hscr, Hc. cbn.
  destruct (Z.eqb_spec (wifiListIndex u) 0);
    destruct (Z.eqb_spec (wifiListIndex u) (scannedCount u - 1));
    repeat split; auto; lia.
Qed.

(** The theorem on the list of six networks: DOWN from the fourth entry
    selects the fifth, DOWN from the last entry stays there. *)
Lemma scan_selection_clamps_witness :
  wifiListIndex (handleDown sixNetworks) = 4
  /\ wifiListIndex (handleDown (set_wifiListIndex 5 sixNetworks)) = 5.
Proof.
  destruct (scan_selection_clamps sixNetworks) as (_ & A & _);
    [reflexivity | cbn; lia |].
  destruct (scan_selection_clamps (set_wifiListIndex 5 sixNetworks))
    as (_ & B & _); [reflexivity | cbn; lia |].
  split; [exact A | exact B].
Defined.

(** ** The manual-setup screen *)

(** X25.  On the manual-setup screen a short SELECT switches between the
    name field and the password field, so that two of them select the
    same field again, and changes nothing else of the text.  A SELECT
    found held past the threshold opens the keyboard on the selected field
    at once, with the cursor on row 0, column 0 and both buffers as they
    were, and then waits for the release of SELECT: the block returns once
    SELECT reads high for good, with the keyboard still open and SELECT
    seen released, and it does not return while SELECT stays down. *)
Theorem manual_setup_selects_field :
  forall (env : Env) (s : State),
    currentScreen (ui s) = SCREEN_WIFI_MANUAL_SETUP ->
    (editingSSID (ui (handleSelect env s)) = negb (editingSSID (ui s))
     /\ editingSSID (ui (handleSelect env (handleSelect env s)))
        = editingSSID (ui s)
     /\ currentScreen (ui (handleSelect env s)) = SCREEN_WIFI_MANUAL_SETUP
     /\ buffers (ui (handleSelect env s)) = buffers (ui s))
    /\ (longHeld (millis (clock s)) (btnSel (btns s)) = true ->
        (exists s0,
           (forall fuel,
              manualSetupLongPress fuel env s = waitRelease fuel env btnSel s0)
           /\ clock s0 = clock s /\ btns s0 = btns s
           /\ currentScreen (ui s0) = SCREEN_WIFI_KEYBOARD
           /\ kbRow (ui s0) = 0 /\ kbCol (ui s0) = 0
           /\ editingSSID (ui s0) = editingSSID (ui s)
           /\ buffers (ui s0) = buffers (ui s)
           /\ log (ui s0) = log (ui s) ++ [EvDraw VKeyboard])
        /\ (forall T,
              (forall c, T <= c ->
                         digitalRead env (pin (btnSel (btns s))) c = HIGH) ->
              exists fuel s',
                manualSetupLongPress fuel env s = Some s'
                /\ currentScreen (ui s') = SCREEN_WIFI_KEYBOARD
                /\ kbRow (ui s') = 0 /\ kbCol (ui s') = 0
                /\ editingSSID (ui s') = editingSSID (ui s)
                /\ buffers (ui s') = buffers (ui s)
                /\ isPressed (btnSel (btns s')) = false)
        /\ ((forall c, clock s <= c ->
                       digitalRead env (pin (btnSel (btns s))) c = LOW) ->
            forall fuel, manualSetupLongPress fuel env s = None)).
Proof.
  intros env s Hscr. split.
  - assert (H1 : ui (handleSelect env s)
                 = (ui s |> set_editingSSID (negb (editingSSID (ui s)))
                         |> showWiFiManualSetup))
      by (unfold handleSelect; rewrite Hscr; reflexivity).
    assert (Hscr1 : currentScreen (ui (handleSelect env s))
                    = SCREEN_WIFI_MANUAL_SETUP)
      by (rewrite H1; exact Hscr).
    assert (H2 : ui (handleSelect env (handleSelect env s))
                 = (ui (handleSelect env s)
                      |> set_editingSSID
                           (negb (editingSSID (ui (handleSelect env s))))
                      |> showWiFiManualSetup))
      by (unfold handleSelect at 1; rewrite Hscr1; reflexivity).
    split; [now rewrite H1|]. split.
    + rewrite H2, H1. cbn. apply negb_involutive.
    + split; [exact Hscr1 | now rewrite H1].
  - intros Hheld.
    assert (Hdef : forall fuel,
               manualSetupLongPress fuel env s
               = waitRelease fuel env btnSel
                   (onUI (fun u =>
                      u |> set_currentScreen SCREEN_WIFI_KEYBOARD
                        |> set_kbRow 0 |> set_kbCol 0 |> showKeyboard) s))
      by (intros fuel; unfold manualSetupLongPress;
          now rewrite Hscr, Hheld).
    split; [|split].
    + eexists. split; [exact Hdef|]. repeat split.
    + intros T Hhigh.
      destruct (waitRelease_terminates env btnSel tracksPin_sel T
                  (onUI (fun u =>
                     u |> set_currentScreen SCREEN_WIFI_KEYBOARD
                       |> set_kbRow 0 |> set_kbCol 0 |> showKeyboard) s)
                  Hhigh) as (fuel & s' & Hw).
      exists fuel, s'. rewrite Hdef. split; [exact Hw|].
      rewrite (waitRelease_ui _ _ _ _ _ Hw).
      pose proof (waitRelease_released _ _ _ _ _ Hw) as Hr.
      repeat split; auto.
    + intros Hlow fuel. rewrite Hdef.
      apply waitRelease_stuck; [exact tracksPin_sel | | exact Hlow].
      unfold longHeld in Hheld.
      destruct (isPressed (btnSel (btns s))) eqn:E;
        [exact E | discriminate Hheld].
Qed.

(** The theorem on [manualSetupSelHeld], with SELECT released at clock
    4000: the block returns with the keyboard open. *)
Lemma manual_setup_selects_field_witness :
  editingSSID (ui (handleSelect quietEnv manualSetupSelHeld)) = false
  /\ exists fuel s',
       manualSetupLongPress fuel (selHeldEnv 1000 4000) manualSetupSelHeld
       = Some s'
       /\ currentScreen (ui s') = SCREEN_WIFI_KEYBOARD
       /\ buffers (ui s') = ("ab"%string, "pw"%string).
Proof.
  destruct (manual_setup_selects_field quietEnv manualSetupSelHeld)
    as ((A & _) & _); [reflexivity|].
  split; [exact A|].
  destruct (manual_setup_selects_field (selHeldEnv 1000 4000)
              manualSetupSelHeld) as (_ & B); [reflexivity|].
  destruct (B eq_refl) as (_ & R & _).
  destruct (R 4000) as (fuel & s' & E & K & _ & _ & _ & Hb & _);
    [intros c Hc; now apply selHeldEnv_released|].
  exists fuel, s'. split; [exact E|]. split; [exact K | exact Hb].
Defined.

